(** * POS-MORALES: cart totals, stock guard, checkout and table flows

    A shallow embedding of the client logic of the point-of-sale front end:
    the cart totals, the stock guard of the product grid, the checkout
    handler of [POSPage.tsx], the table handlers and the draft list of
    [TablesPage.tsx], the void handler and the list partition of
    [InvoicesPage.tsx], and the server-sent-events hook.

    Conventions.
    - Monetary amounts and stock levels are JavaScript numbers; they are
      rationals here ([Q], compared with [==]), with [NaN] added where the
      source can produce it ([parseFloat], [Number]).  Rounding of IEEE
      doubles is not modelled.
    - Identifiers and counts (quantities, guests) are integers ([Z]).
    - An [async] handler is a program that awaits requests one at a time;
      the server is an arbitrary function of the requests seen so far. *)

From Stdlib Require Import ZArith QArith Qminmax List String DecimalString Bool Lia Permutation Sorted.
Import ListNotations.

Set Implicit Arguments.

(** ** JavaScript values *)

Module Js.

(** A JavaScript number: a rational or [NaN]. *)
Inductive number : Type :=
| NaN
| Num (q : Q).

(** [x < y]: false as soon as one side is [NaN]. *)
Definition lt (x y : number) : bool :=
  match x, y with
  | Num a, Num b => negb (Qle_bool b a)
  | _, _ => false
  end.

(** [x || 0] where [x] may be [undefined] (an optional chain that stopped):
    [undefined], [NaN] and [0] are falsy. *)
Definition or_zero (x : option number) : Q :=
  match x with
  | Some (Num q) => if Qeq_bool q 0 then 0 else q
  | _ => 0
  end.

(** [x || d] on a number. *)
Definition or_default (x : number) (d : Q) : Q :=
  match x with
  | Num q => if Qeq_bool q 0 then d else q
  | NaN => d
  end.

(** What a template literal prints for an integer [n] of magnitude at most
    2^53, as a length or a table number is: its decimal digits.  A number
    beyond that prints rounded, and from 1e21 on in exponent form, which is
    not modelled: the text of a toast that prints a number enters no
    statement below. *)
Definition showZ (n : Z) : string := NilZero.string_of_int (Z.to_int n).

(** Truthiness of a [number | null] identifier. *)
Definition truthy_id (x : option Z) : bool :=
  match x with
  | Some n => negb (n =? 0)%Z
  | None => false
  end.

(** [s || fallback] on strings: the empty string is falsy. *)
Definition str_or (s fallback : string) : string :=
  if String.eqb s EmptyString then fallback else s.

(** [s || undefined]. *)
Definition str_or_undefined (s : string) : option string :=
  if String.eqb s EmptyString then None else Some s.

(** A string as its UTF-16 code units, for [String.prototype.trim]. *)
Definition text := list N.

(** ECMAScript WhiteSpace and LineTerminator code points. *)
Definition isWhiteSpace (c : N) : bool :=
  ((c =? 9) || (c =? 10) || (c =? 11) || (c =? 12) || (c =? 13) || (c =? 32)
   || (c =? 160) || (c =? 5760) || ((8192 <=? c) && (c <=? 8202))
   || (c =? 8232) || (c =? 8233) || (c =? 8239) || (c =? 8287)
   || (c =? 12288) || (c =? 65279))%N.

Fixpoint trimStart (s : text) : text :=
  match s with
  | [] => []
  | c :: r => if isWhiteSpace c then trimStart r else s
  end.

Definition trimEnd (s : text) : text := rev (trimStart (rev s)).

Definition trim (s : text) : text := trimEnd (trimStart s).

(** Truthiness of a string: non-empty. *)
Definition truthy_text (s : text) : bool :=
  match s with [] => false | _ :: _ => true end.

End Js.

(** ** The cart slice *)

Module Cart.

Inductive DiscountType : Type := percent | amount.

(** A cart line, with the field names [POSPage.tsx] reads
    ([item.id], [item.price], [item.quantity]). *)
Record CartItem : Type := {
  item_id : Z;
  item_code : string;
  item_name : string;
  price : Q;
  quantity : Z
}.

(** [state.cart], as [POSPage] destructures it. *)
Record CartState : Type := {
  items : list CartItem;
  customerId : option Z;
  customerName : string;
  discount : Q;
  discountType : DiscountType;
  notes : string
}.

Record Totals : Type := {
  subtotal : Q;
  discountAmount : Q;
  total : Q;
  itemCount : Z
}.

Definition lineAmount (i : CartItem) : Q := price i * inject_Z (quantity i).

(** The discount before clamping. *)
Definition rawDiscount (c : CartState) (sub : Q) : Q :=
  match discountType c with
  | percent => sub * discount c / 100
  | amount => discount c
  end.

Definition clamp (lo hi x : Q) : Q := Qmax lo (Qmin x hi).

(** Modelled from the spec: [store/cartSlice.ts] ([selectCartTotal] and the
    reducers) is imported by [POSPage.tsx] but is not among the source
    files.  Section 3: subtotal is the sum of unitPrice x quantity,
    discountAmount is subtotal x value / 100 for a percent discount and
    value otherwise, clamped to [0, subtotal], total is
    subtotal - discountAmount, itemCount is the sum of the quantities. *)
Definition selectCartTotal (c : CartState) : Totals :=
  let sub := fold_left (fun acc i => acc + lineAmount i) (items c) 0 in
  let disc := clamp 0 sub (rawDiscount c sub) in
  {| subtotal := sub;
     discountAmount := disc;
     total := sub - disc;
     itemCount := fold_left (fun acc i => (acc + quantity i)%Z) (items c) 0%Z |}.

(** Modelled from the spec: the [clearCart] reducer of the missing
    [cartSlice.ts].  Section 4.1: empties lines, resets discount and notes,
    does not reset the selected customer. *)
Definition clearCart (c : CartState) : CartState :=
  {| items := [];
     customerId := customerId c;
     customerName := customerName c;
     discount := 0;
     discountType := percent;
     notes := EmptyString |}.

(** Lines as the data model has them: a positive integer quantity and a
    price that is not negative. *)
Definition wf_line (i : CartItem) : Prop := 0 <= price i /\ (1 <= quantity i)%Z.

(** The sums the spec writes with a capital sigma. *)
Fixpoint sumQ (l : list Q) : Q :=
  match l with
  | [] => 0
  | x :: r => x + sumQ r
  end.

Fixpoint sumZ (l : list Z) : Z :=
  match l with
  | [] => 0%Z
  | x :: r => (x + sumZ r)%Z
  end.

(** The payload [POSPage] dispatches with [addItem]. *)
Record AddItemPayload : Type := {
  add_id : Z;
  add_code : string;
  add_name : string;
  add_price : Q
}.

Definition hasItem (id : Z) (l : list CartItem) : bool :=
  existsb (fun i => (item_id i =? id)%Z) l.

Definition adjust (id : Z) (delta : Z) (l : list CartItem) : list CartItem :=
  map (fun i => if (item_id i =? id)%Z
                then {| item_id := item_id i; item_code := item_code i;
                        item_name := item_name i; price := price i;
                        quantity := quantity i + delta |}
                else i) l.

Definition setItems (l : list CartItem) (c : CartState) : CartState :=
  {| items := l;
     customerId := customerId c;
     customerName := customerName c;
     discount := discount c;
     discountType := discountType c;
     notes := notes c |}.

(** Modelled from the spec: the [addItem] reducer of the missing
    [cartSlice.ts].  Section 4.1: if a line for the product exists, increment
    its quantity by 1; otherwise append a line of quantity 1 with the price
    of the payload. *)
Definition addItem (p : AddItemPayload) (c : CartState) : CartState :=
  if hasItem (add_id p) (items c)
  then setItems (adjust (add_id p) 1 (items c)) c
  else setItems (items c ++ [ {| item_id := add_id p; item_code := add_code p;
                                 item_name := add_name p; price := add_price p;
                                 quantity := 1 |} ]) c.

(** Modelled from the spec: the [incrementQuantity] reducer of the missing
    [cartSlice.ts].  Section 4.1: adjust the quantity of the line by +1, with
    no upper bound. *)
Definition incrementQuantity (id : Z) (c : CartState) : CartState :=
  setItems (adjust id 1 (items c)) c.

(** The cart of the spec's scenario: A at 10000 x 2, B at 5000 x 1, 10%. *)
Definition scenario : CartState :=
  {| items := [ {| item_id := 1; item_code := "A"; item_name := "A";
                   price := 10000; quantity := 2 |};
                {| item_id := 2; item_code := "B"; item_name := "B";
                   price := 5000; quantity := 1 |} ];
     customerId := None;
     customerName := "Cliente General";
     discount := 10;
     discountType := percent;
     notes := EmptyString |}.

End Cart.

(** ** The REST services and the programs that call them *)

Module Api.

Inductive PaymentMethod : Type := EFECTIVO | TARJETA_CREDITO.
Inductive TableStatus : Type := DISPONIBLE | OCUPADA | RESERVADA | FUERA_DE_SERVICIO.
Inductive InvoiceStatus : Type := COMPLETADA | ANULADA | PENDIENTE.

Definition TableStatus_eqb (a b : TableStatus) : bool :=
  match a, b with
  | DISPONIBLE, DISPONIBLE | OCUPADA, OCUPADA
  | RESERVADA, RESERVADA | FUERA_DE_SERVICIO, FUERA_DE_SERVICIO => true
  | _, _ => false
  end.

Definition InvoiceStatus_eqb (a b : InvoiceStatus) : bool :=
  match a, b with
  | COMPLETADA, COMPLETADA | ANULADA, ANULADA | PENDIENTE, PENDIENTE => true
  | _, _ => false
  end.

(** *** Entities ([types/index.ts]; the table types come from their uses) *)

Record Inventory : Type := {
  inv_quantity : Js.number;
  inv_minStock : Js.number;
  inv_maxStock : Js.number
}.

Record Product : Type := {
  product_id : Z;
  product_code : string;
  product_name : string;
  salePrice : Q;
  product_categoryId : Z;
  inventory : option Inventory
}.

Record Category : Type := { category_id : Z; category_name : string }.

Record Customer : Type := {
  customer_id : Z;
  fullName : string;
  customer_isActive : bool
}.

Record InvoiceDetail : Type := {
  detail_id : Z;
  detail_productId : Z;
  detail_productName : string;
  detail_quantity : Z;
  detail_unitPrice : Q;
  detail_subtotal : Q
}.

Record Invoice : Type := {
  invoice_id : Z;
  invoiceNumber : string;
  invoice_status : InvoiceStatus;
  invoice_total : Q;
  details : list InvoiceDetail
}.

(** Modelled from the spec: the declarations of [TableSession] and
    [RestaurantTable] are not among the source files.  The fields are those
    of section 3 that the pages read ([activeSession.invoice?.details],
    [activeSession.total], [table.status], [table.isActive]). *)
Record TableSession : Type := {
  session_invoiceNumber : string;
  session_guestCount : Z;
  session_total : Js.number;
  session_invoice : option Invoice
}.

Record RestaurantTable : Type := {
  table_id : Z;
  tableNumber : Z;
  table_name : string;
  zone : string;
  capacity : Z;
  table_status : TableStatus;
  isActive : bool;
  table_activeSession : option TableSession
}.

(** *** Request bodies

    [tableService.ts] and [invoiceService.ts] are not among the source files;
    the bodies have the fields the pages put in them. *)

Record OpenTableRequest : Type := {
  guestCount : Z;
  open_notes : option string;
  open_customerId : option Z
}.

Record TableItem : Type := {
  ti_productId : Z;
  ti_quantity : Z;
  ti_unitPrice : Q
}.

Record PayTableRequest : Type := {
  pay_paymentMethod : PaymentMethod;
  pay_amountReceived : Js.number;
  pay_discountPercent : option Q;
  pay_notes : option string
}.

Record SaleDetail : Type := {
  sd_productId : Z;
  sd_quantity : Z;
  sd_unitPrice : Q;
  sd_discountAmount : Q
}.

Record SaleRequest : Type := {
  sale_customerId : option Z;
  sale_paymentMethod : PaymentMethod;
  sale_discountPercent : Q;
  sale_amountReceived : Js.number;
  sale_notes : string;
  sale_details : list SaleDetail
}.

Record CreateTableRequest : Type := {
  new_tableNumber : Js.number;
  new_name : option string;
  new_capacity : Q;
  new_zone : string
}.

(** *** Service calls *)

Inductive Request : Type :=
| TableGetAll
| TableGetById (id : Z)
| TableGetActiveSession (id : Z)
| TableOpen (id : Z) (body : OpenTableRequest)
| TableAddItems (id : Z) (body : list TableItem)
| TableRemoveItem (id detailId : Z)
| TablePay (id : Z) (body : PayTableRequest)
| TableCreate (body : CreateTableRequest)
| TableChangeStatus (id : Z) (status : TableStatus)
| InvoiceCreateSale (body : SaleRequest)
| InvoiceGetById (id : Z)
| InvoiceGetAll
| InvoiceVoid (id : Z) (reason : Js.text)
| ProductGetActive
| CategoryGetActive
| CustomerGetAll.

(** Modelled from the spec: what each call resolves to.  The service
    modules are not among the source files; section 6 gives the answer of
    each endpoint (a session for open, add items and remove item, an object
    with the invoice id for pay and for the direct sale, the full invoice
    for the fetch by id). *)
Definition RespT (r : Request) : Type :=
  match r with
  | TableGetAll => list RestaurantTable
  | TableGetById _ => RestaurantTable
  | TableGetActiveSession _ => TableSession
  | TableOpen _ _ => TableSession
  | TableAddItems _ _ => TableSession
  | TableRemoveItem _ _ => TableSession
  | TablePay _ _ => Invoice
  | TableCreate _ => RestaurantTable
  | TableChangeStatus _ _ => RestaurantTable
  | InvoiceCreateSale _ => Invoice
  | InvoiceGetById _ => Invoice
  | InvoiceGetAll => list Invoice
  | InvoiceVoid _ _ => Invoice
  | ProductGetActive => list Product
  | CategoryGetActive => list Category
  | CustomerGetAll => list Customer
  end.

(** A rejected call: [error.response?.data?.message] may be missing. *)
Record ApiError : Type := { serverMessage : option string }.

(** [error.response?.data?.message || fallback]. *)
Definition messageOr (e : ApiError) (fallback : string) : string :=
  match serverMessage e with
  | Some m => Js.str_or m fallback
  | None => fallback
  end.

Inductive ToastKind : Type := ToastError | ToastSuccess.

(** What a handler does that can be seen from outside.  [Fire] is a request
    started by a call that the handler does not await ([fetchData()]). *)
Inductive Event : Type :=
| Await (r : Request)
| Fire (r : Request)
| Toast (k : ToastKind) (msg : string)
| ConsoleError (msg : string).

(** *** Programs: finite trees of awaited calls and effects *)

Inductive Prog (A : Type) : Type :=
| Ret (a : A)
| Call (r : Request) (k : ApiError + RespT r -> Prog A)
| Emit (e : Event) (k : Prog A).

Arguments Ret {A} a.
Arguments Call {A} r k.
Arguments Emit {A} e k.

Fixpoint pbind {A B : Type} (p : Prog A) (f : A -> Prog B) : Prog B :=
  match p with
  | Ret a => f a
  | Call r k => Call r (fun x => pbind (k x) f)
  | Emit e k => Emit e (pbind k f)
  end.

(** The server: the answer to a request may depend on everything the
    client did before. *)
Definition Env : Type := list Event -> forall r : Request, ApiError + RespT r.

Fixpoint run {A : Type} (env : Env) (log : list Event) (p : Prog A) : list Event * A :=
  match p with
  | Ret a => (log, a)
  | Call r k => run env (log ++ [Await r]) (k (env log r))
  | Emit e k => run env (log ++ [e]) k
  end.

(** *** Handlers: component state under exceptions

    State updates made before a rejected [await] are kept. *)
Definition M (S A : Type) : Type := S -> Prog (S * (ApiError + A)).

Definition ret {S A : Type} (a : A) : M S A := fun s => Ret (s, inr a).

Definition bind {S A B : Type} (m : M S A) (f : A -> M S B) : M S B :=
  fun s => pbind (m s) (fun sr =>
    match snd sr with
    | inl e => Ret (fst sr, inl e)
    | inr a => f a (fst sr)
    end).

Definition await {S : Type} (r : Request) : M S (RespT r) :=
  fun s => Call r (fun x => Ret (s, x)).

Definition emit {S : Type} (e : Event) : M S unit :=
  fun s => Emit e (Ret (s, inr tt)).

Definition modify {S : Type} (f : S -> S) : M S unit :=
  fun s => Ret (f s, inr tt).

Definition try_catch {S A : Type} (body : M S A) (handler : ApiError -> M S A) : M S A :=
  fun s => pbind (body s) (fun sr =>
    match snd sr with
    | inl e => handler e (fst sr)
    | inr a => Ret (fst sr, inr a)
    end).

Definition finally {S A : Type} (body : M S A) (fin : M S unit) : M S A :=
  fun s => pbind (body s) (fun sr =>
    pbind (fin (fst sr)) (fun sr' =>
      match snd sr' with
      | inl e => Ret (fst sr', inl e)
      | inr _ => Ret (fst sr', snd sr)
      end)).

(** Running a handler from a state: what it did and the state it left. *)
Definition exec {S A : Type} (env : Env) (m : M S A) (s : S) : list Event * S :=
  let out := run env [] (m s) in (fst out, fst (snd out)).

Definition toast_error {S : Type} (msg : string) : M S unit := emit (Toast ToastError msg).
Definition toast_success {S : Type} (msg : string) : M S unit := emit (Toast ToastSuccess msg).

(** The requests of a log, awaited or fired. *)
Definition request_of (e : Event) : option Request :=
  match e with
  | Await r | Fire r => Some r
  | _ => None
  end.

Fixpoint requests (log : list Event) : list Request :=
  match log with
  | [] => []
  | e :: rest =>
      match request_of e with
      | Some r => r :: requests rest
      | None => requests rest
      end
  end.

(** The awaited requests of a log, in order. *)
Fixpoint awaited (log : list Event) : list Request :=
  match log with
  | [] => []
  | Await r :: rest => r :: awaited rest
  | _ :: rest => awaited rest
  end.

(** A request that reads the state of the tables. *)
Definition isTableRead (r : Request) : bool :=
  match r with
  | TableGetAll | TableGetById _ | TableGetActiveSession _ => true
  | _ => false
  end.

End Api.

Declare Scope handler_scope.
Delimit Scope handler_scope with handler.
Notation "x <- m ;; k" := (Api.bind m (fun x => k))
  (at level 61, m at next level, right associativity) : handler_scope.
Notation "m ;; k" := (Api.bind m (fun _ => k))
  (at level 61, right associativity) : handler_scope.

(** ** The point-of-sale page ([POSPage.tsx]) *)

Module POS.
Import Api.
Local Open Scope handler_scope.

(** The Redux cart and the [useState] cells the handlers use.
    [amountReceived] is the text of the amount input, kept as the number
    [parseFloat] reads from it ([NaN] when it is empty or not a number);
    [total.toString()] is kept as [Num total]. *)
Record State : Type := {
  cart : Cart.CartState;
  products : list Product;
  tables : list RestaurantTable;
  selectedTableId : option Z;
  paymentMethod : PaymentMethod;
  amountReceived : Js.number;
  loading : bool;
  processing : bool;
  showPaymentModal : bool;
  showInvoiceConfirmModal : bool;
  completedInvoice : option Invoice
}.

Definition setCart (v : Cart.CartState) (s : State) : State :=
  {| cart := v; products := products s; tables := tables s;
     selectedTableId := selectedTableId s; paymentMethod := paymentMethod s;
     amountReceived := amountReceived s; loading := loading s;
     processing := processing s; showPaymentModal := showPaymentModal s;
     showInvoiceConfirmModal := showInvoiceConfirmModal s;
     completedInvoice := completedInvoice s |}.

Definition setSelectedTableId (v : option Z) (s : State) : State :=
  {| cart := cart s; products := products s; tables := tables s;
     selectedTableId := v; paymentMethod := paymentMethod s;
     amountReceived := amountReceived s; loading := loading s;
     processing := processing s; showPaymentModal := showPaymentModal s;
     showInvoiceConfirmModal := showInvoiceConfirmModal s;
     completedInvoice := completedInvoice s |}.

Definition setPaymentMethod (v : PaymentMethod) (s : State) : State :=
  {| cart := cart s; products := products s; tables := tables s;
     selectedTableId := selectedTableId s; paymentMethod := v;
     amountReceived := amountReceived s; loading := loading s;
     processing := processing s; showPaymentModal := showPaymentModal s;
     showInvoiceConfirmModal := showInvoiceConfirmModal s;
     completedInvoice := completedInvoice s |}.

Definition setAmountReceived (v : Js.number) (s : State) : State :=
  {| cart := cart s; products := products s; tables := tables s;
     selectedTableId := selectedTableId s; paymentMethod := paymentMethod s;
     amountReceived := v; loading := loading s;
     processing := processing s; showPaymentModal := showPaymentModal s;
     showInvoiceConfirmModal := showInvoiceConfirmModal s;
     completedInvoice := completedInvoice s |}.

Definition setLoading (v : bool) (s : State) : State :=
  {| cart := cart s; products := products s; tables := tables s;
     selectedTableId := selectedTableId s; paymentMethod := paymentMethod s;
     amountReceived := amountReceived s; loading := v;
     processing := processing s; showPaymentModal := showPaymentModal s;
     showInvoiceConfirmModal := showInvoiceConfirmModal s;
     completedInvoice := completedInvoice s |}.

Definition setProcessing (v : bool) (s : State) : State :=
  {| cart := cart s; products := products s; tables := tables s;
     selectedTableId := selectedTableId s; paymentMethod := paymentMethod s;
     amountReceived := amountReceived s; loading := loading s;
     processing := v; showPaymentModal := showPaymentModal s;
     showInvoiceConfirmModal := showInvoiceConfirmModal s;
     completedInvoice := completedInvoice s |}.

Definition setShowPaymentModal (v : bool) (s : State) : State :=
  {| cart := cart s; products := products s; tables := tables s;
     selectedTableId := selectedTableId s; paymentMethod := paymentMethod s;
     amountReceived := amountReceived s; loading := loading s;
     processing := processing s; showPaymentModal := v;
     showInvoiceConfirmModal := showInvoiceConfirmModal s;
     completedInvoice := completedInvoice s |}.

Definition setShowInvoiceConfirmModal (v : bool) (s : State) : State :=
  {| cart := cart s; products := products s; tables := tables s;
     selectedTableId := selectedTableId s; paymentMethod := paymentMethod s;
     amountReceived := amountReceived s; loading := loading s;
     processing := processing s; showPaymentModal := showPaymentModal s;
     showInvoiceConfirmModal := v;
     completedInvoice := completedInvoice s |}.

Definition setCompletedInvoice (v : option Invoice) (s : State) : State :=
  {| cart := cart s; products := products s; tables := tables s;
     selectedTableId := selectedTableId s; paymentMethod := paymentMethod s;
     amountReceived := amountReceived s; loading := loading s;
     processing := processing s; showPaymentModal := showPaymentModal s;
     showInvoiceConfirmModal := showInvoiceConfirmModal s;
     completedInvoice := v |}.

(** [dispatch(clearCart())]. *)
Definition dispatch_clearCart : M State unit :=
  modify (fun s => setCart (Cart.clearCart (cart s)) s).

(** [useSelector(selectCartTotal)]. *)
Definition total (s : State) : Q := Cart.total (Cart.selectCartTotal (cart s)).

(** [fetchData()] and [fetchTables()] are called without [await]: what
    happens inside the caller is their synchronous start, which sets the
    loading flag and issues the requests; the answers are handled after
    the caller has gone on. *)
Definition fetchData : M State unit :=
  modify (setLoading true) ;;
  emit (Fire ProductGetActive) ;;
  emit (Fire CategoryGetActive) ;;
  emit (Fire CustomerGetAll).

Definition fetchTables : M State unit :=
  emit (Fire TableGetAll).

(** [tables.find(t => t.id === selectedTableId) || null]. *)
Definition selectedTable (s : State) : option RestaurantTable :=
  match selectedTableId s with
  | Some id => find (fun t => (table_id t =? id)%Z) (tables s)
  | None => None
  end.

(** [selectedTableId && selectedTable && selectedTable.status === st]. *)
Definition selectedWith (st : TableStatus) (s : State) : bool :=
  Js.truthy_id (selectedTableId s) &&
  match selectedTable s with
  | Some t => TableStatus_eqb (table_status t) st
  | None => false
  end.

(** [selectedTableId] as the argument of a table call (it is a number in
    the branches that make one). *)
Definition tableArg (s : State) : Z :=
  match selectedTableId s with
  | Some id => id
  | None => 0
  end.

Definition tableItems (s : State) : list TableItem :=
  map (fun item => {| ti_productId := Cart.item_id item;
                      ti_quantity := Cart.quantity item;
                      ti_unitPrice := Cart.price item |})
      (Cart.items (cart s)).

(** [discountType === 'percent' ? discount : 0]. *)
Definition discountPercent (s : State) : Q :=
  match Cart.discountType (cart s) with
  | Cart.percent => Cart.discount (cart s)
  | Cart.amount => 0
  end.

Definition openRequest (s : State) : OpenTableRequest :=
  {| guestCount := 1;
     open_notes := None;
     open_customerId := Cart.customerId (cart s) |}.

Definition payRequest (s : State) : PayTableRequest :=
  {| pay_paymentMethod := paymentMethod s;
     pay_amountReceived := amountReceived s;
     pay_discountPercent := Some (discountPercent s);
     pay_notes := Js.str_or_undefined (Cart.notes (cart s)) |}.

Definition saleRequest (s : State) : SaleRequest :=
  {| sale_customerId := Cart.customerId (cart s);
     sale_paymentMethod := paymentMethod s;
     sale_discountPercent := discountPercent s;
     sale_amountReceived := amountReceived s;
     sale_notes := Cart.notes (cart s);
     sale_details :=
       map (fun item => {| sd_productId := Cart.item_id item;
                           sd_quantity := Cart.quantity item;
                           sd_unitPrice := Cart.price item;
                           sd_discountAmount := 0 |})
           (Cart.items (cart s)) |}.

(** The [try] block of [handleConfirmSale]; [s] is the render the handler
    closes over. *)
Definition confirmSaleBody (s : State) : M State unit :=
  if selectedWith DISPONIBLE s then
    _ <- await (TableOpen (tableArg s) (openRequest s)) ;;
    _ <- await (TableAddItems (tableArg s) (tableItems s)) ;;
    result <- await (TablePay (tableArg s) (payRequest s)) ;;
    invoiceDetail <- await (InvoiceGetById (invoice_id result)) ;;
    modify (setCompletedInvoice (Some invoiceDetail)) ;;
    dispatch_clearCart ;;
    modify (setSelectedTableId None) ;;
    modify (setShowPaymentModal false) ;;
    modify (setShowInvoiceConfirmModal true) ;;
    fetchData ;;
    fetchTables
  else if selectedWith OCUPADA s then
    _ <- await (TableAddItems (tableArg s) (tableItems s)) ;;
    result <- await (TablePay (tableArg s) (payRequest s)) ;;
    invoiceDetail <- await (InvoiceGetById (invoice_id result)) ;;
    modify (setCompletedInvoice (Some invoiceDetail)) ;;
    dispatch_clearCart ;;
    modify (setSelectedTableId None) ;;
    modify (setShowPaymentModal false) ;;
    modify (setShowInvoiceConfirmModal true) ;;
    fetchData ;;
    fetchTables
  else
    result <- await (InvoiceCreateSale (saleRequest s)) ;;
    invoiceDetail <- await (InvoiceGetById (invoice_id result)) ;;
    modify (setCompletedInvoice (Some invoiceDetail)) ;;
    dispatch_clearCart ;;
    modify (setShowPaymentModal false) ;;
    modify (setShowInvoiceConfirmModal true) ;;
    fetchData.

Definition saleErrorMessage (e : ApiError) : string :=
  messageOr e "Error al procesar la venta".

Definition handleConfirmSale (s : State) : M State unit :=
  modify (setProcessing true) ;;
  finally
    (try_catch (confirmSaleBody s)
       (fun error =>
          emit (ConsoleError "Error processing sale:") ;;
          toast_error (saleErrorMessage error)))
    (modify (setProcessing false)).

(** The calls a checkout is made of. *)
Definition isCheckoutStep (r : Request) : bool :=
  match r with
  | TableOpen _ _ | TableAddItems _ _ | TablePay _ _
  | InvoiceCreateSale _ | InvoiceGetById _ => true
  | _ => false
  end.

(** The checkout goes through one of the two table branches. *)
Definition viaTable (s : State) : bool :=
  selectedWith DISPONIBLE s || selectedWith OCUPADA s.

(** *** The payment modal and the payment buttons *)

Definition isCash (m : PaymentMethod) : bool :=
  match m with EFECTIVO => true | TARJETA_CREDITO => false end.

(** [disabled] of the confirm button of [PaymentModal]. *)
Definition confirmDisabled (s : State) : bool :=
  processing s
  || (isCash (paymentMethod s) && Js.lt (amountReceived s) (Js.Num (total s))).

(** A click on the confirm button.  [Button] passes [disabled] and [onClick]
    to a button element, and a disabled button runs no handler. *)
Definition clickConfirm (s : State) : M State unit :=
  if confirmDisabled s then ret tt else handleConfirmSale s.

(** The "Efectivo" and "Tarjeta" buttons, [disabled] on an empty cart. *)
Definition clickPaymentButton (m : PaymentMethod) (s : State) : M State unit :=
  match Cart.items (cart s) with
  | [] => ret tt
  | _ :: _ =>
      modify (setPaymentMethod m) ;;
      modify (setAmountReceived (Js.Num (total s))) ;;
      modify (setShowPaymentModal true)
  end.

(** The amount a request carries, when it carries one. *)
Definition amountSent (r : Request) : option Js.number :=
  match r with
  | TablePay _ body => Some (pay_amountReceived body)
  | InvoiceCreateSale body => Some (sale_amountReceived body)
  | _ => None
  end.

(** *** The stock guard of the product grid and of the cart lines *)

(** [product.inventory?.quantity || 0]. *)
Definition stock (p : Product) : Q :=
  Js.or_zero (option_map inv_quantity (inventory p)).

(** [items.find(i => i.id === product.id)?.quantity || 0]. *)
Definition cartQty (p : Product) (s : State) : Q :=
  Js.or_zero
    (option_map (fun i => Js.Num (inject_Z (Cart.quantity i)))
                (find (fun i => (Cart.item_id i =? product_id p)%Z)
                      (Cart.items (cart s)))).

(** The quantity of a product already in the cart, 0 when it has no line. *)
Definition quantityInCart (p : Product) (s : State) : Q :=
  match find (fun i => (Cart.item_id i =? product_id p)%Z) (Cart.items (cart s)) with
  | Some i => inject_Z (Cart.quantity i)
  | None => 0
  end.

Definition availableStock (p : Product) (s : State) : Q := stock p - cartQty p s.

Definition isOutOfStock (p : Product) (s : State) : bool :=
  Qle_bool (availableStock p s) 0.

Definition addPayload (p : Product) : Cart.AddItemPayload :=
  {| Cart.add_id := product_id p;
     Cart.add_code := product_code p;
     Cart.add_name := product_name p;
     Cart.add_price := salePrice p |}.

(** A click on a product card ([disabled] when [stock === 0]). *)
Definition clickProduct (p : Product) (s : State) : M State unit :=
  if Qeq_bool (stock p) 0 then ret tt
  else if isOutOfStock p s then
    toast_error ("Sin stock disponible para " ++ product_name p)
  else
    modify (fun st => setCart (Cart.addItem (addPayload p) (cart st)) st).

(** [products.find(p => p.id === item.id)?.inventory?.quantity || 0]. *)
Definition maxStock (item : Cart.CartItem) (s : State) : Q :=
  Js.or_zero
    (match find (fun p => (product_id p =? Cart.item_id item)%Z) (products s) with
     | Some p => option_map inv_quantity (inventory p)
     | None => None
     end).

(** [item.quantity < maxStock]. *)
Definition canIncrement (item : Cart.CartItem) (s : State) : bool :=
  negb (Qle_bool (maxStock item s) (inject_Z (Cart.quantity item))).

(** A click on the plus button of a cart line. *)
Definition clickIncrement (item : Cart.CartItem) (s : State) : M State unit :=
  if negb (canIncrement item s) then toast_error "Stock máximo alcanzado"
  else modify (fun st => setCart (Cart.incrementQuantity (Cart.item_id item) (cart st)) st).

End POS.

(** ** The tables page ([TablesPage.tsx]) *)

Module Tables.
Import Api.
Local Open Scope handler_scope.

(** An entry of [itemsToAdd]. *)
Record DraftItem : Type := {
  product : Product;
  quantity : Z
}.

Definition withQuantity (q : Z) (i : DraftItem) : DraftItem :=
  {| product := product i; quantity := q |}.

(** The four cells of the create-table form.  [newTableNumber] is [None]
    for the empty text and the number [parseInt] reads otherwise;
    [newTableCapacity] is the number [parseInt] reads. *)
Record NewTableForm : Type := {
  newTableNumber : option Js.number;
  newTableName : string;
  newTableCapacity : Js.number;
  newTableZone : string
}.

Definition emptyForm : NewTableForm :=
  {| newTableNumber := None;
     newTableName := EmptyString;
     newTableCapacity := Js.Num 4;
     newTableZone := "INTERIOR" |}.

(** The [useState] cells of the page.  [amountReceived] is the text of
    the input, kept as the number [parseFloat] reads from it. *)
Record State : Type := {
  tables : list RestaurantTable;
  selectedTable : option RestaurantTable;
  activeSession : option TableSession;
  showOpenModal : bool;
  showAddItemsModal : bool;
  showPayModal : bool;
  showCreateTableModal : bool;
  guestCount : Z;
  tableNotes : string;
  searchTerm : string;
  itemsToAdd : list DraftItem;
  paymentMethod : PaymentMethod;
  amountReceived : Js.number;
  processing : bool;
  newTable : NewTableForm
}.

Definition setTables (v : list RestaurantTable) (s : State) : State :=
  {| tables := v; selectedTable := selectedTable s; activeSession := activeSession s;
     showOpenModal := showOpenModal s; showAddItemsModal := showAddItemsModal s;
     showPayModal := showPayModal s; showCreateTableModal := showCreateTableModal s;
     guestCount := guestCount s; tableNotes := tableNotes s; searchTerm := searchTerm s;
     itemsToAdd := itemsToAdd s; paymentMethod := paymentMethod s;
     amountReceived := amountReceived s; processing := processing s;
     newTable := newTable s |}.

Definition setSelectedTable (v : option RestaurantTable) (s : State) : State :=
  {| tables := tables s; selectedTable := v; activeSession := activeSession s;
     showOpenModal := showOpenModal s; showAddItemsModal := showAddItemsModal s;
     showPayModal := showPayModal s; showCreateTableModal := showCreateTableModal s;
     guestCount := guestCount s; tableNotes := tableNotes s; searchTerm := searchTerm s;
     itemsToAdd := itemsToAdd s; paymentMethod := paymentMethod s;
     amountReceived := amountReceived s; processing := processing s;
     newTable := newTable s |}.

Definition setActiveSession (v : option TableSession) (s : State) : State :=
  {| tables := tables s; selectedTable := selectedTable s; activeSession := v;
     showOpenModal := showOpenModal s; showAddItemsModal := showAddItemsModal s;
     showPayModal := showPayModal s; showCreateTableModal := showCreateTableModal s;
     guestCount := guestCount s; tableNotes := tableNotes s; searchTerm := searchTerm s;
     itemsToAdd := itemsToAdd s; paymentMethod := paymentMethod s;
     amountReceived := amountReceived s; processing := processing s;
     newTable := newTable s |}.

Definition setShowOpenModal (v : bool) (s : State) : State :=
  {| tables := tables s; selectedTable := selectedTable s; activeSession := activeSession s;
     showOpenModal := v; showAddItemsModal := showAddItemsModal s;
     showPayModal := showPayModal s; showCreateTableModal := showCreateTableModal s;
     guestCount := guestCount s; tableNotes := tableNotes s; searchTerm := searchTerm s;
     itemsToAdd := itemsToAdd s; paymentMethod := paymentMethod s;
     amountReceived := amountReceived s; processing := processing s;
     newTable := newTable s |}.

Definition setShowAddItemsModal (v : bool) (s : State) : State :=
  {| tables := tables s; selectedTable := selectedTable s; activeSession := activeSession s;
     showOpenModal := showOpenModal s; showAddItemsModal := v;
     showPayModal := showPayModal s; showCreateTableModal := showCreateTableModal s;
     guestCount := guestCount s; tableNotes := tableNotes s; searchTerm := searchTerm s;
     itemsToAdd := itemsToAdd s; paymentMethod := paymentMethod s;
     amountReceived := amountReceived s; processing := processing s;
     newTable := newTable s |}.

Definition setShowPayModal (v : bool) (s : State) : State :=
  {| tables := tables s; selectedTable := selectedTable s; activeSession := activeSession s;
     showOpenModal := showOpenModal s; showAddItemsModal := showAddItemsModal s;
     showPayModal := v; showCreateTableModal := showCreateTableModal s;
     guestCount := guestCount s; tableNotes := tableNotes s; searchTerm := searchTerm s;
     itemsToAdd := itemsToAdd s; paymentMethod := paymentMethod s;
     amountReceived := amountReceived s; processing := processing s;
     newTable := newTable s |}.

Definition setShowCreateTableModal (v : bool) (s : State) : State :=
  {| tables := tables s; selectedTable := selectedTable s; activeSession := activeSession s;
     showOpenModal := showOpenModal s; showAddItemsModal := showAddItemsModal s;
     showPayModal := showPayModal s; showCreateTableModal := v;
     guestCount := guestCount s; tableNotes := tableNotes s; searchTerm := searchTerm s;
     itemsToAdd := itemsToAdd s; paymentMethod := paymentMethod s;
     amountReceived := amountReceived s; processing := processing s;
     newTable := newTable s |}.

Definition setGuestCount (v : Z) (s : State) : State :=
  {| tables := tables s; selectedTable := selectedTable s; activeSession := activeSession s;
     showOpenModal := showOpenModal s; showAddItemsModal := showAddItemsModal s;
     showPayModal := showPayModal s; showCreateTableModal := showCreateTableModal s;
     guestCount := v; tableNotes := tableNotes s; searchTerm := searchTerm s;
     itemsToAdd := itemsToAdd s; paymentMethod := paymentMethod s;
     amountReceived := amountReceived s; processing := processing s;
     newTable := newTable s |}.

Definition setTableNotes (v : string) (s : State) : State :=
  {| tables := tables s; selectedTable := selectedTable s; activeSession := activeSession s;
     showOpenModal := showOpenModal s; showAddItemsModal := showAddItemsModal s;
     showPayModal := showPayModal s; showCreateTableModal := showCreateTableModal s;
     guestCount := guestCount s; tableNotes := v; searchTerm := searchTerm s;
     itemsToAdd := itemsToAdd s; paymentMethod := paymentMethod s;
     amountReceived := amountReceived s; processing := processing s;
     newTable := newTable s |}.

Definition setSearchTerm (v : string) (s : State) : State :=
  {| tables := tables s; selectedTable := selectedTable s; activeSession := activeSession s;
     showOpenModal := showOpenModal s; showAddItemsModal := showAddItemsModal s;
     showPayModal := showPayModal s; showCreateTableModal := showCreateTableModal s;
     guestCount := guestCount s; tableNotes := tableNotes s; searchTerm := v;
     itemsToAdd := itemsToAdd s; paymentMethod := paymentMethod s;
     amountReceived := amountReceived s; processing := processing s;
     newTable := newTable s |}.

Definition setItemsToAdd (v : list DraftItem) (s : State) : State :=
  {| tables := tables s; selectedTable := selectedTable s; activeSession := activeSession s;
     showOpenModal := showOpenModal s; showAddItemsModal := showAddItemsModal s;
     showPayModal := showPayModal s; showCreateTableModal := showCreateTableModal s;
     guestCount := guestCount s; tableNotes := tableNotes s; searchTerm := searchTerm s;
     itemsToAdd := v; paymentMethod := paymentMethod s;
     amountReceived := amountReceived s; processing := processing s;
     newTable := newTable s |}.

Definition setAmountReceived (v : Js.number) (s : State) : State :=
  {| tables := tables s; selectedTable := selectedTable s; activeSession := activeSession s;
     showOpenModal := showOpenModal s; showAddItemsModal := showAddItemsModal s;
     showPayModal := showPayModal s; showCreateTableModal := showCreateTableModal s;
     guestCount := guestCount s; tableNotes := tableNotes s; searchTerm := searchTerm s;
     itemsToAdd := itemsToAdd s; paymentMethod := paymentMethod s;
     amountReceived := v; processing := processing s;
     newTable := newTable s |}.

Definition setProcessing (v : bool) (s : State) : State :=
  {| tables := tables s; selectedTable := selectedTable s; activeSession := activeSession s;
     showOpenModal := showOpenModal s; showAddItemsModal := showAddItemsModal s;
     showPayModal := showPayModal s; showCreateTableModal := showCreateTableModal s;
     guestCount := guestCount s; tableNotes := tableNotes s; searchTerm := searchTerm s;
     itemsToAdd := itemsToAdd s; paymentMethod := paymentMethod s;
     amountReceived := amountReceived s; processing := v;
     newTable := newTable s |}.

Definition setNewTable (v : NewTableForm) (s : State) : State :=
  {| tables := tables s; selectedTable := selectedTable s; activeSession := activeSession s;
     showOpenModal := showOpenModal s; showAddItemsModal := showAddItemsModal s;
     showPayModal := showPayModal s; showCreateTableModal := showCreateTableModal s;
     guestCount := guestCount s; tableNotes := tableNotes s; searchTerm := searchTerm s;
     itemsToAdd := itemsToAdd s; paymentMethod := paymentMethod s;
     amountReceived := amountReceived s; processing := processing s;
     newTable := v |}.

(** *** Data fetching *)

(** [fetchTables], awaited by the handlers: it catches its own errors.
    The answer is typed as a list, so [Array.isArray(res)] holds. *)
Definition fetchTables : M State unit :=
  try_catch
    (res <- await TableGetAll ;;
     modify (setTables res))
    (fun _ => toast_error "Error al cargar mesas").

(** *** Table actions *)

Definition handleOpenTable (s : State) : M State unit :=
  match selectedTable s with
  | None => ret tt
  | Some t =>
      modify (setProcessing true) ;;
      finally
        (try_catch
           (res <- await (TableOpen (table_id t)
                            {| Api.guestCount := guestCount s;
                               open_notes := Js.str_or_undefined (tableNotes s);
                               open_customerId := None |}) ;;
            modify (setActiveSession (Some res)) ;;
            toast_success ("Mesa #" ++ Js.showZ (tableNumber t) ++ " abierta") ;;
            modify (setShowOpenModal false) ;;
            modify (setGuestCount 1) ;;
            modify (setTableNotes EmptyString) ;;
            fetchTables ;;
            updated <- await (TableGetById (table_id t)) ;;
            modify (setSelectedTable (Some updated)))
           (fun err => toast_error (messageOr err "Error al abrir mesa")))
        (modify (setProcessing false))
  end.

Definition addItemsRequest (s : State) : list TableItem :=
  map (fun i => {| ti_productId := product_id (product i);
                   ti_quantity := quantity i;
                   ti_unitPrice := salePrice (product i) |})
      (itemsToAdd s).

Definition handleAddItems (s : State) : M State unit :=
  match selectedTable s, itemsToAdd s with
  | None, _ => ret tt
  | Some _, [] => ret tt
  | Some t, _ :: _ =>
      modify (setProcessing true) ;;
      finally
        (try_catch
           (res <- await (TableAddItems (table_id t) (addItemsRequest s)) ;;
            modify (setActiveSession (Some res)) ;;
            toast_success (Js.showZ (Z.of_nat (List.length (itemsToAdd s)))
                           ++ " producto(s) agregado(s)") ;;
            modify (setShowAddItemsModal false) ;;
            modify (setItemsToAdd []) ;;
            modify (setSearchTerm EmptyString) ;;
            fetchTables)
           (fun err => toast_error (messageOr err "Error al agregar productos")))
        (modify (setProcessing false))
  end.

Definition handleRemoveItem (detailId : Z) (s : State) : M State unit :=
  match selectedTable s with
  | None => ret tt
  | Some t =>
      try_catch
        (res <- await (TableRemoveItem (table_id t) detailId) ;;
         modify (setActiveSession (Some res)) ;;
         toast_success "Producto eliminado" ;;
         fetchTables)
        (fun err => toast_error (messageOr err "Error al eliminar producto"))
  end.

Definition payTableRequest (s : State) : PayTableRequest :=
  {| pay_paymentMethod := paymentMethod s;
     pay_amountReceived := amountReceived s;
     pay_discountPercent := None;
     pay_notes := None |}.

Definition handlePayTable (s : State) : M State unit :=
  match selectedTable s, activeSession s with
  | Some t, Some _ =>
      modify (setProcessing true) ;;
      finally
        (try_catch
           (_ <- await (TablePay (table_id t) (payTableRequest s)) ;;
            toast_success ("Mesa #" ++ Js.showZ (tableNumber t) ++ " pagada exitosamente") ;;
            modify (setShowPayModal false) ;;
            modify (setAmountReceived Js.NaN) ;;
            modify (setSelectedTable None) ;;
            modify (setActiveSession None) ;;
            fetchTables)
           (fun err => toast_error (messageOr err "Error al pagar mesa")))
        (modify (setProcessing false))
  | _, _ => ret tt
  end.

Definition createTableRequest (n : Js.number) (f : NewTableForm) : CreateTableRequest :=
  {| new_tableNumber := n;
     new_name := Js.str_or_undefined (newTableName f);
     new_capacity := Js.or_default (newTableCapacity f) 4;
     new_zone := newTableZone f |}.

Definition handleCreateTable (s : State) : M State unit :=
  match newTableNumber (newTable s) with
  | None => ret tt
  | Some n =>
      modify (setProcessing true) ;;
      finally
        (try_catch
           (_ <- await (TableCreate (createTableRequest n (newTable s))) ;;
            toast_success "Mesa creada exitosamente" ;;
            modify (setShowCreateTableModal false) ;;
            modify (setNewTable emptyForm) ;;
            fetchTables)
           (fun err => toast_error (messageOr err "Error al crear mesa")))
        (modify (setProcessing false))
  end.

(** The "Marcar como Disponible" button:
    [changeStatus(id, 'DISPONIBLE').then(() => { fetchTables(); setSelectedTable(null) })].
    [fetchTables()] is not awaited there and a rejection is not handled. *)
Definition clickMarkAvailable (s : State) : M State unit :=
  match selectedTable s with
  | None => ret tt
  | Some t =>
      try_catch
        (_ <- await (TableChangeStatus (table_id t) DISPONIBLE) ;;
         emit (Fire TableGetAll) ;;
         modify (setSelectedTable None))
        (fun _ => ret tt)
  end.

(** *** The draft list of the add-items modal *)

Definition addProductToList (p : Product) (prev : list DraftItem) : list DraftItem :=
  match find (fun i => (product_id (product i) =? product_id p)%Z) prev with
  | Some _ =>
      map (fun i => if (product_id (product i) =? product_id p)%Z
                    then withQuantity (quantity i + 1) i
                    else i) prev
  | None => prev ++ [ {| product := p; quantity := 1 |} ]
  end.

Definition updateItemQuantity (productId : Z) (delta : Z) (prev : list DraftItem)
  : list DraftItem :=
  filter (fun i => (0 <? quantity i)%Z)
    (map (fun i =>
            if (product_id (product i) =? productId)%Z then
              let newQty := (quantity i + delta)%Z in
              if (0 <? newQty)%Z then withQuantity newQty i else i
            else i) prev).

Definition removeItemFromList (productId : Z) (prev : list DraftItem) : list DraftItem :=
  filter (fun i => negb (product_id (product i) =? productId)%Z) prev.

(** The key of an entry and the two functions the operations map over
    the list, named for the proofs. *)
Definition key (i : DraftItem) : Z := product_id (product i).

Definition bump (id : Z) (i : DraftItem) : DraftItem :=
  if (key i =? id)%Z then withQuantity (quantity i + 1) i else i.

Definition shift (id delta : Z) (i : DraftItem) : DraftItem :=
  if (key i =? id)%Z then
    let newQty := (quantity i + delta)%Z in
    if (0 <? newQty)%Z then withQuantity newQty i else i
  else i.

(** The invariant of the draft list. *)
Definition draft_ok (l : list DraftItem) : Prop :=
  Forall (fun i => (1 <= quantity i)%Z) l
  /\ NoDup (map (fun i => product_id (product i)) l).

Definition quantityOf (productId : Z) (l : list DraftItem) : option Z :=
  option_map quantity (find (fun i => (product_id (product i) =? productId)%Z) l).

End Tables.

(** ** The invoices page ([InvoicesPage.tsx]) *)

Module Invoices.
Import Api.
Local Open Scope handler_scope.

Inductive Tab : Type := active | voided.

Record State : Type := {
  invoices : list Invoice;
  loading : bool;
  selectedInvoice : option Invoice;
  showVoidModal : bool;
  voidReason : Js.text;
  processing : bool;
  activeTab : Tab
}.

Definition setLoading (v : bool) (s : State) : State :=
  {| invoices := invoices s; loading := v; selectedInvoice := selectedInvoice s;
     showVoidModal := showVoidModal s; voidReason := voidReason s;
     processing := processing s; activeTab := activeTab s |}.

Definition setShowVoidModal (v : bool) (s : State) : State :=
  {| invoices := invoices s; loading := loading s; selectedInvoice := selectedInvoice s;
     showVoidModal := v; voidReason := voidReason s;
     processing := processing s; activeTab := activeTab s |}.

Definition setProcessing (v : bool) (s : State) : State :=
  {| invoices := invoices s; loading := loading s; selectedInvoice := selectedInvoice s;
     showVoidModal := showVoidModal s; voidReason := voidReason s;
     processing := v; activeTab := activeTab s |}.

(** [fetchInvoices()], called without [await]: its synchronous start. *)
Definition fetchInvoices : M State unit :=
  modify (setLoading true) ;;
  emit (Fire InvoiceGetAll).

Definition handleVoid (s : State) : M State unit :=
  match selectedInvoice s with
  | None => ret tt
  | Some inv =>
      if negb (Js.truthy_text (Js.trim (voidReason s))) then ret tt
      else
        modify (setProcessing true) ;;
        finally
          (try_catch
             (_ <- await (InvoiceVoid (invoice_id inv) (voidReason s)) ;;
              toast_success "Factura anulada" ;;
              modify (setShowVoidModal false) ;;
              fetchInvoices)
             (fun error => toast_error (messageOr error "Error al anular factura")))
          (modify (setProcessing false))
  end.

(** [invoices.filter(inv => inv.status !== 'ANULADA')]. *)
Definition activeInvoices (s : State) : list Invoice :=
  filter (fun inv => negb (InvoiceStatus_eqb (invoice_status inv) ANULADA)) (invoices s).

(** [invoices.filter(inv => inv.status === 'ANULADA')]. *)
Definition voidedInvoices (s : State) : list Invoice :=
  filter (fun inv => InvoiceStatus_eqb (invoice_status inv) ANULADA) (invoices s).

Definition currentInvoices (s : State) : list Invoice :=
  match activeTab s with
  | active => activeInvoices s
  | voided => voidedInvoices s
  end.

End Invoices.

(** ** The server-sent-events hook ([useSseEvents]) *)

Module Sse.

Inductive Callback : Type := onConnected | onNewOrder | onKitchenUpdate | onOrderPaid.

(** The options of the hook: which callbacks are given, and [enabled]
    (true when left out). *)
Record Options : Type := {
  provided : Callback -> bool;
  enabled : option bool
}.

Definition enabledOf (o : Options) : bool :=
  match enabled o with
  | Some b => b
  | None => true
  end.

(** An [EventSource] that is open. *)
Record Source : Type := {
  src_id : nat;
  src_url : string;
  src_openedAt : Z
}.

(** A timeout that has not fired; every timeout of the hook runs [connect]. *)
Record Timer : Type := {
  timer_id : nat;
  timer_due : Z
}.

(** What reaches an [EventSource]: a named event with its data, or an
    error of the stream. *)
Inductive Incoming : Type :=
| Message (name : string) (data : string)
| Error.

Section Hook.
(** [JSON.parse] ([None] when it throws) and [encodeURIComponent]. *)
Variable Json : Type.
Variable JSON_parse : string -> option Json.
Variable encodeURIComponent : string -> string.

(** The two refs of the hook and what they live in: a clock in
    milliseconds, the stored token, the open sources, the pending
    timeouts and the callbacks invoked so far. *)
Record World : Type := {
  now : Z;
  accessToken : option string;
  opened : list Source;
  created : nat;
  pending : list Timer;
  scheduled : nat;
  eventSourceRef : option nat;
  reconnectTimeoutRef : option nat;
  invoked : list (Callback * option Json)
}.

Definition url (token : string) : string :=
  ("/api/sse/events" ++ "?token=" ++ encodeURIComponent token)%string.

Definition connect (o : Options) (w : World) : World :=
  if negb (enabledOf o) then w
  else
    match accessToken w with
    | None => w
    | Some token =>
        if String.eqb token EmptyString then w
        else
          {| now := now w;
             accessToken := accessToken w;
             opened := opened w ++ [ {| src_id := created w;
                                        src_url := url token;
                                        src_openedAt := now w |} ];
             created := S (created w);
             pending := pending w;
             scheduled := scheduled w;
             eventSourceRef := Some (created w);
             reconnectTimeoutRef := reconnectTimeoutRef w;
             invoked := invoked w |}
    end.

(** [cb?.(arg)]. *)
Definition call (o : Options) (cb : Callback) (arg : option Json) (w : World) : World :=
  if provided o cb then
    {| now := now w;
       accessToken := accessToken w;
       opened := opened w;
       created := created w;
       pending := pending w;
       scheduled := scheduled w;
       eventSourceRef := eventSourceRef w;
       reconnectTimeoutRef := reconnectTimeoutRef w;
       invoked := invoked w ++ [(cb, arg)] |}
  else w.

(** [try { const data = JSON.parse(e.data); cb?.(data) } catch { }]. *)
Definition parsed (o : Options) (cb : Callback) (data : string) (w : World) : World :=
  match JSON_parse data with
  | Some d => call o cb (Some d) w
  | None => w
  end.

(** The listeners registered by [connect]. *)
Definition listener (o : Options) (name data : string) (w : World) : World :=
  if String.eqb name "connected" then call o onConnected None w
  else if String.eqb name "new_order" then parsed o onNewOrder data w
  else if String.eqb name "kitchen_update" then parsed o onKitchenUpdate data w
  else if String.eqb name "order_paid" then parsed o onOrderPaid data w
  else w.

(** [es.onerror]. *)
Definition onerror (es : nat) (w : World) : World :=
  {| now := now w;
     accessToken := accessToken w;
     opened := filter (fun s => negb (src_id s =? es)%nat) (opened w);
     created := created w;
     pending := pending w ++ [ {| timer_id := scheduled w;
                                  timer_due := (now w + 5000)%Z |} ];
     scheduled := S (scheduled w);
     eventSourceRef := None;
     reconnectTimeoutRef := Some (scheduled w);
     invoked := invoked w |}.

Definition isOpen (es : nat) (w : World) : bool :=
  existsb (fun s => (src_id s =? es)%nat) (opened w).

(** Something reaches the source [es]; a closed source hears nothing. *)
Definition deliver (o : Options) (es : nat) (i : Incoming) (w : World) : World :=
  if isOpen es w then
    match i with
    | Message name data => listener o name data w
    | Error => onerror es w
    end
  else w.

Definition setNow (t : Z) (w : World) : World :=
  {| now := t;
     accessToken := accessToken w;
     opened := opened w;
     created := created w;
     pending := pending w;
     scheduled := scheduled w;
     eventSourceRef := eventSourceRef w;
     reconnectTimeoutRef := reconnectTimeoutRef w;
     invoked := invoked w |}.

(** The rest of the application stores or removes the token. *)
Definition setAccessToken (t : option string) (w : World) : World :=
  {| now := now w;
     accessToken := t;
     opened := opened w;
     created := created w;
     pending := pending w;
     scheduled := scheduled w;
     eventSourceRef := eventSourceRef w;
     reconnectTimeoutRef := reconnectTimeoutRef w;
     invoked := invoked w |}.

Definition setPending (l : list Timer) (w : World) : World :=
  {| now := now w;
     accessToken := accessToken w;
     opened := opened w;
     created := created w;
     pending := l;
     scheduled := scheduled w;
     eventSourceRef := eventSourceRef w;
     reconnectTimeoutRef := reconnectTimeoutRef w;
     invoked := invoked w |}.

(** The clock moves on by [dt] milliseconds: the timeouts that come due
    fire at their due time, in the order they were set, and run
    [connect]. *)
Definition advance (o : Options) (dt : Z) (w : World) : World :=
  let t := (now w + dt)%Z in
  let due := filter (fun tm => (timer_due tm <=? t)%Z) (pending w) in
  let rest := filter (fun tm => negb (timer_due tm <=? t)%Z) (pending w) in
  setNow t
    (fold_left (fun acc tm => connect o (setNow (timer_due tm) acc)) due
               (setPending rest w)).

(** The cleanup of the effect (unmount). *)
Definition cleanup (w : World) : World :=
  {| now := now w;
     accessToken := accessToken w;
     opened := match eventSourceRef w with
               | Some es => filter (fun s => negb (src_id s =? es)%nat) (opened w)
               | None => opened w
               end;
     created := created w;
     pending := match reconnectTimeoutRef w with
                | Some tm => filter (fun x => negb (timer_id x =? tm)%nat) (pending w)
                | None => pending w
                end;
     scheduled := scheduled w;
     eventSourceRef := None;
     reconnectTimeoutRef := reconnectTimeoutRef w;
     invoked := invoked w |}.

End Hook.

End Sse.

(** ** Sample data: a server that accepts everything, and one that rejects
    chosen calls *)

Module Examples.
Import Api.

Definition invoice7 : Invoice :=
  {| invoice_id := 7;
     invoiceNumber := "F-0007";
     invoice_status := COMPLETADA;
     invoice_total := 12000;
     details := [] |}.

Definition invoice8 : Invoice :=
  {| invoice_id := 8;
     invoiceNumber := "F-0008";
     invoice_status := ANULADA;
     invoice_total := 5000;
     details := [] |}.

Definition session7 : TableSession :=
  {| session_invoiceNumber := "F-0007";
     session_guestCount := 1;
     session_total := Js.Num 12000;
     session_invoice := Some invoice7 |}.

Definition staleSession : TableSession :=
  {| session_invoiceNumber := "F-0001";
     session_guestCount := 4;
     session_total := Js.Num 0;
     session_invoice := None |}.

Definition table5 (st : TableStatus) : RestaurantTable :=
  {| table_id := 5;
     tableNumber := 5;
     table_name := "Mesa 5";
     zone := "INTERIOR";
     capacity := 4;
     table_status := st;
     isActive := true;
     table_activeSession := None |}.

Definition productA : Product :=
  {| product_id := 1;
     product_code := "A";
     product_name := "A";
     salePrice := 4000;
     product_categoryId := 1;
     inventory := Some {| inv_quantity := Js.Num 5;
                          inv_minStock := Js.Num 1;
                          inv_maxStock := Js.Num 10 |} |}.

Definition answer (r : Request) : RespT r :=
  match r as r0 return RespT r0 with
  | TableGetAll => [table5 DISPONIBLE]
  | TableGetById _ => table5 OCUPADA
  | TableGetActiveSession _ => session7
  | TableOpen _ _ => session7
  | TableAddItems _ _ => session7
  | TableRemoveItem _ _ => session7
  | TablePay _ _ => invoice7
  | TableCreate _ => table5 DISPONIBLE
  | TableChangeStatus _ _ => table5 DISPONIBLE
  | InvoiceCreateSale _ => invoice7
  | InvoiceGetById _ => invoice7
  | InvoiceGetAll => [invoice7; invoice8]
  | InvoiceVoid _ _ => invoice8
  | ProductGetActive => [productA]
  | CategoryGetActive => []
  | CustomerGetAll => []
  end.

(** Every call succeeds. *)
Definition server : Env := fun _ r => inr (answer r).

Definition outOfStock : ApiError := {| serverMessage := Some "Stock insuficiente"%string |}.

(** The calls chosen by [bad] are rejected. *)
Definition rejecting (bad : Request -> bool) : Env :=
  fun _ r => if bad r then inl outOfStock else inr (answer r).

Definition isAddItems (r : Request) : bool :=
  match r with TableAddItems _ _ => true | _ => false end.

Definition isCreate (r : Request) : bool :=
  match r with TableCreate _ => true | _ => false end.

(** One line, 3 x 4000, no discount: total 12000. *)
Definition cart3 : Cart.CartState :=
  {| Cart.items := [ {| Cart.item_id := 1; Cart.item_code := "A"; Cart.item_name := "A";
                        Cart.price := 4000; Cart.quantity := 3 |} ];
     Cart.customerId := None;
     Cart.customerName := "Cliente General";
     Cart.discount := 0;
     Cart.discountType := Cart.percent;
     Cart.notes := EmptyString |}.

(** The page with the payment modal open on [cart3]. *)
Definition pos (sel : option Z) (st : TableStatus) (m : PaymentMethod)
           (received : Js.number) : POS.State :=
  {| POS.cart := cart3;
     POS.products := [productA];
     POS.tables := [table5 st];
     POS.selectedTableId := sel;
     POS.paymentMethod := m;
     POS.amountReceived := received;
     POS.loading := false;
     POS.processing := false;
     POS.showPaymentModal := true;
     POS.showInvoiceConfirmModal := false;
     POS.completedInvoice := None |}.

(** One line, 1 x 20000, paid in cash with 19999. *)
Definition cash19999 : POS.State :=
  {| POS.cart :=
       {| Cart.items := [ {| Cart.item_id := 1; Cart.item_code := "A";
                             Cart.item_name := "A"; Cart.price := 20000;
                             Cart.quantity := 1 |} ];
          Cart.customerId := None;
          Cart.customerName := "Cliente General";
          Cart.discount := 0;
          Cart.discountType := Cart.percent;
          Cart.notes := EmptyString |};
     POS.products := [productA];
     POS.tables := [];
     POS.selectedTableId := None;
     POS.paymentMethod := EFECTIVO;
     POS.amountReceived := Js.Num 19999;
     POS.loading := false;
     POS.processing := false;
     POS.showPaymentModal := true;
     POS.showInvoiceConfirmModal := false;
     POS.completedInvoice := None |}.

(** The tables page on table 5, occupied, with an old session and one
    draft entry. *)
Definition tablesPage : Tables.State :=
  {| Tables.tables := [table5 OCUPADA];
     Tables.selectedTable := Some (table5 OCUPADA);
     Tables.activeSession := Some staleSession;
     Tables.showOpenModal := false;
     Tables.showAddItemsModal := true;
     Tables.showPayModal := true;
     Tables.showCreateTableModal := false;
     Tables.guestCount := 1;
     Tables.tableNotes := EmptyString;
     Tables.searchTerm := EmptyString;
     Tables.itemsToAdd := [ {| Tables.product := productA; Tables.quantity := 1 |} ];
     Tables.paymentMethod := EFECTIVO;
     Tables.amountReceived := Js.Num 12000;
     Tables.processing := false;
     Tables.newTable := {| Tables.newTableNumber := Some (Js.Num 9);
                           Tables.newTableName := EmptyString;
                           Tables.newTableCapacity := Js.Num 4;
                           Tables.newTableZone := "INTERIOR" |} |}.

Definition invoicesPage (reason : Js.text) : Invoices.State :=
  {| Invoices.invoices := [invoice7; invoice8];
     Invoices.loading := false;
     Invoices.selectedInvoice := Some invoice7;
     Invoices.showVoidModal := true;
     Invoices.voidReason := reason;
     Invoices.processing := false;
     Invoices.activeTab := Invoices.active |}.

(** A parser that accepts the text of the empty object only. *)
Definition acceptBraces (s : string) : option unit :=
  if String.eqb s "{}" then Some tt else None.

Definition allCallbacks : Sse.Options :=
  {| Sse.provided := fun _ => true; Sse.enabled := None |}.

(** The hook one second after mount, connected with the token "abc". *)
Definition streaming : Sse.World unit :=
  {| Sse.now := 1000;
     Sse.accessToken := Some "abc"%string;
     Sse.opened := [ {| Sse.src_id := 0;
                        Sse.src_url := "/api/sse/events?token=abc";
                        Sse.src_openedAt := 0 |} ];
     Sse.created := 1;
     Sse.pending := [];
     Sse.scheduled := 0;
     Sse.eventSourceRef := Some 0%nat;
     Sse.reconnectTimeoutRef := None;
     Sse.invoked := [] |}.

End Examples.

(** ** Organising the categories ([POSPage.tsx]) *)

Module Organize.
Import Api.

(** The cells of the page that the organise mode uses. *)
Record State : Type := {
  categories : list Category;
  isOrganizingCategories : bool;
  draftCategoryOrder : option (list Z)
}.

Definition setDraftCategoryOrder (v : option (list Z)) (s : State) : State :=
  {| categories := categories s;
     isOrganizingCategories := isOrganizingCategories s;
     draftCategoryOrder := v |}.

(** [l.indexOf(x)], with [None] for -1. *)
Fixpoint indexOf (x : Z) (l : list Z) : option nat :=
  match l with
  | [] => None
  | y :: r => if (y =? x)%Z then Some O else option_map S (indexOf x r)
  end.

(** What [l.splice(i, 1)] leaves in [l]. *)
Definition removeAt (i : nat) (l : list Z) : list Z := firstn i l ++ skipn (S i) l.

(** What [l.splice(i, 0, x)] leaves in [l]; a start past the end inserts at
    the end. *)
Definition insertAt (i : nat) (x : Z) (l : list Z) : list Z :=
  firstn i l ++ x :: skipn i l.

Definition handleStartOrganizeCategories (s : State) : State :=
  {| categories := categories s;
     isOrganizingCategories := true;
     draftCategoryOrder := Some (map category_id (categories s)) |}.

Definition handleCancelOrganizeCategories (s : State) : State :=
  {| categories := categories s;
     isOrganizingCategories := false;
     draftCategoryOrder := None |}.

(** [indexOf] found [fromIndex], so the element spliced out is there. *)
Definition handleReorderCategoryDraft (activeId overId : Z) (s : State) : State :=
  if negb (isOrganizingCategories s) then s
  else
    match draftCategoryOrder s with
    | None => s
    | Some draft =>
        if (activeId =? overId)%Z then s
        else
          match indexOf activeId draft, indexOf overId draft with
          | Some fromIndex, Some toIndex =>
              match nth_error draft fromIndex with
              | Some moved =>
                  setDraftCategoryOrder
                    (Some (insertAt toIndex moved (removeAt fromIndex draft))) s
              | None => s
              end
          | _, _ => s
          end
    end.

(** [new Map(categories.map(c => [c.id, c])).get(id)]: a later entry with
    the same id replaces an earlier one. *)
Definition byId (cats : list Category) (id : Z) : option Category :=
  find (fun c => (category_id c =? id)%Z) (rev cats).

Definition categoriesToShow (s : State) : list Category :=
  if negb (isOrganizingCategories s) then categories s
  else
    match draftCategoryOrder s with
    | None => categories s
    | Some draft =>
        flat_map (fun id => match byId (categories s) id with
                            | Some cat => [cat]
                            | None => []
                            end) draft
    end.

(** A run of drops while organising. *)
Definition reorderAll (moves : list (Z * Z)) (s : State) : State :=
  fold_left (fun st m => handleReorderCategoryDraft (fst m) (snd m) st) moves s.

End Organize.

(** ** The table list, the table selector and the change shown
    ([POSPage.tsx]) *)

Module PosMore.
Import Api.
Local Open Scope handler_scope.

Definition setTables (v : list RestaurantTable) (s : POS.State) : POS.State :=
  {| POS.cart := POS.cart s; POS.products := POS.products s; POS.tables := v;
     POS.selectedTableId := POS.selectedTableId s;
     POS.paymentMethod := POS.paymentMethod s;
     POS.amountReceived := POS.amountReceived s; POS.loading := POS.loading s;
     POS.processing := POS.processing s;
     POS.showPaymentModal := POS.showPaymentModal s;
     POS.showInvoiceConfirmModal := POS.showInvoiceConfirmModal s;
     POS.completedInvoice := POS.completedInvoice s |}.

(** [l.sort((a, b) => a.tableNumber - b.tableNumber)]: the sort of an array
    is stable, so the result is the one an insertion that keeps equal
    numbers in their order gives. *)
Fixpoint insertByNumber (t : RestaurantTable) (l : list RestaurantTable)
  : list RestaurantTable :=
  match l with
  | [] => [t]
  | x :: r =>
      if (tableNumber t <=? tableNumber x)%Z then t :: l
      else x :: insertByNumber t r
  end.

Definition sortByNumber (l : list RestaurantTable) : list RestaurantTable :=
  fold_right insertByNumber [] l.

Definition byNumber (a b : RestaurantTable) : Prop :=
  (tableNumber a <= tableNumber b)%Z.

(** [fetchTables] from the request to the end: the answer is typed as a
    list, so [Array.isArray(res)] holds; a rejection is swallowed. *)
Definition fetchTablesDone : M POS.State unit :=
  try_catch
    (res <- await TableGetAll ;;
     modify (setTables (sortByNumber (filter isActive res))))
    (fun _ => ret tt).

(** The tables the selector lists:
    [tables.filter(t => t.status === 'DISPONIBLE' || t.status === 'OCUPADA')]. *)
Definition selectable (s : POS.State) : list RestaurantTable :=
  filter (fun t => TableStatus_eqb (table_status t) DISPONIBLE
                   || TableStatus_eqb (table_status t) OCUPADA)
         (POS.tables s).

(** A click on a table of the selector, and on "Sin mesa". *)
Definition pickTable (t : RestaurantTable) (s : POS.State) : POS.State :=
  POS.setSelectedTableId (Some (table_id t)) s.

Definition pickNoTable (s : POS.State) : POS.State :=
  POS.setSelectedTableId None s.

(** [x >= y] and [x - y] on numbers. *)
Definition ge (x y : Js.number) : bool :=
  match x, y with
  | Js.Num a, Js.Num b => Qle_bool b a
  | _, _ => false
  end.

Definition sub (x y : Js.number) : Js.number :=
  match x, y with
  | Js.Num a, Js.Num b => Js.Num (a - b)
  | _, _ => Js.NaN
  end.

(** The "Cambio" row of [PaymentModal]: shown for cash when
    [parseFloat(amountReceived) >= total], with
    [parseFloat(amountReceived) - total]. *)
Definition changeShown (s : POS.State) : bool :=
  POS.isCash (POS.paymentMethod s)
  && ge (POS.amountReceived s) (Js.Num (POS.total s)).

Definition change (s : POS.State) : Js.number :=
  sub (POS.amountReceived s) (Js.Num (POS.total s)).

End PosMore.

(** ** Selecting a table, the pay modal and the draft as a whole
    ([TablesPage.tsx]) *)

Module TablesMore.
Import Api.
Local Open Scope handler_scope.

Definition setPaymentMethod (v : PaymentMethod) (s : Tables.State) : Tables.State :=
  {| Tables.tables := Tables.tables s;
     Tables.selectedTable := Tables.selectedTable s;
     Tables.activeSession := Tables.activeSession s;
     Tables.showOpenModal := Tables.showOpenModal s;
     Tables.showAddItemsModal := Tables.showAddItemsModal s;
     Tables.showPayModal := Tables.showPayModal s;
     Tables.showCreateTableModal := Tables.showCreateTableModal s;
     Tables.guestCount := Tables.guestCount s;
     Tables.tableNotes := Tables.tableNotes s;
     Tables.searchTerm := Tables.searchTerm s;
     Tables.itemsToAdd := Tables.itemsToAdd s;
     Tables.paymentMethod := v;
     Tables.amountReceived := Tables.amountReceived s;
     Tables.processing := Tables.processing s;
     Tables.newTable := Tables.newTable s |}.

(** A click on a table of the grid. *)
Definition handleSelectTable (table : RestaurantTable) : M Tables.State unit :=
  modify (Tables.setSelectedTable (Some table)) ;;
  match table_status table with
  | OCUPADA =>
      try_catch
        (res <- await (TableGetActiveSession (table_id table)) ;;
         modify (Tables.setActiveSession (Some res)))
        (fun _ => modify (Tables.setActiveSession (table_activeSession table)))
  | _ => modify (Tables.setActiveSession None)
  end.

(** [activeSession.total || 0]. *)
Definition sessionTotal (a : TableSession) : Q := Js.or_default (session_total a) 0.

(** [activeSession.invoice?.details?.length] is truthy. *)
Definition hasLines (a : TableSession) : bool :=
  match session_invoice a with
  | Some inv => match details inv with [] => false | _ :: _ => true end
  | None => false
  end.

(** The "Cobrar Mesa" button: rendered for an occupied table with a
    session, [disabled] while the session has no line. *)
Definition clickCobrar (s : Tables.State) : M Tables.State unit :=
  match Tables.selectedTable s, Tables.activeSession s with
  | Some t, Some a =>
      if TableStatus_eqb (table_status t) OCUPADA && hasLines a then
        modify (Tables.setShowPayModal true) ;;
        modify (Tables.setAmountReceived (Js.Num (sessionTotal a)))
      else ret tt
  | _, _ => ret tt
  end.

(** [disabled] of the "Confirmar Pago" button. *)
Definition payDisabled (s : Tables.State) (a : TableSession) : bool :=
  Tables.processing s || Js.lt (Tables.amountReceived s) (Js.Num (sessionTotal a)).

(** A click on "Confirmar Pago"; the pay modal is rendered when
    [showPayModal && activeSession]. *)
Definition clickConfirmPago (s : Tables.State) : M Tables.State unit :=
  match Tables.activeSession s with
  | Some a =>
      if Tables.showPayModal s && negb (payDisabled s a) then Tables.handlePayTable s
      else ret tt
  | None => ret tt
  end.

(** The "Tarjeta" button of the pay modal. *)
Definition clickTarjeta (s : Tables.State) : M Tables.State unit :=
  match Tables.activeSession s with
  | Some a =>
      if Tables.showPayModal s then
        modify (setPaymentMethod TARJETA_CREDITO) ;;
        modify (Tables.setAmountReceived (Js.Num (sessionTotal a)))
      else ret tt
  | None => ret tt
  end.

(** What the user does to the draft of the add-items modal, which opens on
    an empty draft ([setItemsToAdd([])]). *)
Inductive DraftOp : Type :=
| AddProduct (p : Product)
| ChangeQuantity (productId delta : Z)
| RemoveProduct (productId : Z).

Definition applyOp (op : DraftOp) (l : list Tables.DraftItem) : list Tables.DraftItem :=
  match op with
  | AddProduct p => Tables.addProductToList p l
  | ChangeQuantity productId delta => Tables.updateItemQuantity productId delta l
  | RemoveProduct productId => Tables.removeItemFromList productId l
  end.

Definition draftAfter (ops : list DraftOp) : list Tables.DraftItem :=
  fold_left (fun l op => applyOp op l) ops [].

End TablesMore.

(** ** Opening the void modal ([InvoicesPage.tsx]) *)

Module InvoicesMore.
Import Api.
Local Open Scope handler_scope.

Definition setSelectedInvoice (v : option Invoice) (s : Invoices.State) : Invoices.State :=
  {| Invoices.invoices := Invoices.invoices s;
     Invoices.loading := Invoices.loading s;
     Invoices.selectedInvoice := v;
     Invoices.showVoidModal := Invoices.showVoidModal s;
     Invoices.voidReason := Invoices.voidReason s;
     Invoices.processing := Invoices.processing s;
     Invoices.activeTab := Invoices.activeTab s |}.

Definition setVoidReason (v : Js.text) (s : Invoices.State) : Invoices.State :=
  {| Invoices.invoices := Invoices.invoices s;
     Invoices.loading := Invoices.loading s;
     Invoices.selectedInvoice := Invoices.selectedInvoice s;
     Invoices.showVoidModal := Invoices.showVoidModal s;
     Invoices.voidReason := v;
     Invoices.processing := Invoices.processing s;
     Invoices.activeTab := Invoices.activeTab s |}.

Definition openVoidModal (invoice : Invoice) (s : Invoices.State) : Invoices.State :=
  Invoices.setShowVoidModal true
    (setVoidReason [] (setSelectedInvoice (Some invoice) s)).

End InvoicesMore.

(** ** The life of the events hook *)

Module SseLife.

(** What can happen to the hook between mount and unmount. *)
Inductive Action : Type :=
| Deliver (es : nat) (i : Sse.Incoming)
| Advance (dt : Z)
| StoreToken (t : option string).

Section Life.
Variable Json : Type.
Variable JSON_parse : string -> option Json.
Variable encodeURIComponent : string -> string.
Variable o : Sse.Options.

Definition act (a : Action) (w : Sse.World Json) : Sse.World Json :=
  match a with
  | Deliver es i => Sse.deliver JSON_parse o es i w
  | Advance dt => Sse.advance encodeURIComponent o dt w
  | StoreToken t => Sse.setAccessToken t w
  end.

Definition after (acts : list Action) (w : Sse.World Json) : Sse.World Json :=
  fold_left (fun v a => act a v) acts w.

(** Before the effect runs: nothing open, nothing pending. *)
Definition fresh (token : option string) : Sse.World Json :=
  {| Sse.now := 0;
     Sse.accessToken := token;
     Sse.opened := [];
     Sse.created := 0;
     Sse.pending := [];
     Sse.scheduled := 0;
     Sse.eventSourceRef := None;
     Sse.reconnectTimeoutRef := None;
     Sse.invoked := [] |}.

(** The effect of the hook runs [connect()]. *)
Definition mounted (token : option string) : Sse.World Json :=
  Sse.connect encodeURIComponent o (fresh token).

(** Either nothing is open and at most the timeout the ref names is
    pending, or the source the ref names is the one open and nothing is
    pending. *)
Definition steady (w : Sse.World Json) : Prop :=
  (Sse.opened w = [] /\ Sse.eventSourceRef w = None
   /\ (Sse.pending w = []
       \/ exists t, Sse.pending w = [t]
                    /\ Sse.reconnectTimeoutRef w = Some (Sse.timer_id t)))
  \/ (exists s, Sse.opened w = [s] /\ Sse.eventSourceRef w = Some (Sse.src_id s)
                /\ Sse.pending w = []).

End Life.
End SseLife.

(** ** Normalising a product of the catalogue ([POSPage.tsx]) *)

Module Normalize.
Import Api.

(** A field of an untyped answer: missing, [null], or a value. *)
Inductive field (A : Type) : Type :=
| undefined
| null
| value (a : A).

Arguments undefined {A}.
Arguments null {A}.
Arguments value {A} a.

(** [x ?? y]. *)
Definition coalesce {A : Type} (x y : field A) : field A :=
  match x with
  | value a => value a
  | _ => y
  end.

(** [x?.f]. *)
Definition chain {A B : Type} (x : field A) (f : A -> field B) : field B :=
  match x with
  | value a => f a
  | _ => undefined
  end.

(** [x !== undefined]. *)
Definition isDefined {A : Type} (x : field A) : bool :=
  match x with
  | undefined => false
  | _ => true
  end.

(** [Number(x ?? d)] for a field that holds a number when it holds a
    value. *)
Definition numberOr (x : field Js.number) (d : Q) : Js.number :=
  match x with
  | value n => n
  | _ => Js.Num d
  end.

Record RawInventory : Type := {
  rinv_quantity : field Js.number;
  rinv_minStock : field Js.number;
  rinv_maxStock : field Js.number;
  rinv_location : field string
}.

(** A product as an endpoint sends it: the stock fields nested under
    [inventory] or flat, the category nested or as an id. *)
Record RawProduct : Type := {
  raw_id : Z;
  raw_code : string;
  raw_name : string;
  raw_salePrice : Q;
  raw_category : field Category;
  raw_categoryId : field Z;
  raw_inventory : field RawInventory;
  raw_stockQuantity : field Js.number;
  raw_minStock : field Js.number;
  raw_maxStock : field Js.number;
  raw_location : field string
}.

Definition stockQuantity (p : RawProduct) : field Js.number :=
  coalesce (chain (raw_inventory p) rinv_quantity) (raw_stockQuantity p).

Definition minStock (p : RawProduct) : field Js.number :=
  coalesce (chain (raw_inventory p) rinv_minStock) (raw_minStock p).

Definition maxStock (p : RawProduct) : field Js.number :=
  coalesce (chain (raw_inventory p) rinv_maxStock) (raw_maxStock p).

Definition location (p : RawProduct) : field string :=
  coalesce (chain (raw_inventory p) rinv_location) (raw_location p).

(** [Number(p?.category?.id ?? p?.categoryId ?? 0)]. *)
Definition categoryId (p : RawProduct) : Z :=
  match coalesce (chain (raw_category p) (fun c => value (category_id c)))
                 (raw_categoryId p) with
  | value id => id
  | _ => 0
  end.

(** The product the page keeps; of the fields of the result, those that
    [Product] has here. *)
Definition normalizeProduct (p : RawProduct) : Product :=
  {| product_id := raw_id p;
     product_code := raw_code p;
     product_name := raw_name p;
     salePrice := raw_salePrice p;
     product_categoryId := categoryId p;
     inventory :=
       if isDefined (stockQuantity p) || isDefined (minStock p)
          || isDefined (maxStock p) || isDefined (location p)
       then Some {| inv_quantity := numberOr (stockQuantity p) 0;
                    inv_minStock := numberOr (minStock p) 0;
                    inv_maxStock := numberOr (maxStock p) 999999 |}
       else None |}.

End Normalize.

(** * Properties *)

Unset Implicit Arguments.

(** ** Cart totals *)

Section CartTotals.
Import Cart.

Lemma fold_lineAmount (l : list CartItem) (a : Q) :
  fold_left (fun acc i => acc + lineAmount i) l a == a + sumQ (map lineAmount l).
Proof.
  revert a; induction l as [| i l IH]; intros a; simpl.
  - ring.
  - rewrite IH. ring.
Qed.

Lemma fold_quantity (l : list CartItem) (a : Z) :
  fold_left (fun acc i => (acc + quantity i)%Z) l a = (a + sumZ (map quantity l))%Z.
Proof.
  revert a; induction l as [| i l IH]; intros a; simpl.
  - lia.
  - rewrite IH. lia.
Qed.

Lemma lineAmount_nonneg (i : CartItem) : wf_line i -> 0 <= lineAmount i.
Proof.
  intros [Hp Hq]. unfold lineAmount.
  apply Qmult_le_0_compat; [exact Hp |].
  unfold Qle; simpl. lia.
Qed.

Lemma sum_lineAmount_nonneg (l : list CartItem) :
  Forall wf_line l -> 0 <= sumQ (map lineAmount l).
Proof.
  induction 1 as [| i l Hi _ IH]; simpl.
  - apply Qle_refl.
  - pose proof (lineAmount_nonneg i Hi) as H0.
    apply (Qplus_le_compat 0 _ 0 _ H0 IH).
Qed.

Lemma clamp_bounds (hi x : Q) : 0 <= hi -> 0 <= clamp 0 hi x /\ clamp 0 hi x <= hi.
Proof.
  intros Hhi. unfold clamp. split.
  - apply Q.le_max_l.
  - apply Q.max_lub; [exact Hhi | apply Q.le_min_r].
Qed.

End CartTotals.

(** C1.  For every cart the derived totals are: subtotal, the sum of
    unitPrice x quantity over the lines; discountAmount, subtotal x value / 100
    for a percent discount and value otherwise, clamped to [0, subtotal];
    total, subtotal - discountAmount; itemCount, the sum of the quantities.
    Hence, on a cart whose lines have a positive quantity and a price that is
    not negative, 0 <= discountAmount <= subtotal and total >= 0 for either
    kind of discount and any value (so for any that is not negative).  The
    cart with lines (10000, 2) and (5000, 1) and a 10% discount has subtotal
    25000, discountAmount 2500 and total 22500. *)
Theorem cart_totals :
  (forall c : Cart.CartState,
      let t := Cart.selectCartTotal c in
      Cart.subtotal t == Cart.sumQ (map Cart.lineAmount (Cart.items c))
      /\ Cart.discountAmount t ==
           Qmax 0 (Qmin (match Cart.discountType c with
                         | Cart.percent => Cart.subtotal t * Cart.discount c / 100
                         | Cart.amount => Cart.discount c
                         end)
                        (Cart.subtotal t))
      /\ Cart.total t == Cart.subtotal t - Cart.discountAmount t
      /\ Cart.itemCount t = Cart.sumZ (map Cart.quantity (Cart.items c))
      /\ (Forall Cart.wf_line (Cart.items c) ->
          0 <= Cart.discountAmount t
          /\ Cart.discountAmount t <= Cart.subtotal t
          /\ 0 <= Cart.total t))
  /\ (let t := Cart.selectCartTotal Cart.scenario in
      Cart.subtotal t == 25000
      /\ Cart.discountAmount t == 2500
      /\ Cart.total t == 22500
      /\ Cart.itemCount t = 3%Z).
Proof.
  split.
  - intros c t.
    assert (Hsub : Cart.subtotal t == Cart.sumQ (map Cart.lineAmount (Cart.items c))).
    { unfold t, Cart.selectCartTotal; simpl.
      rewrite fold_lineAmount. ring. }
    split; [exact Hsub |].
    split; [reflexivity |].
    split; [reflexivity |].
    split.
    { unfold t, Cart.selectCartTotal; simpl.
      rewrite fold_quantity. reflexivity. }
    intros Hwf.
    assert (H0 : 0 <= Cart.subtotal t).
    { rewrite Hsub. apply sum_lineAmount_nonneg, Hwf. }
    destruct (clamp_bounds (Cart.subtotal t) (Cart.rawDiscount c (Cart.subtotal t)) H0) as [Hlo Hhi].
    split; [exact Hlo |].
    split; [exact Hhi |].
    change (Cart.total t) with (Cart.subtotal t - Cart.discountAmount t).
    change (Cart.discountAmount t)
      with (Cart.clamp 0 (Cart.subtotal t) (Cart.rawDiscount c (Cart.subtotal t))).
    apply (Qplus_le_r _ _ (Cart.clamp 0 (Cart.subtotal t) (Cart.rawDiscount c (Cart.subtotal t)))).
    ring_simplify. exact Hhi.
  - vm_compute. repeat split; reflexivity.
Qed.

Lemma scenario_wf : Forall Cart.wf_line (Cart.items Cart.scenario).
Proof.
  repeat constructor; try (unfold Qle; simpl; lia); simpl; lia.
Defined.

Lemma cart_totals_witness :
  Forall Cart.wf_line (Cart.items Cart.scenario)
  /\ 0 <= Cart.discountAmount (Cart.selectCartTotal Cart.scenario)
  /\ Cart.discountAmount (Cart.selectCartTotal Cart.scenario)
     <= Cart.subtotal (Cart.selectCartTotal Cart.scenario)
  /\ 0 <= Cart.total (Cart.selectCartTotal Cart.scenario).
Proof.
  split; [exact scenario_wf |].
  exact (proj2 (proj2 (proj2 (proj2 (proj1 cart_totals Cart.scenario)))) scenario_wf).
Defined.

(** ** The stock guard *)

Section StockGuard.
Import Api.

Lemma or_zero_num (q : Q) : Js.or_zero (Some (Js.Num q)) == q.
Proof.
  unfold Js.or_zero. destruct (Qeq_bool q 0) eqn:E.
  - apply Qeq_bool_eq in E. symmetry. exact E.
  - reflexivity.
Qed.

Lemma cartQty_eq (p : Product) (s : POS.State) :
  POS.cartQty p s == POS.quantityInCart p s.
Proof.
  unfold POS.cartQty, POS.quantityInCart.
  destruct (find _ _) as [i |]; simpl option_map.
  - apply or_zero_num.
  - reflexivity.
Qed.

Lemma quantityInCart_nonneg (p : Product) (s : POS.State) :
  Forall (fun i => (0 <= Cart.quantity i)%Z) (Cart.items (POS.cart s)) ->
  0 <= POS.quantityInCart p s.
Proof.
  intros H. unfold POS.quantityInCart.
  destruct (find _ _) as [i |] eqn:E.
  - apply find_some in E. destruct E as [Hin _].
    rewrite Forall_forall in H. specialize (H i Hin).
    unfold Qle; simpl. lia.
  - apply Qle_refl.
Qed.

Lemma stock_eq (p : Product) (inv : Inventory) (st : Q) :
  inventory p = Some inv -> inv_quantity inv = Js.Num st -> POS.stock p == st.
Proof.
  intros Hi Hq. unfold POS.stock. rewrite Hi. simpl. rewrite Hq.
  apply or_zero_num.
Qed.

Lemma isOutOfStock_iff (p : Product) (inv : Inventory) (st : Q) (s : POS.State) :
  inventory p = Some inv -> inv_quantity inv = Js.Num st ->
  (POS.isOutOfStock p s = true <-> st <= POS.quantityInCart p s).
Proof.
  intros Hi Hq. unfold POS.isOutOfStock, POS.availableStock.
  rewrite Qle_bool_iff, (stock_eq p inv st Hi Hq), cartQty_eq.
  split; intros H.
  - apply (Qplus_le_l _ _ (- POS.quantityInCart p s)). ring_simplify.
    ring_simplify in H. exact H.
  - apply (Qplus_le_l _ _ (POS.quantityInCart p s)). ring_simplify. exact H.
Qed.

Lemma maxStock_eq (item : Cart.CartItem) (p : Product) (inv : Inventory) (st : Q)
      (s : POS.State) :
  find (fun q => (product_id q =? Cart.item_id item)%Z) (POS.products s) = Some p ->
  inventory p = Some inv -> inv_quantity inv = Js.Num st ->
  POS.maxStock item s == st.
Proof.
  intros Hf Hi Hq. unfold POS.maxStock. rewrite Hf, Hi. simpl. rewrite Hq.
  apply or_zero_num.
Qed.

End StockGuard.

(** C4.  A product whose last-fetched inventory quantity is [st] is added by
    a click on its card exactly when [st] minus the quantity of the product
    already in the cart is positive: below the stock value the click
    dispatches [addItem], and once the cart quantity has reached it the click
    adds nothing (the card is disabled at stock 0 and answers with an error
    toast otherwise).  The plus button of a cart line follows the same rule:
    it increments below the stock value and refuses from it on.  This holds
    for every stock value, negative ones included. *)
Theorem stock_guard (env : Api.Env) (p : Api.Product) (inv : Api.Inventory) (st : Q)
        (s : POS.State) :
  Api.inventory p = Some inv ->
  Api.inv_quantity inv = Js.Num st ->
  Forall (fun i => (0 <= Cart.quantity i)%Z) (Cart.items (POS.cart s)) ->
  (POS.isOutOfStock p s = false <-> 0 < st - POS.quantityInCart p s)
  /\ (POS.quantityInCart p s < st ->
      Api.exec env (POS.clickProduct p s) s
      = ([], POS.setCart (Cart.addItem (POS.addPayload p) (POS.cart s)) s))
  /\ (st <= POS.quantityInCart p s ->
      snd (Api.exec env (POS.clickProduct p s) s) = s
      /\ (fst (Api.exec env (POS.clickProduct p s) s) = []
          \/ fst (Api.exec env (POS.clickProduct p s) s)
             = [Api.Toast Api.ToastError
                  ("Sin stock disponible para " ++ Api.product_name p)]))
  /\ (forall item : Cart.CartItem,
         find (fun q => (Api.product_id q =? Cart.item_id item)%Z) (POS.products s) = Some p ->
         (inject_Z (Cart.quantity item) < st ->
          Api.exec env (POS.clickIncrement item s) s
          = ([], POS.setCart (Cart.incrementQuantity (Cart.item_id item) (POS.cart s)) s))
         /\ (st <= inject_Z (Cart.quantity item) ->
             Api.exec env (POS.clickIncrement item s) s
             = ([Api.Toast Api.ToastError "Stock máximo alcanzado"], s))).
Proof.
  intros Hi Hq Hcart.
  pose proof (isOutOfStock_iff p inv st s Hi Hq) as Hout.
  pose proof (stock_eq p inv st Hi Hq) as Hst.
  pose proof (quantityInCart_nonneg p s Hcart) as Hnn.
  split; [| split; [| split]].
  - split; intros H.
    + destruct (Qlt_le_dec (POS.quantityInCart p s) st) as [Hlt | Hle].
      * apply (Qplus_lt_l _ _ (POS.quantityInCart p s)). ring_simplify. exact Hlt.
      * apply Hout in Hle. congruence.
    + destruct (POS.isOutOfStock p s) eqn:E; [| reflexivity].
      pose proof (proj1 Hout eq_refl) as E'. exfalso.
      apply (Qplus_lt_l _ _ (POS.quantityInCart p s)) in H. ring_simplify in H.
      exact (Qlt_not_le _ _ H E').
  - intros Hlt. unfold POS.clickProduct.
    destruct (Qeq_bool (POS.stock p) 0) eqn:E0.
    + apply Qeq_bool_eq in E0. rewrite Hst in E0. rewrite E0 in Hlt.
      exfalso. exact (Qlt_not_le _ _ Hlt Hnn).
    + destruct (POS.isOutOfStock p s) eqn:E; [| reflexivity].
      pose proof (proj1 Hout eq_refl) as E'. exfalso. exact (Qlt_not_le _ _ Hlt E').
  - intros Hle. unfold POS.clickProduct.
    destruct (Qeq_bool (POS.stock p) 0) eqn:E0.
    + split; [reflexivity | left; reflexivity].
    + apply Hout in Hle. rewrite Hle.
      split; [reflexivity | right; reflexivity].
  - intros item Hf.
    pose proof (maxStock_eq item p inv st s Hf Hi Hq) as Hmax.
    unfold POS.clickIncrement, POS.canIncrement.
    split; intros H.
    + destruct (Qle_bool (POS.maxStock item s) (inject_Z (Cart.quantity item))) eqn:E.
      * apply Qle_bool_iff in E. rewrite Hmax in E.
        exfalso. exact (Qlt_not_le _ _ H E).
      * reflexivity.
    + rewrite <- Hmax in H. apply Qle_bool_iff in H. rewrite H. reflexivity.
Qed.

Lemma stock_guard_witness :
  let s := Examples.pos None Api.DISPONIBLE Api.EFECTIVO (Js.Num 12000) in
  POS.quantityInCart Examples.productA s < 5
  /\ Api.exec Examples.server (POS.clickProduct Examples.productA s) s
     = ([], POS.setCart (Cart.addItem (POS.addPayload Examples.productA) (POS.cart s)) s).
Proof.
  intros s.
  assert (Hcart : Forall (fun i => (0 <= Cart.quantity i)%Z) (Cart.items (POS.cart s))).
  { repeat constructor. simpl. lia. }
  pose proof (stock_guard Examples.server Examples.productA _ 5 s eq_refl eq_refl Hcart)
    as [_ [Hadd _]].
  split; [reflexivity | apply Hadd; reflexivity].
Defined.


(** ** The draft list of the add-items modal *)

Section DraftList.
Import Api Tables.

Lemma filter_all {A : Type} (f : A -> bool) (l : list A) :
  Forall (fun x => f x = true) l -> filter f l = l.
Proof.
  induction 1 as [| x l Hx _ IH]; simpl.
  - reflexivity.
  - rewrite Hx, IH. reflexivity.
Qed.

Lemma NoDup_map_filter {A B : Type} (g : A -> B) (f : A -> bool) (l : list A) :
  NoDup (map g l) -> NoDup (map g (filter f l)).
Proof.
  induction l as [| x l IH]; simpl; intros H.
  - constructor.
  - inversion H as [| y l' Hnin Hnd]; subst.
    destruct (f x); simpl; [constructor |]; auto.
    intros Hin. apply Hnin.
    apply in_map_iff in Hin. destruct Hin as [z [Hz Hin]].
    apply filter_In in Hin. destruct Hin as [Hin _].
    apply in_map_iff. exists z. split; assumption.
Qed.

(** A function that keeps the product keeps the keys and what [find]
    finds. *)
Lemma map_key_preserved (f : DraftItem -> DraftItem) (l : list DraftItem) :
  (forall i, product (f i) = product i) -> map product (map f l) = map product l.
Proof.
  intros H. rewrite map_map. apply map_ext. exact H.
Qed.

Lemma find_map_preserved (id : Z) (f : DraftItem -> DraftItem) (l : list DraftItem) :
  (forall i, product (f i) = product i) ->
  find (fun i => (key i =? id)%Z) (map f l)
  = option_map f (find (fun i => (key i =? id)%Z) l).
Proof.
  intros H. induction l as [| x l IH]; simpl.
  - reflexivity.
  - unfold key at 1. rewrite H. fold (key x).
    destruct (key x =? id)%Z; [reflexivity | exact IH].
Qed.

Lemma keys_of_products (l l' : list DraftItem) :
  map product l = map product l' -> map key l = map key l'.
Proof.
  intros H. unfold key.
  rewrite <- (map_map product product_id l), <- (map_map product product_id l'), H.
  reflexivity.
Qed.

(** With distinct keys, the entry [find] returns is the only one with
    its key. *)
Lemma found_is_unique (id : Z) (l : list DraftItem) (i x : DraftItem) :
  NoDup (map key l) ->
  find (fun j => (key j =? id)%Z) l = Some i ->
  In x l -> key x = id -> x = i.
Proof.
  induction l as [| y l IH]; simpl; intros Hnd Hf Hin Hk.
  - contradiction.
  - inversion Hnd as [| k ks Hnin Hnd']; subst.
    destruct (key y =? key x)%Z eqn:E.
    + injection Hf as <-. apply Z.eqb_eq in E.
      destruct Hin as [-> | Hin]; [reflexivity |].
      exfalso. apply Hnin. rewrite E. apply in_map. exact Hin.
    + destruct Hin as [-> | Hin].
      * rewrite Z.eqb_refl in E. discriminate.
      * apply IH; auto.
Qed.

Lemma bump_product (id : Z) (i : DraftItem) : product (bump id i) = product i.
Proof. unfold bump. destruct (key i =? id)%Z; reflexivity. Qed.

Lemma shift_product (id delta : Z) (i : DraftItem) : product (shift id delta i) = product i.
Proof.
  unfold shift. destruct (key i =? id)%Z; [| reflexivity].
  simpl. destruct (0 <? quantity i + delta)%Z; reflexivity.
Qed.

Lemma shift_positive (id delta : Z) (i : DraftItem) :
  (1 <= quantity i)%Z -> (1 <= quantity (shift id delta i))%Z.
Proof.
  intros H. unfold shift. destruct (key i =? id)%Z; [| exact H].
  simpl. destruct (0 <? quantity i + delta)%Z eqn:E; [| exact H].
  apply Z.ltb_lt in E. simpl. lia.
Qed.

Lemma updateItemQuantity_map (id delta : Z) (l : list DraftItem) :
  Forall (fun i => (1 <= quantity i)%Z) l ->
  updateItemQuantity id delta l = map (shift id delta) l.
Proof.
  intros H. unfold updateItemQuantity. apply filter_all.
  apply Forall_map. revert H. apply Forall_impl. intros i Hi.
  apply Z.ltb_lt. pose proof (shift_positive id delta i Hi) as Hp.
  change (0 < quantity (shift id delta i))%Z. lia.
Qed.

Lemma addProductToList_ok (p : Product) (l : list DraftItem) :
  draft_ok l -> draft_ok (addProductToList p l).
Proof.
  intros [Hq Hnd]. unfold addProductToList.
  destruct (find _ l) as [i |] eqn:E.
  - split.
    + apply Forall_map. revert Hq. apply Forall_impl. intros x Hx.
      destruct (_ =? _)%Z; simpl; lia.
    + change (NoDup (map key (map (bump (product_id p)) l))).
      rewrite (keys_of_products _ l); [exact Hnd |].
      apply map_key_preserved, bump_product.
  - split.
    + apply Forall_app. split; [exact Hq |].
      constructor; [simpl; lia | constructor].
    + rewrite map_app. apply NoDup_app; [exact Hnd | |].
      * simpl. constructor; [intros [] | constructor].
      * intros a Ha [<- | []].
        apply in_map_iff in Ha. destruct Ha as [x [Hx Hin]].
        pose proof (find_none _ _ E x Hin) as Hne. simpl in Hne.
        rewrite Hx, Z.eqb_refl in Hne. discriminate.
Qed.

Lemma updateItemQuantity_ok (id delta : Z) (l : list DraftItem) :
  draft_ok l -> draft_ok (updateItemQuantity id delta l).
Proof.
  intros [Hq Hnd]. rewrite (updateItemQuantity_map id delta l Hq). split.
  - apply Forall_map. revert Hq. apply Forall_impl. apply shift_positive.
  - change (NoDup (map key (map (shift id delta) l))).
    rewrite (keys_of_products _ l); [exact Hnd |].
    apply map_key_preserved, shift_product.
Qed.

Lemma removeItemFromList_ok (id : Z) (l : list DraftItem) :
  draft_ok l -> draft_ok (removeItemFromList id l).
Proof.
  intros [Hq Hnd]. unfold removeItemFromList. split.
  - apply Forall_forall. intros x Hx. apply filter_In in Hx.
    rewrite Forall_forall in Hq. apply Hq, Hx.
  - apply (NoDup_map_filter key). exact Hnd.
Qed.

End DraftList.

(** C10.  The draft list of the add-items modal keeps the invariant that
    every entry has quantity at least 1 and no two entries have the same
    product id: the empty list has it and the three operations preserve it.
    Adding a product that is in the list increments its entry and appends
    nothing; adding one that is not appends an entry of quantity 1.  A
    decrement of an entry of quantity 1 leaves the list as it is, no update
    of a quantity removes or reorders an entry, and the remove action is the
    one that takes an entry out. *)
Theorem draft_list_invariant :
  Tables.draft_ok []
  /\ (forall p l, Tables.draft_ok l -> Tables.draft_ok (Tables.addProductToList p l))
  /\ (forall id delta l,
         Tables.draft_ok l -> Tables.draft_ok (Tables.updateItemQuantity id delta l))
  /\ (forall id l, Tables.draft_ok l -> Tables.draft_ok (Tables.removeItemFromList id l))
  /\ (forall p l q,
         Tables.quantityOf (Api.product_id p) l = Some q ->
         map Tables.product (Tables.addProductToList p l) = map Tables.product l
         /\ Tables.quantityOf (Api.product_id p) (Tables.addProductToList p l) = Some (q + 1)%Z)
  /\ (forall p l,
         Tables.quantityOf (Api.product_id p) l = None ->
         Tables.addProductToList p l
         = l ++ [ {| Tables.product := p; Tables.quantity := 1 |} ])
  /\ (forall id l,
         Tables.draft_ok l ->
         Tables.quantityOf id l = Some 1%Z ->
         Tables.updateItemQuantity id (-1) l = l)
  /\ (forall id delta l,
         Tables.draft_ok l ->
         map Tables.product (Tables.updateItemQuantity id delta l) = map Tables.product l)
  /\ (forall id l,
         Tables.draft_ok l ->
         Tables.quantityOf id (Tables.removeItemFromList id l) = None).
Proof.
  split; [split; constructor |].
  split; [exact addProductToList_ok |].
  split; [exact updateItemQuantity_ok |].
  split; [exact removeItemFromList_ok |].
  split; [| split; [| split; [| split]]].
  - intros p l q Hq. unfold Tables.quantityOf in Hq. unfold Tables.addProductToList.
    destruct (find _ l) as [i |] eqn:E; [| discriminate].
    simpl in Hq. injection Hq as Hq.
    split.
    + apply (map_key_preserved (Tables.bump (Api.product_id p))), bump_product.
    + unfold Tables.quantityOf.
      change (option_map Tables.quantity
                (find (fun i => (Tables.key i =? Api.product_id p)%Z)
                      (map (Tables.bump (Api.product_id p)) l)) = Some (q + 1)%Z).
      rewrite find_map_preserved by apply bump_product.
      change (find (fun i => (Tables.key i =? Api.product_id p)%Z) l) with
        (find (fun i => (Api.product_id (Tables.product i) =? Api.product_id p)%Z) l).
      rewrite E. simpl.
      apply find_some in E. destruct E as [_ E]. unfold Tables.bump, Tables.key. rewrite E.
      simpl. rewrite Hq. reflexivity.
  - intros p l Hq. unfold Tables.quantityOf in Hq. unfold Tables.addProductToList.
    destruct (find _ l) as [i |]; [discriminate | reflexivity].
  - intros id l [Hq Hnd] H1.
    rewrite (updateItemQuantity_map id (-1) l Hq).
    unfold Tables.quantityOf in H1.
    destruct (find _ l) as [i |] eqn:E; [| discriminate].
    simpl in H1. injection H1 as H1.
    rewrite <- (map_id l) at 2. apply map_ext_in. intros x Hx.
    unfold Tables.shift. destruct (Tables.key x =? id)%Z eqn:Ek; [| reflexivity].
    apply Z.eqb_eq in Ek.
    rewrite (found_is_unique id l i x Hnd E Hx Ek), H1. reflexivity.
  - intros id delta l [Hq _].
    rewrite (updateItemQuantity_map id delta l Hq).
    apply map_key_preserved, shift_product.
  - intros id l _. unfold Tables.quantityOf, Tables.removeItemFromList.
    destruct (find _ (filter _ l)) as [i |] eqn:E; [| reflexivity].
    apply find_some in E. destruct E as [Hin Hk].
    apply filter_In in Hin. destruct Hin as [_ Hn].
    rewrite Hk in Hn. discriminate.
Qed.

Lemma draft_list_invariant_witness :
  let l := [ {| Tables.product := Examples.productA; Tables.quantity := 1 |} ] in
  Tables.draft_ok l
  /\ Tables.updateItemQuantity 1 (-1) l = l
  /\ Tables.quantityOf 1 (Tables.addProductToList Examples.productA l) = Some 2%Z
  /\ Tables.draft_ok (Tables.addProductToList Examples.productA l).
Proof.
  intros l.
  assert (Hok : Tables.draft_ok l).
  { split; repeat constructor; simpl; try lia; intros []. }
  destruct draft_list_invariant as [_ [Hadd [_ [_ [Hinc [_ [Hdec _]]]]]]].
  split; [exact Hok |].
  split; [exact (Hdec 1%Z l Hok eq_refl) |].
  split; [exact (proj2 (Hinc Examples.productA l 1%Z eq_refl)) |].
  exact (Hadd Examples.productA l Hok).
Defined.


(** ** The checkout handler *)

Section Checkout.
Import Api.

Lemma selectedWith_true (s : POS.State) (id : Z) (t : RestaurantTable) (st : TableStatus) :
  POS.selectedTableId s = Some id -> id <> 0%Z ->
  POS.selectedTable s = Some t -> table_status t = st ->
  POS.selectedWith st s = true /\ POS.tableArg s = id.
Proof.
  intros Hid Hnz Ht Hst. unfold POS.selectedWith, POS.tableArg.
  rewrite Hid, Ht, Hst. simpl.
  apply Z.eqb_neq in Hnz. rewrite Hnz. destruct st; split; reflexivity.
Qed.

Lemma selectedWith_none (s : POS.State) (st : TableStatus) :
  POS.selectedTableId s = None -> POS.selectedWith st s = false.
Proof.
  intros H. unfold POS.selectedWith. rewrite H. reflexivity.
Qed.

Lemma selectedWith_exclusive (s : POS.State) :
  POS.selectedWith DISPONIBLE s = true -> POS.selectedWith OCUPADA s = false.
Proof.
  unfold POS.selectedWith.
  destruct (Js.truthy_id (POS.selectedTableId s)); [| discriminate].
  destruct (POS.selectedTable s) as [t |]; [| discriminate].
  destruct (table_status t); simpl; congruence.
Qed.

End Checkout.

(** Unfolds a handler run and evaluates it up to the next answer of the
    server. *)
Ltac run_handler :=
  unfold Api.exec, POS.clickConfirm, POS.handleConfirmSale, POS.confirmSaleBody;
  cbn.

Ltac answer_with H := rewrite H; cbn.

(** Splits on every answer of the server that the goal still waits for. *)
Ltac each_answer :=
  repeat match goal with
         | |- context [match ?env ?l ?r with _ => _ end] =>
             let E := fresh "E" in destruct (env l r) eqn:E; cbn
         end.

(** C2.  Confirming a sale branches three ways on the selected table.  With
    no table selected the handler awaits one direct-sale creation built from
    the cart's lines, customer, discount, payment method and amount received,
    then the fetch of the invoice by the id returned.  With a table selected
    whose status is DISPONIBLE it awaits, in order, open table (guestCount 1,
    the cart's customer), add the cart's lines, pay with the payment
    parameters, then the fetch of the invoice by id.  With a table selected
    whose status is OCUPADA it awaits add items, pay and the fetch of the
    invoice, and no open call.  A table is selected when [selectedTableId]
    is truthy and names a table of the list. *)
Theorem checkout_branches (env : Api.Env) (s : POS.State) :
  let log := fst (Api.exec env (POS.handleConfirmSale s) s) in
  let lines :=
    map (fun item => {| Api.ti_productId := Cart.item_id item;
                        Api.ti_quantity := Cart.quantity item;
                        Api.ti_unitPrice := Cart.price item |})
        (Cart.items (POS.cart s)) in
  let payment :=
    {| Api.pay_paymentMethod := POS.paymentMethod s;
       Api.pay_amountReceived := POS.amountReceived s;
       Api.pay_discountPercent :=
         Some (match Cart.discountType (POS.cart s) with
               | Cart.percent => Cart.discount (POS.cart s)
               | Cart.amount => 0
               end);
       Api.pay_notes := Js.str_or_undefined (Cart.notes (POS.cart s)) |} in
  let sale :=
    {| Api.sale_customerId := Cart.customerId (POS.cart s);
       Api.sale_paymentMethod := POS.paymentMethod s;
       Api.sale_discountPercent :=
         match Cart.discountType (POS.cart s) with
         | Cart.percent => Cart.discount (POS.cart s)
         | Cart.amount => 0
         end;
       Api.sale_amountReceived := POS.amountReceived s;
       Api.sale_notes := Cart.notes (POS.cart s);
       Api.sale_details :=
         map (fun item => {| Api.sd_productId := Cart.item_id item;
                             Api.sd_quantity := Cart.quantity item;
                             Api.sd_unitPrice := Cart.price item;
                             Api.sd_discountAmount := 0 |})
             (Cart.items (POS.cart s)) |} in
  (POS.selectedTableId s = None ->
   forall created : Api.Invoice,
     env [] (Api.InvoiceCreateSale sale) = inr created ->
     Api.awaited log
     = [Api.InvoiceCreateSale sale; Api.InvoiceGetById (Api.invoice_id created)])
  /\ (forall (id : Z) (t : Api.RestaurantTable),
         POS.selectedTableId s = Some id -> id <> 0%Z ->
         POS.selectedTable s = Some t ->
         Api.table_status t = Api.DISPONIBLE ->
         let open := Api.TableOpen id {| Api.guestCount := 1;
                                         Api.open_notes := None;
                                         Api.open_customerId := Cart.customerId (POS.cart s) |} in
         let add := Api.TableAddItems id lines in
         let pay := Api.TablePay id payment in
         forall (opened added : Api.TableSession) (paid : Api.Invoice),
           env [] open = inr opened ->
           env [Api.Await open] add = inr added ->
           env [Api.Await open; Api.Await add] pay = inr paid ->
           Api.awaited log = [open; add; pay; Api.InvoiceGetById (Api.invoice_id paid)])
  /\ (forall (id : Z) (t : Api.RestaurantTable),
         POS.selectedTableId s = Some id -> id <> 0%Z ->
         POS.selectedTable s = Some t ->
         Api.table_status t = Api.OCUPADA ->
         let add := Api.TableAddItems id lines in
         let pay := Api.TablePay id payment in
         forall (added : Api.TableSession) (paid : Api.Invoice),
           env [] add = inr added ->
           env [Api.Await add] pay = inr paid ->
           Api.awaited log = [add; pay; Api.InvoiceGetById (Api.invoice_id paid)]).
Proof.
  intros log lines payment sale. subst log.
  split; [| split].
  - intros Hnone created Hc.
    run_handler.
    rewrite (selectedWith_none s Api.DISPONIBLE Hnone),
            (selectedWith_none s Api.OCUPADA Hnone).
    cbn. change (POS.saleRequest s) with sale. answer_with Hc.
    each_answer; reflexivity.
  - intros id t Hid Hnz Ht Hst open add pay opened added paid H1 H2 H3.
    destruct (selectedWith_true s id t Api.DISPONIBLE Hid Hnz Ht Hst) as [Hsw Harg].
    run_handler. rewrite Hsw, Harg. cbn.
    change (Api.TableOpen id (POS.openRequest s)) with open.
    answer_with H1.
    change (Api.TableAddItems id (POS.tableItems s)) with add.
    answer_with H2.
    change (Api.TablePay id (POS.payRequest s)) with pay.
    answer_with H3.
    each_answer; reflexivity.
  - intros id t Hid Hnz Ht Hst add pay added paid H1 H2.
    destruct (selectedWith_true s id t Api.OCUPADA Hid Hnz Ht Hst) as [Hsw Harg].
    assert (Hav : POS.selectedWith Api.DISPONIBLE s = false).
    { destruct (POS.selectedWith Api.DISPONIBLE s) eqn:E; [| reflexivity].
      apply selectedWith_exclusive in E. congruence. }
    run_handler. rewrite Hav, Hsw, Harg. cbn.
    change (Api.TableAddItems id (POS.tableItems s)) with add.
    answer_with H1.
    change (Api.TablePay id (POS.payRequest s)) with pay.
    answer_with H2.
    each_answer; reflexivity.
Qed.

Lemma checkout_branches_witness :
  (let s := Examples.pos None Api.DISPONIBLE Api.EFECTIVO (Js.Num 12000) in
   Api.awaited (fst (Api.exec Examples.server (POS.handleConfirmSale s) s))
   = [Api.InvoiceCreateSale (POS.saleRequest s); Api.InvoiceGetById 7])
  /\ (let s := Examples.pos (Some 5%Z) Api.DISPONIBLE Api.EFECTIVO (Js.Num 12000) in
      Api.awaited (fst (Api.exec Examples.server (POS.handleConfirmSale s) s))
      = [Api.TableOpen 5 (POS.openRequest s); Api.TableAddItems 5 (POS.tableItems s);
         Api.TablePay 5 (POS.payRequest s); Api.InvoiceGetById 7])
  /\ (let s := Examples.pos (Some 5%Z) Api.OCUPADA Api.EFECTIVO (Js.Num 12000) in
      Api.awaited (fst (Api.exec Examples.server (POS.handleConfirmSale s) s))
      = [Api.TableAddItems 5 (POS.tableItems s);
         Api.TablePay 5 (POS.payRequest s); Api.InvoiceGetById 7]).
Proof.
  split; [| split]; intros s.
  - apply (proj1 (checkout_branches Examples.server s) eq_refl Examples.invoice7).
    reflexivity.
  - apply (proj1 (proj2 (checkout_branches Examples.server s))
             5%Z (Examples.table5 Api.DISPONIBLE) eq_refl ltac:(discriminate)
             eq_refl eq_refl Examples.session7 Examples.session7 Examples.invoice7);
      reflexivity.
  - apply (proj2 (proj2 (checkout_branches Examples.server s))
             5%Z (Examples.table5 Api.OCUPADA) eq_refl ltac:(discriminate)
             eq_refl eq_refl Examples.session7 Examples.invoice7);
      reflexivity.
Defined.

(** ** The amount received *)

Section AmountReceived.
Import Api.

(** Every amount a checkout sends is the one read from the input. *)
Lemma amounts_sent (env : Env) (s : POS.State) (r : Request) (x : Js.number) :
  In r (requests (fst (exec env (POS.handleConfirmSale s) s))) ->
  POS.amountSent r = Some x ->
  x = POS.amountReceived s.
Proof.
  revert r x. run_handler.
  destruct (POS.selectedWith DISPONIBLE s); [| destruct (POS.selectedWith OCUPADA s)];
    cbn; each_answer; intros req amt Hin Hx; cbn in Hin;
    repeat (destruct Hin as [<- | Hin];
            [cbn in Hx; try discriminate; injection Hx as <-; reflexivity |]);
    contradiction.
Qed.

Lemma lt_blocks (a t : Q) : a < t -> Js.lt (Js.Num a) (Js.Num t) = true.
Proof.
  intros H. unfold Js.lt. destruct (Qle_bool t a) eqn:E; [| reflexivity].
  apply Qle_bool_iff in E. exfalso. exact (Qlt_not_le _ _ H E).
Qed.

Lemma direct_sale_first_request (env : Env) (s : POS.State) :
  POS.selectedTableId s = None ->
  hd_error (requests (fst (exec env (POS.handleConfirmSale s) s)))
  = Some (InvoiceCreateSale (POS.saleRequest s)).
Proof.
  intros Hnone.
  unfold exec, POS.handleConfirmSale, POS.confirmSaleBody.
  rewrite (selectedWith_none s DISPONIBLE Hnone), (selectedWith_none s OCUPADA Hnone).
  cbn. each_answer; reflexivity.
Qed.

End AmountReceived.

(** The guard on the amounts that are numbers.  With payment method
    EFECTIVO, for every numeric amount received strictly below the total the
    confirm button is disabled and a click on it issues no request and
    changes nothing.  For the card method the amount is set to the cart
    total when the payment modal opens, the confirm button is enabled, and
    every sale or pay request of the checkout carries that total as
    amountReceived; the direct sale sends it in its first request. *)
Theorem cash_amount_guard (env : Api.Env) (s : POS.State) :
  (forall a : Q,
      POS.paymentMethod s = Api.EFECTIVO ->
      POS.amountReceived s = Js.Num a ->
      a < POS.total s ->
      POS.confirmDisabled s = true
      /\ Api.exec env (POS.clickConfirm s) s = ([], s))
  /\ (Cart.items (POS.cart s) <> [] ->
      POS.processing s = false ->
      let s1 := snd (Api.exec env (POS.clickPaymentButton Api.TARJETA_CREDITO s) s) in
      let log := fst (Api.exec env (POS.clickConfirm s1) s1) in
      POS.paymentMethod s1 = Api.TARJETA_CREDITO
      /\ POS.total s1 = POS.total s
      /\ POS.amountReceived s1 = Js.Num (POS.total s)
      /\ POS.confirmDisabled s1 = false
      /\ (forall (r : Api.Request) (x : Js.number),
             In r (Api.requests log) -> POS.amountSent r = Some x ->
             x = Js.Num (POS.total s))
      /\ (POS.selectedTableId s = None ->
          exists body : Api.SaleRequest,
            hd_error (Api.requests log) = Some (Api.InvoiceCreateSale body)
            /\ Api.sale_amountReceived body = Js.Num (POS.total s))).
Proof.
  split.
  - intros a Hm Ha Hlt.
    assert (Hd : POS.confirmDisabled s = true).
    { unfold POS.confirmDisabled. rewrite Hm, Ha.
      rewrite (lt_blocks a (POS.total s) Hlt). apply orb_true_r. }
    split; [exact Hd |].
    unfold POS.clickConfirm. rewrite Hd. reflexivity.
  - intros Hitems Hproc s1 log.
    assert (Hs1 : s1 = POS.setShowPaymentModal true
                         (POS.setAmountReceived (Js.Num (POS.total s))
                            (POS.setPaymentMethod Api.TARJETA_CREDITO s))).
    { unfold s1, POS.clickPaymentButton, Api.exec.
      destruct (Cart.items (POS.cart s)); [contradiction | reflexivity]. }
    assert (Hd : POS.confirmDisabled s1 = false).
    { rewrite Hs1. unfold POS.confirmDisabled. simpl. rewrite Hproc. reflexivity. }
    assert (Hlog : log = fst (Api.exec env (POS.handleConfirmSale s1) s1)).
    { unfold log, POS.clickConfirm. rewrite Hd. reflexivity. }
    split; [rewrite Hs1; reflexivity |].
    split; [rewrite Hs1; reflexivity |].
    split; [rewrite Hs1; reflexivity |].
    split; [exact Hd |].
    split.
    + intros r x Hin Hx. rewrite Hlog in Hin.
      rewrite (amounts_sent env s1 r x Hin Hx), Hs1. reflexivity.
    + intros Hnone. exists (POS.saleRequest s1).
      split; [| rewrite Hs1; reflexivity].
      rewrite Hlog. apply direct_sale_first_request.
      rewrite Hs1. exact Hnone.
Qed.

Lemma cash_amount_guard_witness :
  (POS.confirmDisabled Examples.cash19999 = true
   /\ Api.exec Examples.server (POS.clickConfirm Examples.cash19999) Examples.cash19999
      = ([], Examples.cash19999))
  /\ (let s := Examples.cash19999 in
      let s1 := snd (Api.exec Examples.server
                       (POS.clickPaymentButton Api.TARJETA_CREDITO s) s) in
      POS.amountReceived s1 = Js.Num (POS.total s)
      /\ POS.confirmDisabled s1 = false).
Proof.
  split.
  - apply (proj1 (cash_amount_guard Examples.server Examples.cash19999) 19999).
    + reflexivity.
    + reflexivity.
    + reflexivity.
  - intros s s1.
    assert (Hne : Cart.items (POS.cart s) <> []) by discriminate.
    pose proof (proj2 (cash_amount_guard Examples.server s) Hne eq_refl) as H.
    split; [exact (proj1 (proj2 (proj2 H))) | exact (proj1 (proj2 (proj2 (proj2 H))))].
Defined.

(** What the guard does with an amount that is not a number: an empty input
    reads as [NaN], [NaN < total] is false, and the button stays enabled. *)
Remark confirm_enabled_without_amount (s : POS.State) :
  POS.processing s = false ->
  POS.amountReceived s = Js.NaN ->
  POS.confirmDisabled s = false.
Proof.
  intros Hp Ha. unfold POS.confirmDisabled. rewrite Hp, Ha. simpl.
  apply andb_false_r.
Qed.

(** A checkout starts with a call. *)
Lemma checkout_first_call (env : Api.Env) (s : POS.State) :
  exists r : Api.Request,
    hd_error (fst (Api.exec env (POS.handleConfirmSale s) s)) = Some (Api.Await r)
    /\ POS.isCheckoutStep r = true.
Proof.
  run_handler.
  destruct (POS.selectedWith Api.DISPONIBLE s); [| destruct (POS.selectedWith Api.OCUPADA s)];
    cbn; each_answer; eexists; split; reflexivity.
Qed.

(** C3.  The guard of the confirm button does not enforce
    [amountReceived >= total] on an amount that is not a number.  With
    payment method EFECTIVO, no sale in progress and an amount input that
    reads as [NaN] (the input emptied), [amountReceived >= total] is false
    and the change row, which tests it, is hidden; [NaN < total] is false as
    well, so the confirm button is enabled and a click on it starts the
    checkout: a request goes out, every sale or pay request of the checkout
    carries [NaN] as amountReceived, and with no table selected the first
    request is the direct sale with amountReceived [NaN]. *)
Theorem cash_sale_without_amount (env : Api.Env) (s : POS.State) :
  POS.paymentMethod s = Api.EFECTIVO ->
  POS.processing s = false ->
  POS.amountReceived s = Js.NaN ->
  let log := fst (Api.exec env (POS.clickConfirm s) s) in
  PosMore.ge (POS.amountReceived s) (Js.Num (POS.total s)) = false
  /\ PosMore.changeShown s = false
  /\ POS.confirmDisabled s = false
  /\ (exists r : Api.Request,
         hd_error log = Some (Api.Await r) /\ POS.isCheckoutStep r = true)
  /\ (forall (r : Api.Request) (x : Js.number),
         In r (Api.requests log) -> POS.amountSent r = Some x -> x = Js.NaN)
  /\ (POS.selectedTableId s = None ->
      hd_error (Api.requests log) = Some (Api.InvoiceCreateSale (POS.saleRequest s))
      /\ Api.sale_amountReceived (POS.saleRequest s) = Js.NaN).
Proof.
  intros Hm Hp Ha log.
  assert (Hd : POS.confirmDisabled s = false)
    by exact (confirm_enabled_without_amount s Hp Ha).
  assert (Hlog : log = fst (Api.exec env (POS.handleConfirmSale s) s)).
  { unfold log, POS.clickConfirm. rewrite Hd. reflexivity. }
  split; [rewrite Ha; reflexivity |].
  split; [unfold PosMore.changeShown; rewrite Ha; apply andb_false_r |].
  split; [exact Hd |].
  split; [rewrite Hlog; apply checkout_first_call |].
  split.
  - intros r x Hin Hx. rewrite Hlog in Hin.
    rewrite (amounts_sent env s r x Hin Hx). exact Ha.
  - intros Hnone. split.
    + rewrite Hlog. apply direct_sale_first_request. exact Hnone.
    + exact Ha.
Qed.

Lemma cash_sale_without_amount_witness :
  let s := Examples.pos None Api.DISPONIBLE Api.EFECTIVO Js.NaN in
  POS.confirmDisabled s = false
  /\ PosMore.changeShown s = false
  /\ hd_error (Api.requests (fst (Api.exec Examples.server (POS.clickConfirm s) s)))
     = Some (Api.InvoiceCreateSale (POS.saleRequest s))
  /\ Api.sale_amountReceived (POS.saleRequest s) = Js.NaN.
Proof.
  intros s.
  pose proof (cash_sale_without_amount Examples.server s eq_refl eq_refl eq_refl)
    as [_ [Hrow [Hd [_ [_ Hsale]]]]].
  split; [exact Hd | split; [exact Hrow | exact (Hsale eq_refl)]].
Defined.

(** ** After the checkout *)

(** Closes a goal that asks for an event in a list of events that cannot be
    there, or that follows from one that cannot. *)
Ltac no_such_event H :=
  cbn in H;
  repeat match type of H with
         | _ \/ _ => destruct H as [H | H]
         end;
  try discriminate H; try contradiction.





(** Finds, in a log that is known event by event, the call named by a
    decomposition [log = pre ++ Await r :: post], and compares the answer
    [Hrej] assumes for it with the answer the run met. *)
Ltac locate_call Hlog Hrej :=
  match type of Hlog with
  | _ = ?pre ++ _ :: _ =>
      destruct pre as [| ? pre]; cbn in Hlog;
      [ first [ discriminate Hlog
              | injection Hlog as ? ?; subst;
                match goal with
                | E : ?call = _ |- _ =>
                    match type of Hrej with
                    | call = _ => tryif constr_eq E Hrej then fail else rewrite E in Hrej
                    end
                end;
                first [discriminate Hrej | injection Hrej as ?; subst] ]
      | first [ discriminate Hlog
              | injection Hlog as ? Hlog; subst; locate_call Hlog Hrej ] ]
  end.

(** C6 (as the code has it).  When a call of a checkout is rejected, the
    handler logs the error and shows it in an error toast, with the message
    of the server or "Error al procesar la venta", and that is all it does
    after the call.  It issues no further request: it neither reads the
    state of the tables again nor undoes the calls that went through, and it
    leaves the cart, the table list and the table selection as they were,
    with [processing] false. *)
Theorem checkout_failure (env : Api.Env) (s : POS.State)
        (pre post : list Api.Event) (r : Api.Request) (e : Api.ApiError) :
  let out := Api.exec env (POS.handleConfirmSale s) s in
  fst out = pre ++ Api.Await r :: post ->
  env pre r = inl e ->
  post = [Api.ConsoleError "Error processing sale:";
          Api.Toast Api.ToastError (Api.messageOr e "Error al procesar la venta")]
  /\ Forall (fun ev => exists q, ev = Api.Await q /\ POS.isCheckoutStep q = true)
            (pre ++ [Api.Await r])
  /\ (forall q, In q (Api.requests (fst out)) -> Api.isTableRead q = false)
  /\ snd out = POS.setProcessing false (POS.setProcessing true s).
Proof.
  run_handler.
  destruct (POS.selectedWith Api.DISPONIBLE s) eqn:Hd;
    [| destruct (POS.selectedWith Api.OCUPADA s) eqn:Ho];
    cbn; each_answer; intros Hlog Hrej; locate_call Hlog Hrej.
  all: split; [reflexivity |];
    split; [repeat constructor; eexists; split; reflexivity |];
    split; [| reflexivity];
    intros q Hq; cbn in Hq;
    repeat (destruct Hq as [<- | Hq]; [reflexivity |]); contradiction.
Qed.

Lemma checkout_failure_witness :
  let s := Examples.pos (Some 5%Z) Api.DISPONIBLE Api.EFECTIVO (Js.Num 12000) in
  let out := Api.exec (Examples.rejecting Examples.isAddItems) (POS.handleConfirmSale s) s in
  fst out
  = [Api.Await (Api.TableOpen 5 (POS.openRequest s));
     Api.Await (Api.TableAddItems 5 (POS.tableItems s));
     Api.ConsoleError "Error processing sale:";
     Api.Toast Api.ToastError "Stock insuficiente"]
  /\ (forall q, In q (Api.requests (fst out)) -> Api.isTableRead q = false)
  /\ snd out = POS.setProcessing false (POS.setProcessing true s).
Proof.
  intros s out.
  assert (Hlog : fst out
                 = [Api.Await (Api.TableOpen 5 (POS.openRequest s))]
                     ++ Api.Await (Api.TableAddItems 5 (POS.tableItems s))
                     :: [Api.ConsoleError "Error processing sale:";
                         Api.Toast Api.ToastError "Stock insuficiente"])
    by reflexivity.
  assert (Hrej : Examples.rejecting Examples.isAddItems
                   [Api.Await (Api.TableOpen 5 (POS.openRequest s))]
                   (Api.TableAddItems 5 (POS.tableItems s))
                 = inl Examples.outOfStock)
    by reflexivity.
  destruct (checkout_failure (Examples.rejecting Examples.isAddItems) s _ _ _ _ Hlog Hrej)
    as [_ [_ [Hread Hstate]]].
  split; [exact Hlog | split; [exact Hread | exact Hstate]].
Defined.

(** C6 as stated fails: the table is opened, the add-items call is
    rejected, the error is shown, and the state of the table is not read
    again. *)
Lemma table_state_not_refetched :
  let s := Examples.pos (Some 5%Z) Api.DISPONIBLE Api.EFECTIVO (Js.Num 12000) in
  let out := Api.exec (Examples.rejecting Examples.isAddItems) (POS.handleConfirmSale s) s in
  fst out
  = [Api.Await (Api.TableOpen 5 (POS.openRequest s));
     Api.Await (Api.TableAddItems 5 (POS.tableItems s));
     Api.ConsoleError "Error processing sale:";
     Api.Toast Api.ToastError "Stock insuficiente"]
  /\ existsb Api.isTableRead (Api.requests (fst out)) = false
  /\ POS.tables (snd out) = POS.tables s.
Proof.
  intros s out. repeat split.
Qed.

(** ** The tables page *)

(** Identifies the answer a hypothesis gives for a call with the one the
    run met, or closes the goal when they disagree. *)
Ltac same_answer H E :=
  let X := fresh "X" in
  pose proof (eq_trans (eq_sym H) E) as X;
  first [discriminate X | injection X as <-].

Ltac event_shown := cbn; repeat (first [left; reflexivity | right]); fail.

(** Shows the request of the table list in a log that is known event by
    event, after the events [pre]. *)
Ltac refetch_after pre :=
  exists pre; eexists;
  split; [reflexivity |];
  split; [reflexivity |];
  intros ts Hts;
  match goal with
  | E : _ _ Api.TableGetAll = _ |- _ =>
      tryif constr_eq E Hts then fail else same_answer Hts E
  end;
  reflexivity.

Ltac run_tables :=
  unfold Api.exec, Tables.handleOpenTable, Tables.handleAddItems,
    Tables.handleRemoveItem, Tables.handlePayTable, Tables.handleCreateTable,
    Tables.clickMarkAvailable.

(** C7 (as the code has it, on the tables page).  After a successful
    add-items or remove-item call (and after opening a table) the session
    the call returns replaces [activeSession] whatever it held; after a
    successful pay the answer is dropped and [activeSession] and
    [selectedTable] are set to null.  After every successful call of the
    page that changes a table (open, add items, remove item, pay, create,
    change of status) the whole table list is requested again; where the
    handler awaits that request (all but the change of status), the list
    the request returns replaces [tables].  Creating a table needs no table
    to be selected. *)
Theorem table_reconciliation (env : Api.Env) (s : Tables.State) :
  (* add items *)
  (forall (t : Api.RestaurantTable) (res : Api.TableSession),
      let add := Api.TableAddItems (Api.table_id t) (Tables.addItemsRequest s) in
      let out := Api.exec env (Tables.handleAddItems s) s in
      Tables.selectedTable s = Some t ->
      Tables.itemsToAdd s <> [] ->
      env [] add = inr res ->
      Tables.activeSession (snd out) = Some res
      /\ exists pre post : list Api.Event,
          fst out = pre ++ Api.Await Api.TableGetAll :: post
          /\ hd_error pre = Some (Api.Await add)
          /\ (forall ts, env pre Api.TableGetAll = inr ts ->
                         Tables.tables (snd out) = ts))
  (* remove item *)
  /\ (forall (t : Api.RestaurantTable) (detailId : Z) (res : Api.TableSession),
         let remove := Api.TableRemoveItem (Api.table_id t) detailId in
         let out := Api.exec env (Tables.handleRemoveItem detailId s) s in
         Tables.selectedTable s = Some t ->
         env [] remove = inr res ->
         Tables.activeSession (snd out) = Some res
         /\ exists pre post : list Api.Event,
             fst out = pre ++ Api.Await Api.TableGetAll :: post
             /\ hd_error pre = Some (Api.Await remove)
             /\ (forall ts, env pre Api.TableGetAll = inr ts ->
                            Tables.tables (snd out) = ts))
  (* pay *)
  /\ (forall (t : Api.RestaurantTable) (old : Api.TableSession) (invoice : Api.Invoice),
         let pay := Api.TablePay (Api.table_id t) (Tables.payTableRequest s) in
         let out := Api.exec env (Tables.handlePayTable s) s in
         Tables.selectedTable s = Some t ->
         Tables.activeSession s = Some old ->
         env [] pay = inr invoice ->
         Tables.activeSession (snd out) = None
         /\ Tables.selectedTable (snd out) = None
         /\ exists pre post : list Api.Event,
             fst out = pre ++ Api.Await Api.TableGetAll :: post
             /\ hd_error pre = Some (Api.Await pay)
             /\ (forall ts, env pre Api.TableGetAll = inr ts ->
                            Tables.tables (snd out) = ts))
  (* open *)
  /\ (forall (t : Api.RestaurantTable) (res : Api.TableSession),
         let open := Api.TableOpen (Api.table_id t)
                       {| Api.guestCount := Tables.guestCount s;
                          Api.open_notes := Js.str_or_undefined (Tables.tableNotes s);
                          Api.open_customerId := None |} in
         let out := Api.exec env (Tables.handleOpenTable s) s in
         Tables.selectedTable s = Some t ->
         env [] open = inr res ->
         Tables.activeSession (snd out) = Some res
         /\ exists pre post : list Api.Event,
             fst out = pre ++ Api.Await Api.TableGetAll :: post
             /\ hd_error pre = Some (Api.Await open)
             /\ (forall ts, env pre Api.TableGetAll = inr ts ->
                            Tables.tables (snd out) = ts))
  (* create *)
  /\ (forall (n : Js.number) (made : Api.RestaurantTable),
         let create := Api.TableCreate (Tables.createTableRequest n (Tables.newTable s)) in
         let out := Api.exec env (Tables.handleCreateTable s) s in
         Tables.newTableNumber (Tables.newTable s) = Some n ->
         env [] create = inr made ->
         exists pre post : list Api.Event,
           fst out = pre ++ Api.Await Api.TableGetAll :: post
           /\ hd_error pre = Some (Api.Await create)
           /\ (forall ts, env pre Api.TableGetAll = inr ts ->
                          Tables.tables (snd out) = ts))
  (* mark as available *)
  /\ (forall t changed : Api.RestaurantTable,
         let change := Api.TableChangeStatus (Api.table_id t) Api.DISPONIBLE in
         Tables.selectedTable s = Some t ->
         env [] change = inr changed ->
         fst (Api.exec env (Tables.clickMarkAvailable s) s)
         = [Api.Await change; Api.Fire Api.TableGetAll]).
Proof.
  split; [| split; [| split; [| split; [| split]]]].
  - intros t res add out Hsel Hitems Hadd. subst out. run_tables. rewrite Hsel.
    destruct (Tables.itemsToAdd s) as [| d l] eqn:Hl; [contradiction |].
    cbn. each_answer; same_answer Hadd E;
      (split; [reflexivity |]);
      refetch_after
        [Api.Await add;
         Api.Toast Api.ToastSuccess
           (Js.showZ (Z.of_nat (List.length (d :: l))) ++ " producto(s) agregado(s)")].
  - intros t detailId res remove out Hsel Hrm. subst out. run_tables. rewrite Hsel.
    cbn. each_answer; same_answer Hrm E;
      (split; [reflexivity |]);
      refetch_after [Api.Await remove; Api.Toast Api.ToastSuccess "Producto eliminado"].
  - intros t old invoice pay out Hsel Hold Hpay. subst out. run_tables.
    rewrite Hsel, Hold.
    cbn. each_answer; same_answer Hpay E;
      (split; [reflexivity |]); (split; [reflexivity |]);
      refetch_after
        [Api.Await pay;
         Api.Toast Api.ToastSuccess
           ("Mesa #" ++ Js.showZ (Api.tableNumber t) ++ " pagada exitosamente")].
  - intros t res open out Hsel Hopen. subst out. run_tables. rewrite Hsel.
    cbn. each_answer; same_answer Hopen E;
      (split; [reflexivity |]);
      refetch_after
        [Api.Await open;
         Api.Toast Api.ToastSuccess
           ("Mesa #" ++ Js.showZ (Api.tableNumber t) ++ " abierta")].
  - intros n made create out Hn Hcreate. subst out. run_tables. rewrite Hn.
    cbn. each_answer; same_answer Hcreate E;
      refetch_after
        [Api.Await create; Api.Toast Api.ToastSuccess "Mesa creada exitosamente"].
  - intros t changed change Hsel Hch. run_tables. rewrite Hsel.
    cbn. each_answer; same_answer Hch E; reflexivity.
Qed.

Lemma table_reconciliation_witness :
  let s := Examples.tablesPage in
  let nobody := Tables.setSelectedTable None Examples.tablesPage in
  (let out := Api.exec Examples.server (Tables.handleAddItems s) s in
   Tables.activeSession (snd out) = Some Examples.session7
   /\ exists pre post : list Api.Event,
       fst out = pre ++ Api.Await Api.TableGetAll :: post
       /\ hd_error pre
          = Some (Api.Await (Api.TableAddItems 5 (Tables.addItemsRequest s)))
       /\ (forall ts, Examples.server pre Api.TableGetAll = inr ts ->
                      Tables.tables (snd out) = ts))
  /\ (let out := Api.exec Examples.server (Tables.handlePayTable s) s in
      Tables.activeSession (snd out) = None
      /\ Tables.selectedTable (snd out) = None)
  /\ (let out := Api.exec Examples.server (Tables.handleCreateTable nobody) nobody in
      exists pre post : list Api.Event,
        fst out = pre ++ Api.Await Api.TableGetAll :: post
        /\ hd_error pre
           = Some (Api.Await
                     (Api.TableCreate
                        (Tables.createTableRequest (Js.Num 9) (Tables.newTable nobody))))
        /\ (forall ts, Examples.server pre Api.TableGetAll = inr ts ->
                       Tables.tables (snd out) = ts)).
Proof.
  intros s nobody.
  split; [| split].
  - assert (Hne : Tables.itemsToAdd s <> []) by discriminate.
    exact (proj1 (table_reconciliation Examples.server s)
             (Examples.table5 Api.OCUPADA) Examples.session7 eq_refl Hne eq_refl).
  - destruct (proj1 (proj2 (proj2 (table_reconciliation Examples.server s)))
                (Examples.table5 Api.OCUPADA) Examples.staleSession Examples.invoice7
                eq_refl eq_refl eq_refl) as [H1 [H2 _]].
    split; [exact H1 | exact H2].
  - exact (proj1 (proj2 (proj2 (proj2 (proj2 (table_reconciliation Examples.server nobody)))))
             (Js.Num 9) (Examples.table5 Api.DISPONIBLE) eq_refl eq_refl).
Defined.

(** C7 as stated fails on pay: the call succeeds and [activeSession] is
    null afterwards, not what the call returned. *)
Lemma pay_answer_dropped :
  let s := Examples.tablesPage in
  let pay := Api.TablePay 5 (Tables.payTableRequest s) in
  let out := Api.exec Examples.server (Tables.handlePayTable s) s in
  Examples.server [] pay = inr Examples.invoice7
  /\ hd_error (fst out) = Some (Api.Await pay)
  /\ Tables.activeSession s = Some Examples.staleSession
  /\ Tables.activeSession (snd out) = None.
Proof.
  intros s pay out. repeat split.
Qed.

(** ** The invoices page *)

Section InvoicesPage.
Import Api.

Lemma trimStart_blank (s : Js.text) :
  Forall (fun c => Js.isWhiteSpace c = true) s -> Js.trimStart s = [].
Proof.
  induction 1 as [| c s Hc _ IH]; simpl.
  - reflexivity.
  - rewrite Hc. exact IH.
Qed.

Lemma trim_blank (s : Js.text) :
  Forall (fun c => Js.isWhiteSpace c = true) s -> Js.trim s = [].
Proof.
  intros H. unfold Js.trim. rewrite (trimStart_blank s H). reflexivity.
Qed.

Lemma trimStart_keeps (s : Js.text) (c : N) :
  In c s -> Js.isWhiteSpace c = false -> In c (Js.trimStart s).
Proof.
  induction s as [| d s IH]; simpl; intros Hin Hc.
  - contradiction.
  - destruct (Js.isWhiteSpace d) eqn:E.
    + destruct Hin as [-> | Hin]; [congruence | auto].
    + exact Hin.
Qed.

Lemma trim_keeps (s : Js.text) (c : N) :
  In c s -> Js.isWhiteSpace c = false -> In c (Js.trim s).
Proof.
  intros Hin Hc. unfold Js.trim, Js.trimEnd.
  apply in_rev. rewrite rev_involutive.
  apply trimStart_keeps; [| exact Hc].
  apply -> in_rev. apply trimStart_keeps; assumption.
Qed.

Lemma partition_permutation {A : Type} (f : A -> bool) (l : list A) :
  Permutation (filter (fun x => negb (f x)) l ++ filter f l) l.
Proof.
  induction l as [| x l IH]; simpl.
  - constructor.
  - destruct (f x); simpl.
    + apply Permutation_sym, Permutation_cons_app, Permutation_sym, IH.
    + constructor. exact IH.
Qed.

Lemma status_eqb_spec (a b : InvoiceStatus) : InvoiceStatus_eqb a b = true <-> a = b.
Proof. destruct a, b; simpl; split; congruence. Qed.

End InvoicesPage.

(** C8.  The void handler issues no request when the reason is empty or
    made of white space only, and leaves the page as it is; with a selected
    invoice and a reason holding a character that is not white space, its
    first action is the void request, with the reason as typed.  The two
    partitions of the list are filters of the one [invoices] array on the
    status field: an invoice is in the voided partition iff it is in the
    array with status ANULADA, in the active partition iff it is in the
    array with any other status, and the two together are the array. *)
Theorem void_and_partition (env : Api.Env) (s : Invoices.State) :
  (Forall (fun c => Js.isWhiteSpace c = true) (Invoices.voidReason s) ->
   Api.exec env (Invoices.handleVoid s) s = ([], s))
  /\ (forall (inv : Api.Invoice) (c : N),
         Invoices.selectedInvoice s = Some inv ->
         In c (Invoices.voidReason s) -> Js.isWhiteSpace c = false ->
         hd_error (fst (Api.exec env (Invoices.handleVoid s) s))
         = Some (Api.Await (Api.InvoiceVoid (Api.invoice_id inv) (Invoices.voidReason s))))
  /\ (forall inv : Api.Invoice,
         In inv (Invoices.voidedInvoices s)
         <-> In inv (Invoices.invoices s) /\ Api.invoice_status inv = Api.ANULADA)
  /\ (forall inv : Api.Invoice,
         In inv (Invoices.activeInvoices s)
         <-> In inv (Invoices.invoices s) /\ Api.invoice_status inv <> Api.ANULADA)
  /\ Permutation (Invoices.activeInvoices s ++ Invoices.voidedInvoices s)
                 (Invoices.invoices s)
  /\ (forall s' : Invoices.State,
         Invoices.invoices s' = Invoices.invoices s ->
         Invoices.activeInvoices s' = Invoices.activeInvoices s
         /\ Invoices.voidedInvoices s' = Invoices.voidedInvoices s).
Proof.
  split; [| split; [| split; [| split; [| split]]]].
  - intros Hblank. unfold Api.exec, Invoices.handleVoid.
    rewrite (trim_blank _ Hblank).
    destruct (Invoices.selectedInvoice s); reflexivity.
  - intros inv c Hsel Hin Hc. unfold Api.exec, Invoices.handleVoid. rewrite Hsel.
    pose proof (trim_keeps _ c Hin Hc) as Hk.
    destruct (Js.trim (Invoices.voidReason s)) as [| d r]; [contradiction |].
    cbn. each_answer; reflexivity.
  - intros inv. unfold Invoices.voidedInvoices.
    rewrite filter_In, status_eqb_spec. reflexivity.
  - intros inv. unfold Invoices.activeInvoices.
    rewrite filter_In, negb_true_iff, <- not_true_iff_false, status_eqb_spec.
    reflexivity.
  - apply (partition_permutation
             (fun inv => Api.InvoiceStatus_eqb (Api.invoice_status inv) Api.ANULADA)).
  - intros s' H. unfold Invoices.activeInvoices, Invoices.voidedInvoices.
    rewrite H. split; reflexivity.
Qed.

Lemma void_and_partition_witness :
  (* a reason of two spaces and a tab *)
  Api.exec Examples.server (Invoices.handleVoid (Examples.invoicesPage [32; 32; 9]%N))
           (Examples.invoicesPage [32; 32; 9]%N)
  = ([], Examples.invoicesPage [32; 32; 9]%N)
  (* the reason "no" *)
  /\ hd_error (fst (Api.exec Examples.server
                      (Invoices.handleVoid (Examples.invoicesPage [110; 111]%N))
                      (Examples.invoicesPage [110; 111]%N)))
     = Some (Api.Await (Api.InvoiceVoid 7 [110; 111]%N)).
Proof.
  split.
  - apply (proj1 (void_and_partition Examples.server (Examples.invoicesPage [32; 32; 9]%N))).
    repeat constructor.
  - apply (proj1 (proj2 (void_and_partition Examples.server
                           (Examples.invoicesPage [110; 111]%N)))
             Examples.invoice7 110%N).
    + reflexivity.
    + left. reflexivity.
    + reflexivity.
Defined.

(** ** The server-sent-events hook *)

Section SseHook.
Variable Json : Type.
Variable parse : string -> option Json.
Variable encode : string -> string.
Variable o : Sse.Options.

Lemma advance_early (w : Sse.World Json) (t : Sse.Timer) (dt : Z) :
  Sse.pending w = [t] -> (Sse.now w + dt < Sse.timer_due t)%Z ->
  Sse.opened (Sse.advance encode o dt w) = Sse.opened w
  /\ Sse.pending (Sse.advance encode o dt w) = [t].
Proof.
  intros Hp Hlt. unfold Sse.advance. rewrite Hp. simpl.
  assert (E : (Sse.timer_due t <=? Sse.now w + dt)%Z = false) by (apply Z.leb_gt; lia).
  rewrite E. simpl. split; reflexivity.
Qed.

Lemma advance_due (w : Sse.World Json) (t : Sse.Timer) (dt : Z) (token : string) :
  Sse.pending w = [t] -> (Sse.timer_due t <= Sse.now w + dt)%Z ->
  Sse.enabledOf o = true -> Sse.accessToken w = Some token -> token <> EmptyString ->
  Sse.opened (Sse.advance encode o dt w)
  = Sse.opened w ++ [ {| Sse.src_id := Sse.created w;
                         Sse.src_url := Sse.url encode token;
                         Sse.src_openedAt := Sse.timer_due t |} ]
  /\ Sse.eventSourceRef (Sse.advance encode o dt w) = Some (Sse.created w)
  /\ Sse.pending (Sse.advance encode o dt w) = [].
Proof.
  intros Hp Hle Hen Htok Hne. unfold Sse.advance. rewrite Hp. simpl.
  assert (E : (Sse.timer_due t <=? Sse.now w + dt)%Z = true) by (apply Z.leb_le; lia).
  rewrite E. simpl. unfold Sse.connect. rewrite Hen. simpl. rewrite Htok.
  apply String.eqb_neq in Hne. rewrite Hne. simpl. repeat split.
Qed.

Lemma onerror_closes (w : Sse.World Json) (es : nat) :
  Sse.isOpen es (Sse.onerror es w) = false.
Proof.
  unfold Sse.isOpen, Sse.onerror. simpl.
  induction (Sse.opened w) as [| x l IH]; simpl.
  - reflexivity.
  - destruct (Sse.src_id x =? es)%nat eqn:E; simpl.
    + exact IH.
    + rewrite E. exact IH.
Qed.

End SseHook.

(** C9 (as the code has it).  An error on the stream of an open event
    source closes that source, clears the ref and sets a timeout of 5000 ms
    that runs [connect]: with no other timeout pending, no source is opened
    before 5000 ms have passed, and once they have, a new source is open on
    the events URL, opened at the error time plus 5000, provided the hook
    is enabled and a token is stored.  The events [new_order],
    [kitchen_update] and [order_paid] are parsed as JSON and handed to
    their callbacks, a payload that does not parse being ignored; the event
    [connected] calls [onConnected] with no argument and does not read its
    payload. *)
Theorem sse_reconnect_and_events (Json : Type) (parse : string -> option Json)
        (encode : string -> string) (o : Sse.Options) (w : Sse.World Json) (es : nat) :
  Sse.isOpen es w = true ->
  let w1 := Sse.deliver parse o es Sse.Error w in
  let timeout := {| Sse.timer_id := Sse.scheduled w;
                    Sse.timer_due := (Sse.now w + 5000)%Z |} in
  (Sse.isOpen es w1 = false
   /\ Sse.eventSourceRef w1 = None
   /\ Sse.opened w1 = filter (fun s => negb (Sse.src_id s =? es)%nat) (Sse.opened w)
   /\ Sse.pending w1 = Sse.pending w ++ [timeout]
   /\ Sse.reconnectTimeoutRef w1 = Some (Sse.scheduled w))
  /\ (Sse.pending w = [] ->
      forall dt : Z, (0 <= dt < 5000)%Z ->
        Sse.opened (Sse.advance encode o dt w1) = Sse.opened w1)
  /\ (Sse.pending w = [] ->
      Sse.enabledOf o = true ->
      forall token : string,
        Sse.accessToken w = Some token -> token <> EmptyString ->
        forall dt : Z, (5000 <= dt)%Z ->
          Sse.opened (Sse.advance encode o dt w1)
          = Sse.opened w1 ++ [ {| Sse.src_id := Sse.created w;
                                  Sse.src_url := ("/api/sse/events?token=" ++ encode token)%string;
                                  Sse.src_openedAt := (Sse.now w + 5000)%Z |} ]
          /\ Sse.eventSourceRef (Sse.advance encode o dt w1) = Some (Sse.created w))
  /\ (forall data : string,
         Sse.invoked (Sse.deliver parse o es (Sse.Message "connected" data) w)
         = Sse.invoked w
           ++ (if Sse.provided o Sse.onConnected then [(Sse.onConnected, None)] else []))
  /\ (forall (name : string) (cb : Sse.Callback) (data : string),
         In (name, cb) [("new_order", Sse.onNewOrder);
                        ("kitchen_update", Sse.onKitchenUpdate);
                        ("order_paid", Sse.onOrderPaid)]%string ->
         Sse.invoked (Sse.deliver parse o es (Sse.Message name data) w)
         = Sse.invoked w
           ++ match parse data with
              | Some d => if Sse.provided o cb then [(cb, Some d)] else []
              | None => []
              end).
Proof.
  intros Hopen w1 timeout.
  assert (Hw1 : w1 = Sse.onerror es w).
  { unfold w1, Sse.deliver. rewrite Hopen. reflexivity. }
  split; [| split; [| split; [| split]]].
  - rewrite Hw1. split; [apply onerror_closes |]. repeat split.
  - intros Hp dt Hdt.
    apply (advance_early Json encode o w1 timeout dt).
    + rewrite Hw1. simpl. rewrite Hp. reflexivity.
    + rewrite Hw1. simpl. lia.
  - intros Hp Hen token Htok Hne dt Hdt.
    destruct (advance_due Json encode o w1 timeout dt token) as [H1 [H2 _]].
    + rewrite Hw1. simpl. rewrite Hp. reflexivity.
    + rewrite Hw1. simpl. lia.
    + exact Hen.
    + rewrite Hw1. exact Htok.
    + exact Hne.
    + split; [| rewrite H2, Hw1; reflexivity].
      rewrite H1. rewrite Hw1. reflexivity.
  - intros data. unfold Sse.deliver. rewrite Hopen.
    unfold Sse.listener. simpl. unfold Sse.call. destruct (Sse.provided o Sse.onConnected); simpl.
    + reflexivity.
    + symmetry. apply app_nil_r.
  - intros name cb data Hin. unfold Sse.deliver. rewrite Hopen.
    simpl in Hin.
    destruct Hin as [H | [H | [H | []]]]; injection H as <- <-;
      unfold Sse.listener; simpl; unfold Sse.parsed, Sse.call;
      destruct (parse data); try (symmetry; apply app_nil_r);
      match goal with
      | |- context [Sse.provided o ?c] => destruct (Sse.provided o c)
      end; simpl; try reflexivity; symmetry; apply app_nil_r.
Qed.

Lemma sse_reconnect_and_events_witness :
  let w1 := Sse.deliver Examples.acceptBraces Examples.allCallbacks 0
              Sse.Error Examples.streaming in
  Sse.isOpen 0 Examples.streaming = true
  /\ Sse.isOpen 0 w1 = false
  /\ Sse.opened (Sse.advance (fun t => t) Examples.allCallbacks 4999 w1) = []
  /\ Sse.opened (Sse.advance (fun t => t) Examples.allCallbacks 5000 w1)
     = [ {| Sse.src_id := 1;
            Sse.src_url := "/api/sse/events?token=abc";
            Sse.src_openedAt := 6000 |} ].
Proof.
  intros w1.
  pose proof (sse_reconnect_and_events unit Examples.acceptBraces (fun t => t)
                Examples.allCallbacks Examples.streaming 0%nat eq_refl)
    as [[Hclosed _] [Hearly [Hlate _]]].
  split; [reflexivity |].
  split; [exact Hclosed |].
  split.
  - apply (Hearly eq_refl 4999%Z). lia.
  - apply (Hlate eq_refl eq_refl "abc"%string eq_refl).
    + discriminate.
    + lia.
Defined.

(** C9 as stated fails on [connected]: its payload is not parsed.  With a
    payload that is JSON, [onNewOrder] gets the parsed value and
    [onConnected] gets nothing; with one that is not, [new_order] is ignored
    and [connected] is handled all the same.  It also fails when the token
    has been removed by the time the timeout fires: [connect] returns and no
    source is opened. *)
Lemma connected_payload_not_parsed :
  let deliver := Sse.deliver Examples.acceptBraces Examples.allCallbacks 0 in
  let loggedOut := Sse.setAccessToken None (deliver Sse.Error Examples.streaming) in
  Sse.invoked (deliver (Sse.Message "new_order" "{}") Examples.streaming)
  = [(Sse.onNewOrder, Some tt)]
  /\ Sse.invoked (deliver (Sse.Message "connected" "{}") Examples.streaming)
     = [(Sse.onConnected, None)]
  /\ Sse.invoked (deliver (Sse.Message "new_order" "oops") Examples.streaming) = []
  /\ Sse.invoked (deliver (Sse.Message "connected" "oops") Examples.streaming)
     = [(Sse.onConnected, None)]
  /\ Sse.opened (Sse.advance (fun t => t) Examples.allCallbacks 5000 loggedOut) = []
  /\ Sse.pending (Sse.advance (fun t => t) Examples.allCallbacks 5000 loggedOut) = [].
Proof.
  intros deliver loggedOut. repeat split.
Qed.

(** * Further properties of the pages *)

(** ** Organising the categories *)

Section OrganizeCategories.
Import Api Organize.

Lemma indexOf_nth (x : Z) (l : list Z) (i : nat) :
  indexOf x l = Some i -> nth_error l i = Some x /\ (i < List.length l)%nat.
Proof.
  revert i. induction l as [| y r IH]; simpl; intros i H.
  - discriminate.
  - destruct (y =? x)%Z eqn:E.
    + injection H as <-. apply Z.eqb_eq in E. subst. simpl. split; [reflexivity | lia].
    + destruct (indexOf x r) as [j |]; [| discriminate].
      injection H as <-. destruct (IH j eq_refl) as [H1 H2]. simpl. split; [exact H1 | lia].
Qed.

Lemma indexOf_In (x : Z) (l : list Z) : In x l -> exists i, indexOf x l = Some i.
Proof.
  induction l as [| y r IH]; simpl; intros H.
  - contradiction.
  - destruct (y =? x)%Z eqn:E.
    + exists O. reflexivity.
    + destruct H as [-> | H]; [rewrite Z.eqb_refl in E; discriminate |].
      destruct (IH H) as [i Hi]. exists (S i). rewrite Hi. reflexivity.
Qed.

Lemma indexOf_None (x : Z) (l : list Z) : ~ In x l -> indexOf x l = None.
Proof.
  intros H. destruct (indexOf x l) as [i |] eqn:E; [| reflexivity].
  exfalso. apply H. destruct (indexOf_nth x l i E) as [Hn _].
  apply nth_error_In in Hn. exact Hn.
Qed.

Lemma removeAt_split (l : list Z) (i : nat) (x : Z) :
  nth_error l i = Some x -> l = firstn i l ++ x :: skipn (S i) l.
Proof.
  revert i. induction l as [| y r IH]; intros [| i] H; simpl in *; try discriminate.
  - injection H as ->. reflexivity.
  - f_equal. apply IH. exact H.
Qed.

Lemma removeAt_length (l : list Z) (i : nat) (x : Z) :
  nth_error l i = Some x -> S (List.length (removeAt i l)) = List.length l.
Proof.
  intros H. rewrite (removeAt_split l i x H) at 2. unfold removeAt.
  rewrite !length_app. simpl. lia.
Qed.

Lemma move_permutation (l : list Z) (i j : nat) (x : Z) :
  nth_error l i = Some x -> Permutation l (insertAt j x (removeAt i l)).
Proof.
  intros H. unfold insertAt.
  apply Permutation_trans with (x :: removeAt i l).
  - rewrite (removeAt_split l i x H) at 1. unfold removeAt.
    apply Permutation_sym, Permutation_middle.
  - rewrite <- (firstn_skipn j (removeAt i l)) at 1. apply Permutation_middle.
Qed.

Lemma move_lands (l : list Z) (j : nat) (x : Z) :
  (j <= List.length l)%nat -> nth_error (insertAt j x l) j = Some x.
Proof.
  intros H. unfold insertAt.
  rewrite nth_error_app2; rewrite length_firstn, Nat.min_l by exact H; [| lia].
  rewrite Nat.sub_diag. reflexivity.
Qed.

(** The drops keep the organise mode on and the draft a rearrangement of
    the ids it started from. *)
Lemma reorderAll_draft (moves : list (Z * Z)) (s : State) (draft : list Z) :
  isOrganizingCategories s = true -> draftCategoryOrder s = Some draft ->
  exists next,
    draftCategoryOrder (reorderAll moves s) = Some next
    /\ Permutation draft next
    /\ isOrganizingCategories (reorderAll moves s) = true
    /\ categories (reorderAll moves s) = categories s.
Proof.
  revert s draft. induction moves as [| [a b] moves IH]; intros s draft Ho Hd; simpl.
  - exists draft. repeat split; auto.
  - assert (Hstep : exists d1,
               draftCategoryOrder (handleReorderCategoryDraft a b s) = Some d1
               /\ Permutation draft d1
               /\ isOrganizingCategories (handleReorderCategoryDraft a b s) = true
               /\ categories (handleReorderCategoryDraft a b s) = categories s).
    { unfold handleReorderCategoryDraft. rewrite Ho, Hd. simpl.
      destruct (a =? b)%Z; [exists draft; repeat split; auto |].
      destruct (indexOf a draft) as [i |] eqn:Ei; [| exists draft; repeat split; auto].
      destruct (indexOf b draft) as [j |]; [| exists draft; repeat split; auto].
      destruct (indexOf_nth a draft i Ei) as [Hn _]. rewrite Hn. simpl.
      eexists. split; [reflexivity |]. split; [| split; [exact Ho | reflexivity]].
      apply move_permutation. exact Hn. }
    destruct Hstep as [d1 [H1 [H2 [H3 H4]]]].
    destruct (IH _ d1 H3 H1) as [next [G1 [G2 [G3 G4]]]].
    exists next. split; [exact G1 |]. split; [| split; [exact G3 |]].
    + apply Permutation_trans with d1; assumption.
    + rewrite G4. exact H4.
Qed.

Lemma find_the_one {A : Type} (key : A -> Z) (l : list A) (c : A) :
  NoDup (map key l) -> In c l ->
  find (fun x => (key x =? key c)%Z) l = Some c.
Proof.
  induction l as [| y l IH]; simpl; intros Hnd Hin.
  - contradiction.
  - inversion Hnd as [| k ks Hnin Hnd']; subst.
    destruct (key y =? key c)%Z eqn:E.
    + apply Z.eqb_eq in E. destruct Hin as [-> | Hin]; [reflexivity |].
      exfalso. apply Hnin. rewrite E. apply in_map. exact Hin.
    + destruct Hin as [-> | Hin]; [rewrite Z.eqb_refl in E; discriminate |].
      apply IH; assumption.
Qed.

Lemma byId_the_one (cats : list Category) (c : Category) :
  NoDup (map category_id cats) -> In c cats -> byId cats (category_id c) = Some c.
Proof.
  intros Hnd Hin. unfold byId. apply find_the_one.
  - rewrite map_rev. apply NoDup_rev. exact Hnd.
  - apply -> in_rev. exact Hin.
Qed.

Lemma shown_in_own_order (cats l : list Category) :
  NoDup (map category_id cats) -> incl l cats ->
  flat_map (fun id => match byId cats id with Some cat => [cat] | None => [] end)
           (map category_id l) = l.
Proof.
  intros Hnd. induction l as [| c l IH]; simpl; intros Hincl.
  - reflexivity.
  - rewrite (byId_the_one cats c Hnd) by (apply Hincl; left; reflexivity).
    simpl. f_equal. apply IH. intros x Hx. apply Hincl. right. exact Hx.
Qed.

End OrganizeCategories.

(** X1.  While organising, a drop of the category [activeId] on a different
    category [overId], both in the draft, rearranges the draft: the new
    draft is a permutation of the old one and holds [activeId] at the index
    where [overId] was.  Outside the organise mode, without a draft, on a
    drop of a category on itself, or when one of the two ids is not in the
    draft, nothing changes. *)
Theorem reorder_category_draft (activeId overId : Z) (s : Organize.State) :
  (forall draft : list Z,
      Organize.isOrganizingCategories s = true ->
      Organize.draftCategoryOrder s = Some draft ->
      activeId <> overId -> In activeId draft -> In overId draft ->
      exists (next : list Z) (toIndex : nat),
        Organize.handleReorderCategoryDraft activeId overId s
        = Organize.setDraftCategoryOrder (Some next) s
        /\ Organize.indexOf overId draft = Some toIndex
        /\ Permutation draft next
        /\ nth_error next toIndex = Some activeId)
  /\ (Organize.isOrganizingCategories s = false
      \/ Organize.draftCategoryOrder s = None
      \/ activeId = overId
      \/ (exists draft, Organize.draftCategoryOrder s = Some draft
                        /\ (~ In activeId draft \/ ~ In overId draft)) ->
      Organize.handleReorderCategoryDraft activeId overId s = s).
Proof.
  split.
  - intros draft Ho Hd Hne Ha Hb.
    destruct (indexOf_In activeId draft Ha) as [i Hi].
    destruct (indexOf_In overId draft Hb) as [j Hj].
    destruct (indexOf_nth activeId draft i Hi) as [Hn _].
    destruct (indexOf_nth overId draft j Hj) as [_ Hlt].
    exists (Organize.insertAt j activeId (Organize.removeAt i draft)), j.
    split; [| split; [exact Hj | split]].
    + unfold Organize.handleReorderCategoryDraft. rewrite Ho, Hd. simpl.
      apply Z.eqb_neq in Hne. rewrite Hne, Hi, Hj, Hn. reflexivity.
    + apply move_permutation. exact Hn.
    + apply move_lands. pose proof (removeAt_length draft i activeId Hn). lia.
  - unfold Organize.handleReorderCategoryDraft.
    intros [H | [H | [H | [draft [Hd [H | H]]]]]].
    + rewrite H. reflexivity.
    + rewrite H. destruct (Organize.isOrganizingCategories s); reflexivity.
    + subst. rewrite Z.eqb_refl.
      destruct (Organize.isOrganizingCategories s); [| reflexivity].
      destruct (Organize.draftCategoryOrder s); reflexivity.
    + rewrite Hd, (indexOf_None activeId draft H).
      destruct (Organize.isOrganizingCategories s); [| reflexivity].
      destruct (activeId =? overId)%Z; reflexivity.
    + rewrite Hd, (indexOf_None overId draft H).
      destruct (Organize.isOrganizingCategories s); [| reflexivity].
      destruct (activeId =? overId)%Z; [reflexivity |].
      destruct (Organize.indexOf activeId draft); reflexivity.
Qed.

Lemma reorder_category_draft_witness :
  let s := {| Organize.categories := [];
              Organize.isOrganizingCategories := true;
              Organize.draftCategoryOrder := Some [10; 20; 30; 40]%Z |} in
  Organize.draftCategoryOrder (Organize.handleReorderCategoryDraft 10 30 s)
  = Some [20; 30; 10; 40]%Z
  /\ exists (next : list Z) (toIndex : nat),
      Organize.handleReorderCategoryDraft 10 30 s
      = Organize.setDraftCategoryOrder (Some next) s
      /\ Organize.indexOf 30 [10; 20; 30; 40]%Z = Some toIndex
      /\ Permutation [10; 20; 30; 40]%Z next
      /\ nth_error next toIndex = Some 10%Z.
Proof.
  intros s. split; [reflexivity |].
  apply (proj1 (reorder_category_draft 10 30 s) [10; 20; 30; 40]%Z eq_refl eq_refl).
  - discriminate.
  - left. reflexivity.
  - right. right. left. reflexivity.
Defined.

(** X2.  When the category ids are distinct, entering the organise mode
    shows the categories as they were, any run of drops shows a
    rearrangement of them (none is lost or shown twice), and cancelling
    shows them in their own order again. *)
Theorem categories_shown_while_organizing (s : Organize.State) (moves : list (Z * Z)) :
  NoDup (map Api.category_id (Organize.categories s)) ->
  let started := Organize.handleStartOrganizeCategories s in
  Organize.categoriesToShow started = Organize.categories s
  /\ Permutation (Organize.categories s)
                 (Organize.categoriesToShow (Organize.reorderAll moves started))
  /\ Organize.categoriesToShow
       (Organize.handleCancelOrganizeCategories (Organize.reorderAll moves started))
     = Organize.categories s.
Proof.
  intros Hnd started.
  assert (Hown : Organize.categoriesToShow started = Organize.categories s).
  { unfold Organize.categoriesToShow, started. simpl.
    apply shown_in_own_order; [exact Hnd | apply incl_refl]. }
  split; [exact Hown |].
  destruct (reorderAll_draft moves started (map Api.category_id (Organize.categories s))
              eq_refl eq_refl) as [next [H1 [H2 [H3 H4]]]].
  split.
  - unfold Organize.categoriesToShow. rewrite H3, H1, H4. simpl.
    rewrite <- Hown at 1. unfold Organize.categoriesToShow, started. simpl.
    apply Permutation_flat_map. exact H2.
  - unfold Organize.categoriesToShow. simpl. exact H4.
Qed.

Lemma categories_shown_while_organizing_witness :
  let cats := [ {| Api.category_id := 1; Api.category_name := "Bebidas" |};
                {| Api.category_id := 2; Api.category_name := "Platos" |} ] in
  let s := {| Organize.categories := cats;
              Organize.isOrganizingCategories := false;
              Organize.draftCategoryOrder := None |} in
  Permutation cats
    (Organize.categoriesToShow
       (Organize.reorderAll [(1, 2)%Z] (Organize.handleStartOrganizeCategories s))).
Proof.
  intros cats s.
  assert (Hnd : NoDup (map Api.category_id (Organize.categories s))).
  { repeat constructor; simpl; intuition discriminate. }
  exact (proj1 (proj2 (categories_shown_while_organizing s [(1, 2)%Z] Hnd))).
Defined.

(** ** The table list of the point-of-sale page *)

Section PosTableList.
Import Api PosMore.

Lemma insertByNumber_perm (t : RestaurantTable) (l : list RestaurantTable) :
  Permutation (t :: l) (insertByNumber t l).
Proof.
  induction l as [| x r IH]; simpl.
  - apply Permutation_refl.
  - destruct (tableNumber t <=? tableNumber x)%Z.
    + apply Permutation_refl.
    + apply Permutation_trans with (x :: t :: r).
      * apply perm_swap.
      * apply perm_skip. exact IH.
Qed.

Lemma sortByNumber_perm (l : list RestaurantTable) : Permutation l (sortByNumber l).
Proof.
  induction l as [| t l IH]; simpl.
  - apply Permutation_refl.
  - apply Permutation_trans with (t :: sortByNumber l).
    + apply perm_skip. exact IH.
    + apply insertByNumber_perm.
Qed.

Lemma insertByNumber_sorted (t : RestaurantTable) (l : list RestaurantTable) :
  StronglySorted byNumber l -> StronglySorted byNumber (insertByNumber t l).
Proof.
  induction 1 as [| x r Hs IH Hall]; simpl.
  - constructor; constructor.
  - destruct (tableNumber t <=? tableNumber x)%Z eqn:E.
    + apply Z.leb_le in E. constructor.
      * constructor; assumption.
      * constructor; [exact E |].
        revert Hall. apply Forall_impl. intros y Hy. unfold byNumber in *. lia.
    + apply Z.leb_gt in E. constructor; [exact IH |].
      apply (Permutation_Forall (insertByNumber_perm t r)).
      constructor; [unfold byNumber; lia | exact Hall].
Qed.

Lemma sortByNumber_sorted (l : list RestaurantTable) :
  StronglySorted byNumber (sortByNumber l).
Proof.
  induction l as [| t l IH]; simpl.
  - constructor.
  - apply insertByNumber_sorted. exact IH.
Qed.

Lemma found_by_id (l : list RestaurantTable) (t : RestaurantTable) :
  NoDup (map table_id l) -> In t l ->
  find (fun x => (table_id x =? table_id t)%Z) l = Some t.
Proof.
  induction l as [| y l IH]; simpl; intros Hnd Hin.
  - contradiction.
  - inversion Hnd as [| k ks Hnin Hnd']; subst.
    destruct (table_id y =? table_id t)%Z eqn:E.
    + apply Z.eqb_eq in E. destruct Hin as [-> | Hin]; [reflexivity |].
      exfalso. apply Hnin. rewrite E. apply in_map. exact Hin.
    + destruct Hin as [-> | Hin]; [rewrite Z.eqb_refl in E; discriminate |].
      apply IH; assumption.
Qed.

End PosTableList.

(** X3.  When the table list arrives, the page keeps the active tables of
    the answer, all of them and only them, in ascending order of table
    number, and changes nothing else; when the request is rejected the page
    keeps the list it had and shows nothing. *)
Theorem pos_tables_fetched (env : Api.Env) (s : POS.State) :
  let out := Api.exec env PosMore.fetchTablesDone s in
  (forall res : list Api.RestaurantTable,
      env [] Api.TableGetAll = inr res ->
      fst out = [Api.Await Api.TableGetAll]
      /\ StronglySorted PosMore.byNumber (POS.tables (snd out))
      /\ Forall (fun t => Api.isActive t = true) (POS.tables (snd out))
      /\ Permutation (filter Api.isActive res) (POS.tables (snd out))
      /\ snd out = PosMore.setTables (POS.tables (snd out)) s)
  /\ (forall e : Api.ApiError,
         env [] Api.TableGetAll = inl e ->
         out = ([Api.Await Api.TableGetAll], s)).
Proof.
  intros out. subst out. unfold Api.exec, PosMore.fetchTablesDone. cbn.
  split.
  - intros res H. answer_with H.
    split; [reflexivity |].
    split; [apply sortByNumber_sorted |].
    split.
    + apply (Permutation_Forall (sortByNumber_perm _)).
      apply Forall_forall. intros t Ht. apply filter_In in Ht. apply Ht.
    + split; [apply sortByNumber_perm | reflexivity].
  - intros e H. answer_with H. reflexivity.
Qed.

Lemma pos_tables_fetched_witness :
  let t := fun (n : Z) (on : bool) =>
             {| Api.table_id := n; Api.tableNumber := n; Api.table_name := "Mesa";
                Api.zone := "BAR"; Api.capacity := 2;
                Api.table_status := Api.DISPONIBLE; Api.isActive := on;
                Api.table_activeSession := None |} in
  let env : Api.Env :=
    fun _ r => match r as r0 return Api.ApiError + Api.RespT r0 with
               | Api.TableGetAll => inr [t 3%Z true; t 2%Z false; t 1%Z true]
               | r0 => inr (Examples.answer r0)
               end in
  let s := Examples.pos None Api.DISPONIBLE Api.EFECTIVO (Js.Num 12000) in
  POS.tables (snd (Api.exec env PosMore.fetchTablesDone s)) = [t 1%Z true; t 3%Z true]
  /\ StronglySorted PosMore.byNumber
       (POS.tables (snd (Api.exec env PosMore.fetchTablesDone s))).
Proof.
  intros t env s. split; [reflexivity |].
  exact (proj1 (proj2 (proj1 (pos_tables_fetched env s)
                         [t 3%Z true; t 2%Z false; t 1%Z true] eq_refl))).
Defined.

(** X4.  A table picked in the selector is never sold as a direct sale:
    when the table ids of the list are distinct and the id picked is not 0,
    the table found for the checkout is the one picked and the first request
    of the checkout is the open call of that table when it is DISPONIBLE and
    its add-items call when it is OCUPADA.  "Sin mesa" after it undoes the
    choice: the checkout starts with the direct sale. *)
Theorem picked_table_is_sold_through_the_table
        (env : Api.Env) (s : POS.State) (t : Api.RestaurantTable) :
  NoDup (map Api.table_id (POS.tables s)) ->
  In t (PosMore.selectable s) ->
  Api.table_id t <> 0%Z ->
  let s1 := PosMore.pickTable t s in
  POS.selectedTable s1 = Some t
  /\ POS.viaTable s1 = true
  /\ hd_error (Api.requests (fst (Api.exec env (POS.handleConfirmSale s1) s1)))
     = Some (match Api.table_status t with
             | Api.DISPONIBLE => Api.TableOpen (Api.table_id t) (POS.openRequest s1)
             | _ => Api.TableAddItems (Api.table_id t) (POS.tableItems s1)
             end)
  /\ (let s0 := PosMore.pickNoTable s1 in
      POS.viaTable s0 = false
      /\ hd_error (Api.requests (fst (Api.exec env (POS.handleConfirmSale s0) s0)))
         = Some (Api.InvoiceCreateSale (POS.saleRequest s0))).
Proof.
  intros Hnd Hin Hnz s1.
  apply filter_In in Hin. destruct Hin as [Hin Hst].
  assert (Hsel : POS.selectedTable s1 = Some t).
  { unfold POS.selectedTable, s1. simpl. apply found_by_id; assumption. }
  split; [exact Hsel |].
  assert (Hback : let s0 := PosMore.pickNoTable s1 in
                  POS.viaTable s0 = false
                  /\ hd_error (Api.requests (fst (Api.exec env (POS.handleConfirmSale s0) s0)))
                     = Some (Api.InvoiceCreateSale (POS.saleRequest s0))).
  { intros s0. split.
    - unfold POS.viaTable.
      rewrite (selectedWith_none s0 Api.DISPONIBLE eq_refl),
        (selectedWith_none s0 Api.OCUPADA eq_refl). reflexivity.
    - apply direct_sale_first_request. reflexivity. }
  assert (Hid : POS.selectedTableId s1 = Some (Api.table_id t)) by reflexivity.
  destruct (Api.table_status t) eqn:Est; try discriminate.
  - destruct (selectedWith_true s1 _ t Api.DISPONIBLE Hid Hnz Hsel Est) as [Hsw Harg].
    split; [unfold POS.viaTable; rewrite Hsw; reflexivity |].
    split; [| exact Hback].
    unfold Api.exec, POS.handleConfirmSale, POS.confirmSaleBody.
    rewrite Hsw, Harg. cbn. each_answer; reflexivity.
  - destruct (selectedWith_true s1 _ t Api.OCUPADA Hid Hnz Hsel Est) as [Hsw Harg].
    assert (Hav : POS.selectedWith Api.DISPONIBLE s1 = false).
    { destruct (POS.selectedWith Api.DISPONIBLE s1) eqn:E; [| reflexivity].
      apply selectedWith_exclusive in E. congruence. }
    split; [unfold POS.viaTable; rewrite Hsw; apply orb_true_r |].
    split; [| exact Hback].
    unfold Api.exec, POS.handleConfirmSale, POS.confirmSaleBody.
    rewrite Hav, Hsw, Harg. cbn. each_answer; reflexivity.
Qed.

Lemma picked_table_is_sold_through_the_table_witness :
  let s := Examples.pos None Api.OCUPADA Api.EFECTIVO (Js.Num 12000) in
  let s1 := PosMore.pickTable (Examples.table5 Api.OCUPADA) s in
  POS.viaTable s1 = true
  /\ hd_error (Api.requests (fst (Api.exec Examples.server (POS.handleConfirmSale s1) s1)))
     = Some (Api.TableAddItems 5 (POS.tableItems s1)).
Proof.
  intros s s1.
  assert (Hnd : NoDup (map Api.table_id (POS.tables s))).
  { repeat constructor. intros []. }
  assert (Hin : In (Examples.table5 Api.OCUPADA) (PosMore.selectable s)).
  { left. reflexivity. }
  assert (Hnz : Api.table_id (Examples.table5 Api.OCUPADA) <> 0%Z) by discriminate.
  destruct (picked_table_is_sold_through_the_table Examples.server s _ Hnd Hin Hnz)
    as [_ [H1 [H2 _]]].
  split; [exact H1 | exact H2].
Defined.

(** X5.  Whatever the server answers, a checkout ends with [processing]
    false, awaits at most four requests, all of them calls of the checkout
    (open, add items, pay, direct sale, fetch of the invoice), leaves the
    cart either as it was or cleared, and does not touch the table list or
    the products it holds. *)
Theorem confirm_sale_bounds (env : Api.Env) (s : POS.State) :
  let out := Api.exec env (POS.handleConfirmSale s) s in
  POS.processing (snd out) = false
  /\ (List.length (Api.awaited (fst out)) <= 4)%nat
  /\ Forall (fun r => POS.isCheckoutStep r = true) (Api.awaited (fst out))
  /\ (POS.cart (snd out) = POS.cart s
      \/ POS.cart (snd out) = Cart.clearCart (POS.cart s))
  /\ POS.tables (snd out) = POS.tables s
  /\ POS.products (snd out) = POS.products s.
Proof.
  run_handler.
  destruct (POS.selectedWith Api.DISPONIBLE s);
    [| destruct (POS.selectedWith Api.OCUPADA s)];
    cbn; each_answer;
    (split; [reflexivity |]);
    (split; [simpl; lia |]);
    (split; [repeat constructor |]);
    (split; [first [left; reflexivity | right; reflexivity] |]);
    split; reflexivity.
Qed.

(** X6.  The change row of the payment modal is shown only for a numeric
    amount that covers the total, and shows that amount minus the total,
    which is not negative; for cash with a numeric amount (and no sale in
    progress) it is shown exactly when the confirm button is enabled; for an
    amount that is not a number it is not shown. *)
Theorem change_display (s : POS.State) :
  (PosMore.changeShown s = true ->
   exists a : Q,
     POS.amountReceived s = Js.Num a
     /\ POS.total s <= a
     /\ PosMore.change s = Js.Num (a - POS.total s)
     /\ 0 <= a - POS.total s
     /\ (POS.processing s = false -> POS.confirmDisabled s = false))
  /\ (forall a : Q,
         POS.paymentMethod s = Api.EFECTIVO ->
         POS.processing s = false ->
         POS.amountReceived s = Js.Num a ->
         PosMore.changeShown s = negb (POS.confirmDisabled s))
  /\ (POS.amountReceived s = Js.NaN -> PosMore.changeShown s = false).
Proof.
  split; [| split].
  - unfold PosMore.changeShown, PosMore.change, POS.confirmDisabled.
    intros H. apply andb_prop in H. destruct H as [_ H].
    destruct (POS.amountReceived s) as [| a]; [discriminate |].
    simpl in H. exists a. split; [reflexivity |].
    assert (Hle : POS.total s <= a) by (apply Qle_bool_iff; exact H).
    split; [exact Hle |]. split; [reflexivity |]. split.
    + apply (Qplus_le_l _ _ (POS.total s)). ring_simplify. exact Hle.
    + intros Hp. rewrite Hp. simpl. unfold Js.lt. rewrite H. apply andb_false_r.
  - intros a Hm Hp Ha. unfold PosMore.changeShown, POS.confirmDisabled.
    rewrite Hm, Hp, Ha. simpl. rewrite negb_involutive. reflexivity.
  - intros Ha. unfold PosMore.changeShown. rewrite Ha. apply andb_false_r.
Qed.

Lemma change_display_witness :
  let s := POS.setAmountReceived (Js.Num 25000)
             (POS.setCart Cart.scenario
                (Examples.pos None Api.DISPONIBLE Api.EFECTIVO Js.NaN)) in
  PosMore.changeShown s = true
  /\ exists a : Q,
      POS.amountReceived s = Js.Num a
      /\ POS.total s <= a
      /\ PosMore.change s = Js.Num (a - POS.total s)
      /\ 0 <= a - POS.total s
      /\ (POS.processing s = false -> POS.confirmDisabled s = false).
Proof.
  intros s.
  assert (H : PosMore.changeShown s = true) by reflexivity.
  split; [exact H | exact (proj1 (change_display s) H)].
Defined.

(** ** More of the tables page *)

(** Brings the hypothesis on the answer of the first call, [H], together
    with the answer [E] the run met. *)
Ltac first_answer H E :=
  first [discriminate H | injection H as <- | same_answer H E].

(** X7.  A click on a table selects it and shows no toast.  For a table that
    is not OCUPADA it asks the server nothing and clears the session shown;
    for an OCUPADA table it asks for the active session once and shows the
    answer, or, when the request is rejected, the session the table of the
    list carries (none when it carries none).  The table list is left as it
    is. *)
Theorem select_table (env : Api.Env) (s : Tables.State) (table : Api.RestaurantTable) :
  let out := Api.exec env (TablesMore.handleSelectTable table) s in
  let ask := Api.TableGetActiveSession (Api.table_id table) in
  Tables.selectedTable (snd out) = Some table
  /\ Tables.tables (snd out) = Tables.tables s
  /\ (forall k msg, ~ In (Api.Toast k msg) (fst out))
  /\ (Api.table_status table <> Api.OCUPADA ->
      fst out = [] /\ Tables.activeSession (snd out) = None)
  /\ (Api.table_status table = Api.OCUPADA ->
      fst out = [Api.Await ask]
      /\ Tables.activeSession (snd out)
         = match env [] ask with
           | inr res => Some res
           | inl _ => Api.table_activeSession table
           end).
Proof.
  intros out ask. subst out ask. unfold Api.exec, TablesMore.handleSelectTable.
  destruct (Api.table_status table) eqn:Est; cbn; each_answer;
    (split; [reflexivity |]); (split; [reflexivity |]);
    (split; [intros k msg Hin; no_such_event Hin |]);
    (split; [intros Hne; try congruence; split; reflexivity |]);
    intros Heq; try discriminate; split; reflexivity.
Qed.

Lemma select_table_witness :
  let busy := Examples.table5 Api.OCUPADA in
  let free := Examples.table5 Api.DISPONIBLE in
  fst (Api.exec Examples.server (TablesMore.handleSelectTable busy) Examples.tablesPage)
  = [Api.Await (Api.TableGetActiveSession (Api.table_id busy))]
  /\ fst (Api.exec Examples.server (TablesMore.handleSelectTable free) Examples.tablesPage)
     = [].
Proof.
  intros busy free.
  split.
  - apply (proj2 (proj2 (proj2 (proj2
             (select_table Examples.server Examples.tablesPage busy))))).
    reflexivity.
  - apply (proj1 (proj2 (proj2 (proj2
             (select_table Examples.server Examples.tablesPage free))))).
    discriminate.
Defined.

(** X8.  When the call of a table action is rejected, the action shows one
    error toast, with the message of the server or the fallback of the
    action, and issues no other request: the table list is not requested
    again.  The page is left as it was (session, table list, draft, open
    modals): opening, adding items, paying and creating end with
    [processing] false, and removing an item, which does not set
    [processing], changes nothing at all.  Creating a table needs no table
    to be selected. *)
Theorem table_call_rejected (env : Api.Env) (s : Tables.State) (e : Api.ApiError) :
  (forall t : Api.RestaurantTable,
      let open := Api.TableOpen (Api.table_id t)
                    {| Api.guestCount := Tables.guestCount s;
                       Api.open_notes := Js.str_or_undefined (Tables.tableNotes s);
                       Api.open_customerId := None |} in
      Tables.selectedTable s = Some t ->
      env [] open = inl e ->
      Api.exec env (Tables.handleOpenTable s) s
      = ([Api.Await open; Api.Toast Api.ToastError (Api.messageOr e "Error al abrir mesa")],
         Tables.setProcessing false (Tables.setProcessing true s)))
  /\ (forall t : Api.RestaurantTable,
         let add := Api.TableAddItems (Api.table_id t) (Tables.addItemsRequest s) in
         Tables.selectedTable s = Some t ->
         Tables.itemsToAdd s <> [] ->
         env [] add = inl e ->
         Api.exec env (Tables.handleAddItems s) s
         = ([Api.Await add;
             Api.Toast Api.ToastError (Api.messageOr e "Error al agregar productos")],
            Tables.setProcessing false (Tables.setProcessing true s)))
  /\ (forall (t : Api.RestaurantTable) (detailId : Z),
         let remove := Api.TableRemoveItem (Api.table_id t) detailId in
         Tables.selectedTable s = Some t ->
         env [] remove = inl e ->
         Api.exec env (Tables.handleRemoveItem detailId s) s
         = ([Api.Await remove;
             Api.Toast Api.ToastError (Api.messageOr e "Error al eliminar producto")],
            s))
  /\ (forall (t : Api.RestaurantTable) (old : Api.TableSession),
         let pay := Api.TablePay (Api.table_id t) (Tables.payTableRequest s) in
         Tables.selectedTable s = Some t ->
         Tables.activeSession s = Some old ->
         env [] pay = inl e ->
         Api.exec env (Tables.handlePayTable s) s
         = ([Api.Await pay; Api.Toast Api.ToastError (Api.messageOr e "Error al pagar mesa")],
            Tables.setProcessing false (Tables.setProcessing true s)))
  /\ (forall n : Js.number,
         let create := Api.TableCreate (Tables.createTableRequest n (Tables.newTable s)) in
         Tables.newTableNumber (Tables.newTable s) = Some n ->
         env [] create = inl e ->
         Api.exec env (Tables.handleCreateTable s) s
         = ([Api.Await create; Api.Toast Api.ToastError (Api.messageOr e "Error al crear mesa")],
            Tables.setProcessing false (Tables.setProcessing true s))).
Proof.
  split; [| split; [| split; [| split]]].
  - intros t open Hsel H. run_tables. rewrite Hsel. cbn.
    each_answer; first_answer H E; reflexivity.
  - intros t add Hsel Hne H. run_tables. rewrite Hsel.
    destruct (Tables.itemsToAdd s) as [| d l] eqn:Hl; [contradiction |].
    cbn. each_answer; first_answer H E; reflexivity.
  - intros t detailId remove Hsel H. run_tables. rewrite Hsel. cbn.
    each_answer; first_answer H E; reflexivity.
  - intros t old pay Hsel Hold H. run_tables. rewrite Hsel, Hold. cbn.
    each_answer; first_answer H E; reflexivity.
  - intros n create Hn H. run_tables. rewrite Hn. cbn.
    each_answer; first_answer H E; reflexivity.
Qed.

Lemma table_call_rejected_witness :
  let s := Examples.tablesPage in
  let nobody := Tables.setSelectedTable None Examples.tablesPage in
  (let out := Api.exec (Examples.rejecting Examples.isAddItems) (Tables.handleAddItems s) s in
   out = ([Api.Await (Api.TableAddItems 5 (Tables.addItemsRequest s));
           Api.Toast Api.ToastError "Stock insuficiente"],
          Tables.setProcessing false (Tables.setProcessing true s)))
  /\ (let create := Api.TableCreate
                      (Tables.createTableRequest (Js.Num 9) (Tables.newTable nobody)) in
      Api.exec (Examples.rejecting Examples.isCreate) (Tables.handleCreateTable nobody) nobody
      = ([Api.Await create; Api.Toast Api.ToastError "Stock insuficiente"],
         Tables.setProcessing false (Tables.setProcessing true nobody))).
Proof.
  intros s nobody.
  split.
  - assert (Hne : Tables.itemsToAdd s <> []) by discriminate.
    exact (proj1 (proj2 (table_call_rejected
                           (Examples.rejecting Examples.isAddItems) s Examples.outOfStock))
             (Examples.table5 Api.OCUPADA) eq_refl Hne eq_refl).
  - exact (proj2 (proj2 (proj2 (proj2 (table_call_rejected
                                         (Examples.rejecting Examples.isCreate) nobody
                                         Examples.outOfStock))))
             (Js.Num 9) eq_refl eq_refl).
Defined.

(** X9.  In the pay modal of a table, for either payment method, a numeric
    amount below the total of the session (a missing or zero total counting
    as 0) disables "Confirmar Pago" and a click issues no request.  "Cobrar
    Mesa" on an occupied table whose session has lines opens the modal with
    the amount set to that total, so that, with no payment in progress
    ([processing] false), the button is enabled and the pay request carries
    the total; on a session without lines it does nothing.  "Tarjeta" in the
    open modal sets the amount to the total as well: with no payment in
    progress the button is enabled and the pay request carries the total
    with the method TARJETA_CREDITO. *)
Theorem table_pay_guard (env : Api.Env) (s : Tables.State) (a : Api.TableSession) :
  Tables.activeSession s = Some a ->
  (forall x : Q,
      Tables.amountReceived s = Js.Num x ->
      x < TablesMore.sessionTotal a ->
      TablesMore.payDisabled s a = true
      /\ Api.exec env (TablesMore.clickConfirmPago s) s = ([], s))
  /\ (forall t : Api.RestaurantTable,
         Tables.selectedTable s = Some t ->
         Api.table_status t = Api.OCUPADA ->
         TablesMore.hasLines a = true ->
         Tables.processing s = false ->
         let s1 := snd (Api.exec env (TablesMore.clickCobrar s) s) in
         Tables.showPayModal s1 = true
         /\ Tables.amountReceived s1 = Js.Num (TablesMore.sessionTotal a)
         /\ TablesMore.payDisabled s1 a = false
         /\ hd_error (fst (Api.exec env (TablesMore.clickConfirmPago s1) s1))
            = Some (Api.Await
                      (Api.TablePay (Api.table_id t)
                         {| Api.pay_paymentMethod := Tables.paymentMethod s;
                            Api.pay_amountReceived := Js.Num (TablesMore.sessionTotal a);
                            Api.pay_discountPercent := None;
                            Api.pay_notes := None |})))
  /\ (TablesMore.hasLines a = false ->
      Api.exec env (TablesMore.clickCobrar s) s = ([], s))
  /\ (forall t : Api.RestaurantTable,
         Tables.selectedTable s = Some t ->
         Tables.showPayModal s = true ->
         Tables.processing s = false ->
         let s1 := snd (Api.exec env (TablesMore.clickTarjeta s) s) in
         TablesMore.payDisabled s1 a = false
         /\ hd_error (fst (Api.exec env (TablesMore.clickConfirmPago s1) s1))
            = Some (Api.Await
                      (Api.TablePay (Api.table_id t)
                         {| Api.pay_paymentMethod := Api.TARJETA_CREDITO;
                            Api.pay_amountReceived := Js.Num (TablesMore.sessionTotal a);
                            Api.pay_discountPercent := None;
                            Api.pay_notes := None |}))).
Proof.
  intros Hact.
  split; [| split; [| split]].
  - intros x Hx Hlt.
    assert (Hd : TablesMore.payDisabled s a = true).
    { unfold TablesMore.payDisabled. rewrite Hx.
      rewrite (lt_blocks x (TablesMore.sessionTotal a) Hlt). apply orb_true_r. }
    split; [exact Hd |].
    unfold TablesMore.clickConfirmPago. rewrite Hact, Hd.
    rewrite andb_false_r. reflexivity.
  - intros t Hsel Hst Hlines Hproc s1.
    assert (Hs1 : s1 = Tables.setAmountReceived (Js.Num (TablesMore.sessionTotal a))
                         (Tables.setShowPayModal true s)).
    { unfold s1, TablesMore.clickCobrar, Api.exec.
      rewrite Hsel, Hact, Hst, Hlines. reflexivity. }
    assert (Hd : TablesMore.payDisabled s1 a = false).
    { rewrite Hs1. unfold TablesMore.payDisabled. simpl. rewrite Hproc. simpl.
      destruct (Qle_bool (TablesMore.sessionTotal a) (TablesMore.sessionTotal a)) eqn:E;
        [reflexivity |].
      exfalso. assert (Hle : Qle_bool (TablesMore.sessionTotal a) (TablesMore.sessionTotal a) = true)
        by (apply Qle_bool_iff, Qle_refl).
      congruence. }
    split; [rewrite Hs1; reflexivity |].
    split; [rewrite Hs1; reflexivity |].
    split; [exact Hd |].
    unfold TablesMore.clickConfirmPago.
    assert (Hact1 : Tables.activeSession s1 = Some a) by (rewrite Hs1; exact Hact).
    assert (Hshow : Tables.showPayModal s1 = true) by (rewrite Hs1; reflexivity).
    assert (Hsel1 : Tables.selectedTable s1 = Some t) by (rewrite Hs1; exact Hsel).
    rewrite Hact1, Hshow, Hd. simpl andb. cbv iota.
    unfold Api.exec, Tables.handlePayTable. rewrite Hsel1, Hact1.
    assert (Hreq : Tables.payTableRequest s1
                   = {| Api.pay_paymentMethod := Tables.paymentMethod s;
                        Api.pay_amountReceived := Js.Num (TablesMore.sessionTotal a);
                        Api.pay_discountPercent := None;
                        Api.pay_notes := None |}) by (rewrite Hs1; reflexivity).
    rewrite Hreq. cbn. each_answer; reflexivity.
  - intros Hlines. unfold TablesMore.clickCobrar, Api.exec. rewrite Hact, Hlines.
    destruct (Tables.selectedTable s); [| reflexivity].
    rewrite andb_false_r. reflexivity.
  - intros t Hsel Hshow Hproc s1.
    assert (Hs1 : s1 = Tables.setAmountReceived (Js.Num (TablesMore.sessionTotal a))
                         (TablesMore.setPaymentMethod Api.TARJETA_CREDITO s)).
    { unfold s1, TablesMore.clickTarjeta, Api.exec. rewrite Hact, Hshow. reflexivity. }
    assert (Hd : TablesMore.payDisabled s1 a = false).
    { rewrite Hs1. unfold TablesMore.payDisabled. simpl. rewrite Hproc. simpl.
      destruct (Qle_bool (TablesMore.sessionTotal a) (TablesMore.sessionTotal a)) eqn:E;
        [reflexivity |].
      exfalso. assert (Hle : Qle_bool (TablesMore.sessionTotal a) (TablesMore.sessionTotal a) = true)
        by (apply Qle_bool_iff, Qle_refl).
      congruence. }
    split; [exact Hd |].
    unfold TablesMore.clickConfirmPago.
    assert (Hact1 : Tables.activeSession s1 = Some a) by (rewrite Hs1; exact Hact).
    assert (Hshow1 : Tables.showPayModal s1 = true) by (rewrite Hs1; exact Hshow).
    assert (Hsel1 : Tables.selectedTable s1 = Some t) by (rewrite Hs1; exact Hsel).
    rewrite Hact1, Hshow1, Hd. simpl andb. cbv iota.
    unfold Api.exec, Tables.handlePayTable. rewrite Hsel1, Hact1.
    assert (Hreq : Tables.payTableRequest s1
                   = {| Api.pay_paymentMethod := Api.TARJETA_CREDITO;
                        Api.pay_amountReceived := Js.Num (TablesMore.sessionTotal a);
                        Api.pay_discountPercent := None;
                        Api.pay_notes := None |}) by (rewrite Hs1; reflexivity).
    rewrite Hreq. cbn. each_answer; reflexivity.
Qed.

Lemma table_pay_guard_witness :
  let s := Tables.setAmountReceived (Js.Num 11999)
             (Tables.setActiveSession (Some Examples.session7) Examples.tablesPage) in
  TablesMore.payDisabled s Examples.session7 = true
  /\ Api.exec Examples.server (TablesMore.clickConfirmPago s) s = ([], s).
Proof.
  intros s.
  apply (proj1 (table_pay_guard Examples.server s Examples.session7 eq_refl) 11999);
    reflexivity.
Defined.

Section DraftAsAWhole.
Import Api Tables TablesMore.

Lemma applyOp_ok (op : DraftOp) (l : list DraftItem) : draft_ok l -> draft_ok (applyOp op l).
Proof.
  destruct op; simpl.
  - apply addProductToList_ok.
  - apply updateItemQuantity_ok.
  - apply removeItemFromList_ok.
Qed.

Lemma fold_applyOp_ok (ops : list DraftOp) (l : list DraftItem) :
  draft_ok l -> draft_ok (fold_left (fun d op => applyOp op d) ops l).
Proof.
  revert l. induction ops as [| op ops IH]; simpl; intros l H.
  - exact H.
  - apply IH, applyOp_ok, H.
Qed.

Lemma draftAfter_ok (ops : list DraftOp) : draft_ok (draftAfter ops).
Proof.
  apply fold_applyOp_ok. split; constructor.
Qed.

End DraftAsAWhole.

(** X10.  Whatever the user did in the add-items modal since it opened
    (adding products, changing quantities, removing entries, in any order),
    the request "Confirmar" sends has one item per product and no quantity
    below 1; with nothing left in the draft no request is sent, and
    otherwise the add-items request of the selected table is the first thing
    the handler does. *)
Theorem draft_request_well_formed (env : Api.Env) (s : Tables.State)
        (t : Api.RestaurantTable) (ops : list TablesMore.DraftOp) :
  Tables.selectedTable s = Some t ->
  Tables.itemsToAdd s = TablesMore.draftAfter ops ->
  let items := Tables.addItemsRequest s in
  NoDup (map Api.ti_productId items)
  /\ Forall (fun i => (1 <= Api.ti_quantity i)%Z) items
  /\ (TablesMore.draftAfter ops = [] ->
      Api.exec env (Tables.handleAddItems s) s = ([], s))
  /\ (TablesMore.draftAfter ops <> [] ->
      hd_error (fst (Api.exec env (Tables.handleAddItems s) s))
      = Some (Api.Await (Api.TableAddItems (Api.table_id t) items))).
Proof.
  intros Hsel Hdraft items.
  destruct (draftAfter_ok ops) as [Hq Hnd].
  split; [| split; [| split]].
  - unfold items, Tables.addItemsRequest. rewrite Hdraft, map_map. exact Hnd.
  - unfold items, Tables.addItemsRequest. rewrite Hdraft.
    apply Forall_map. exact Hq.
  - intros Hempty. unfold Api.exec, Tables.handleAddItems.
    rewrite Hsel, Hdraft, Hempty. reflexivity.
  - intros Hne. subst items. unfold Api.exec, Tables.handleAddItems. rewrite Hsel.
    destruct (Tables.itemsToAdd s) as [| d l] eqn:Hl; [congruence |].
    cbn. each_answer; reflexivity.
Qed.

Lemma draft_request_well_formed_witness :
  let ops := [TablesMore.AddProduct Examples.productA;
              TablesMore.AddProduct Examples.productA;
              TablesMore.ChangeQuantity 1 (-5)] in
  let s := Tables.setItemsToAdd (TablesMore.draftAfter ops) Examples.tablesPage in
  Tables.addItemsRequest s
  = [ {| Api.ti_productId := 1; Api.ti_quantity := 2; Api.ti_unitPrice := 4000 |} ]
  /\ NoDup (map Api.ti_productId (Tables.addItemsRequest s))
  /\ Forall (fun i => (1 <= Api.ti_quantity i)%Z) (Tables.addItemsRequest s).
Proof.
  intros ops s.
  destruct (draft_request_well_formed Examples.server s (Examples.table5 Api.OCUPADA) ops
              eq_refl eq_refl) as [H1 [H2 _]].
  split; [reflexivity | split; [exact H1 | exact H2]].
Defined.

(** ** More of the invoices page *)

(** X11.  With an invoice selected and a reason that is not blank: when the
    void request succeeds the handler shows "Factura anulada", closes the
    modal and starts the refetch of the invoices, with the list it holds
    untouched until the answer comes; when it is rejected the handler shows
    the message of the server or "Error al anular factura", requests
    nothing else and leaves the modal open with the reason as typed.  In
    both cases [processing] ends false.  Opening the void modal empties the
    reason, so that a confirmation right after it sends nothing. *)
Theorem void_outcomes (env : Api.Env) (s : Invoices.State) (inv : Api.Invoice) (c : N) :
  Invoices.selectedInvoice s = Some inv ->
  In c (Invoices.voidReason s) ->
  Js.isWhiteSpace c = false ->
  let void := Api.InvoiceVoid (Api.invoice_id inv) (Invoices.voidReason s) in
  (forall voided : Api.Invoice,
      env [] void = inr voided ->
      Api.exec env (Invoices.handleVoid s) s
      = ([Api.Await void;
          Api.Toast Api.ToastSuccess "Factura anulada";
          Api.Fire Api.InvoiceGetAll],
         Invoices.setProcessing false
           (Invoices.setLoading true (Invoices.setShowVoidModal false s))))
  /\ (forall e : Api.ApiError,
         env [] void = inl e ->
         Api.exec env (Invoices.handleVoid s) s
         = ([Api.Await void;
             Api.Toast Api.ToastError (Api.messageOr e "Error al anular factura")],
            Invoices.setProcessing false s))
  /\ (forall other : Api.Invoice,
         Api.exec env (Invoices.handleVoid (InvoicesMore.openVoidModal other s))
                  (InvoicesMore.openVoidModal other s)
         = ([], InvoicesMore.openVoidModal other s)).
Proof.
  intros Hsel Hin Hc void.
  pose proof (trim_keeps _ c Hin Hc) as Hk.
  split; [| split].
  - intros voided H. unfold Api.exec, Invoices.handleVoid. rewrite Hsel.
    destruct (Js.trim (Invoices.voidReason s)) as [| d r]; [contradiction |].
    cbn. each_answer; first_answer H E; reflexivity.
  - intros e H. unfold Api.exec, Invoices.handleVoid. rewrite Hsel.
    destruct (Js.trim (Invoices.voidReason s)) as [| d r]; [contradiction |].
    cbn. each_answer; first_answer H E; reflexivity.
  - intros other. reflexivity.
Qed.

Lemma void_outcomes_witness :
  let s := Examples.invoicesPage [110; 111]%N in
  Api.exec Examples.server (Invoices.handleVoid s) s
  = ([Api.Await (Api.InvoiceVoid 7 [110; 111]%N);
      Api.Toast Api.ToastSuccess "Factura anulada";
      Api.Fire Api.InvoiceGetAll],
     Invoices.setProcessing false
       (Invoices.setLoading true (Invoices.setShowVoidModal false s))).
Proof.
  intros s.
  apply (proj1 (void_outcomes Examples.server s Examples.invoice7 110%N
                  eq_refl (or_introl eq_refl) eq_refl) Examples.invoice8).
  reflexivity.
Defined.

(** ** The life of the events hook *)

Section HookLife.
Variable Json : Type.
Variable parse : string -> option Json.
Variable encode : string -> string.
Variable o : Sse.Options.

(** A listener only invokes callbacks. *)
Lemma listener_frame (name data : string) (w : Sse.World Json) :
  Sse.opened (Sse.listener parse o name data w) = Sse.opened w
  /\ Sse.pending (Sse.listener parse o name data w) = Sse.pending w
  /\ Sse.eventSourceRef (Sse.listener parse o name data w) = Sse.eventSourceRef w
  /\ Sse.reconnectTimeoutRef (Sse.listener parse o name data w)
     = Sse.reconnectTimeoutRef w.
Proof.
  unfold Sse.listener, Sse.parsed, Sse.call.
  repeat match goal with
         | |- context [if ?b then _ else _] => destruct b
         | |- context [match parse ?d with _ => _ end] => destruct (parse d)
         end; repeat split.
Qed.

Lemma steady_mounted (token : option string) :
  SseLife.steady (SseLife.mounted Json encode o token).
Proof.
  unfold SseLife.mounted, Sse.connect.
  destruct (Sse.enabledOf o); simpl.
  - destruct token as [tk |]; simpl.
    + destruct (String.eqb tk EmptyString); simpl.
      * left. repeat split. left. reflexivity.
      * right. eexists. repeat split.
    + left. repeat split. left. reflexivity.
  - left. repeat split. left. reflexivity.
Qed.

Lemma steady_connect_idle (w : Sse.World Json) (t : Z) :
  Sse.opened w = [] -> Sse.eventSourceRef w = None ->
  SseLife.steady (Sse.setNow t (Sse.connect encode o (Sse.setPending [] w))).
Proof.
  intros Ho Hr. unfold Sse.connect.
  destruct (Sse.enabledOf o); simpl.
  - destruct (Sse.accessToken w) as [tk |]; simpl.
    + destruct (String.eqb tk EmptyString); simpl.
      * left. repeat split; auto.
      * right. rewrite Ho. eexists. repeat split.
    + left. repeat split; auto.
  - left. repeat split; auto.
Qed.

Lemma steady_advance (dt : Z) (w : Sse.World Json) :
  SseLife.steady w -> SseLife.steady (Sse.advance encode o dt w).
Proof.
  intros [[Ho [Hr Hp]] | [src [Ho [Hr Hp]]]]; unfold Sse.advance.
  - destruct Hp as [Hp | [t [Hp Ht]]]; rewrite Hp; simpl.
    + left. repeat split; auto.
    + destruct (Sse.timer_due t <=? Sse.now w + dt)%Z; simpl.
      * pose proof (steady_connect_idle (Sse.setNow (Sse.timer_due t) w)
                      (Sse.now w + dt)%Z Ho Hr) as H.
        exact H.
      * left. repeat split; auto. right. exists t. split; [reflexivity | exact Ht].
  - rewrite Hp. simpl. right. exists src. repeat split; auto.
Qed.

Lemma steady_deliver (es : nat) (i : Sse.Incoming) (w : Sse.World Json) :
  SseLife.steady w -> SseLife.steady (Sse.deliver parse o es i w).
Proof.
  intros Hs. unfold Sse.deliver, Sse.isOpen.
  destruct Hs as [[Ho [Hr Hp]] | [src [Ho [Hr Hp]]]].
  - rewrite Ho. simpl. left. repeat split; auto.
  - rewrite Ho. simpl. destruct (Sse.src_id src =? es)%nat eqn:E; simpl.
    + destruct i as [name data |].
      * destruct (listener_frame name data w) as [F1 [F2 [F3 F4]]].
        right. exists src. rewrite F1, F2, F3. repeat split; auto.
      * left. unfold Sse.onerror. simpl. rewrite Ho, Hp. simpl. rewrite E. simpl.
        repeat split. right. eexists. split; reflexivity.
    + right. exists src. repeat split; auto.
Qed.

Lemma steady_after (acts : list SseLife.Action) (w : Sse.World Json) :
  SseLife.steady w -> SseLife.steady (SseLife.after parse encode o acts w).
Proof.
  revert w. induction acts as [| a acts IH]; simpl; intros w H.
  - exact H.
  - apply IH. destruct a as [es i | dt | t]; simpl.
    + apply steady_deliver, H.
    + apply steady_advance, H.
    + exact H.
Qed.

Lemma cleanup_quiet (w : Sse.World Json) :
  SseLife.steady w ->
  Sse.opened (Sse.cleanup w) = [] /\ Sse.pending (Sse.cleanup w) = []
  /\ Sse.invoked (Sse.cleanup w) = Sse.invoked w.
Proof.
  intros [[Ho [Hr Hp]] | [src [Ho [Hr Hp]]]]; unfold Sse.cleanup; simpl.
  - rewrite Ho, Hr. destruct Hp as [Hp | [t [Hp Ht]]]; rewrite Hp.
    + repeat split. destruct (Sse.reconnectTimeoutRef w); reflexivity.
    + rewrite Ht. simpl. rewrite Nat.eqb_refl. repeat split.
  - rewrite Ho, Hr, Hp. simpl. rewrite Nat.eqb_refl. simpl.
    repeat split. destruct (Sse.reconnectTimeoutRef w); reflexivity.
Qed.

(** Once nothing is open and nothing is pending, nothing happens. *)
Lemma quiet_after (acts : list SseLife.Action) (w : Sse.World Json) :
  Sse.opened w = [] -> Sse.pending w = [] ->
  Sse.opened (SseLife.after parse encode o acts w) = []
  /\ Sse.pending (SseLife.after parse encode o acts w) = []
  /\ Sse.invoked (SseLife.after parse encode o acts w) = Sse.invoked w.
Proof.
  revert w. induction acts as [| a acts IH]; simpl; intros w Ho Hp.
  - repeat split; assumption.
  - assert (Hstep : Sse.opened (SseLife.act parse encode o a w) = []
                    /\ Sse.pending (SseLife.act parse encode o a w) = []
                    /\ Sse.invoked (SseLife.act parse encode o a w) = Sse.invoked w).
    { destruct a as [es i | dt | t]; simpl.
      - unfold Sse.deliver, Sse.isOpen. rewrite Ho. simpl. repeat split; assumption.
      - unfold Sse.advance. rewrite Hp. simpl. repeat split; assumption.
      - repeat split; assumption. }
    destruct Hstep as [H1 [H2 H3]].
    destruct (IH _ H1 H2) as [G1 [G2 G3]].
    repeat split; [exact G1 | exact G2 | rewrite G3; exact H3].
Qed.

End HookLife.

(** X12.  From mount on, whatever reaches the hook (events and errors on
    any source, time passing, the token being stored or removed), it holds
    at most one open connection, which is the one its ref names, and at most
    one pending reconnect, never both at once.  Unmounting closes the
    connection and clears the pending reconnect, and after it nothing is
    opened and no callback is invoked any more. *)
Theorem sse_single_connection (Json : Type) (parse : string -> option Json)
        (encode : string -> string) (o : Sse.Options) (token : option string)
        (acts more : list SseLife.Action) :
  let w := SseLife.after parse encode o acts (SseLife.mounted Json encode o token) in
  let u := Sse.cleanup w in
  (List.length (Sse.opened w) <= 1)%nat
  /\ (List.length (Sse.pending w) <= 1)%nat
  /\ (Sse.opened w = [] \/ Sse.pending w = [])
  /\ Sse.eventSourceRef w = option_map Sse.src_id (hd_error (Sse.opened w))
  /\ Sse.opened u = []
  /\ Sse.pending u = []
  /\ Sse.opened (SseLife.after parse encode o more u) = []
  /\ Sse.invoked (SseLife.after parse encode o more u) = Sse.invoked w.
Proof.
  intros w u.
  assert (Hs : SseLife.steady w).
  { apply steady_after, steady_mounted. }
  destruct (cleanup_quiet Json w Hs) as [C1 [C2 C3]].
  destruct (quiet_after Json parse encode o more u C1 C2) as [Q1 [_ Q3]].
  assert (Hshape : (List.length (Sse.opened w) <= 1)%nat
                   /\ (List.length (Sse.pending w) <= 1)%nat
                   /\ (Sse.opened w = [] \/ Sse.pending w = [])
                   /\ Sse.eventSourceRef w = option_map Sse.src_id (hd_error (Sse.opened w))).
  { destruct Hs as [[Ho [Hr Hp]] | [src [Ho [Hr Hp]]]].
    - rewrite Ho, Hr. simpl.
      destruct Hp as [Hp | [t [Hp _]]]; rewrite Hp; simpl; repeat split; auto.
    - rewrite Ho, Hr, Hp. simpl. repeat split; auto. }
  destruct Hshape as [S1 [S2 [S3 S4]]].
  repeat split; assumption.
Qed.

(** ** Normalising a product *)

(** X13.  A product sent with its stock nested under [inventory] is read
    from there, whatever flat stock field comes with it; without a nested
    quantity the flat [stockQuantity] is read.  A product sent with no stock
    field at all gets no inventory, and one whose quantity is missing or
    null gets quantity 0: in both cases its card is disabled, so that a
    click on it adds nothing and shows nothing.  A missing maximum stock
    reads as 999999. *)
Theorem normalized_stock (p : Normalize.RawProduct) :
  (forall (ri : Normalize.RawInventory) (q : Q),
      Normalize.raw_inventory p = Normalize.value ri ->
      Normalize.rinv_quantity ri = Normalize.value (Js.Num q) ->
      POS.stock (Normalize.normalizeProduct p) == q)
  /\ (forall q : Q,
         Normalize.chain (Normalize.raw_inventory p) Normalize.rinv_quantity
         = Normalize.undefined
         \/ Normalize.chain (Normalize.raw_inventory p) Normalize.rinv_quantity
            = Normalize.null ->
         Normalize.raw_stockQuantity p = Normalize.value (Js.Num q) ->
         POS.stock (Normalize.normalizeProduct p) == q)
  /\ (Normalize.stockQuantity p = Normalize.undefined
      \/ Normalize.stockQuantity p = Normalize.null ->
      forall (env : Api.Env) (s : POS.State),
        Api.exec env (POS.clickProduct (Normalize.normalizeProduct p) s) s = ([], s))
  /\ (Api.inventory (Normalize.normalizeProduct p) = None
      <-> Normalize.stockQuantity p = Normalize.undefined
          /\ Normalize.minStock p = Normalize.undefined
          /\ Normalize.maxStock p = Normalize.undefined
          /\ Normalize.location p = Normalize.undefined)
  /\ (forall inv : Api.Inventory,
         Api.inventory (Normalize.normalizeProduct p) = Some inv ->
         Normalize.maxStock p = Normalize.undefined ->
         Api.inv_maxStock inv = Js.Num 999999).
Proof.
  split; [| split; [| split; [| split]]].
  - intros ri q Hi Hq. unfold POS.stock, Normalize.normalizeProduct. simpl.
    unfold Normalize.stockQuantity. rewrite Hi. simpl. rewrite Hq. simpl.
    apply or_zero_num.
  - intros q Hn Hq. unfold POS.stock, Normalize.normalizeProduct. simpl.
    unfold Normalize.stockQuantity. destruct Hn as [Hn | Hn]; rewrite Hn, Hq; simpl;
      apply or_zero_num.
  - intros H env s. unfold POS.clickProduct.
    assert (H0 : POS.stock (Normalize.normalizeProduct p) = 0).
    { unfold POS.stock, Normalize.normalizeProduct. simpl.
      destruct H as [H | H]; rewrite H; simpl.
      - destruct (Normalize.isDefined (Normalize.minStock p)
                  || Normalize.isDefined (Normalize.maxStock p)
                  || Normalize.isDefined (Normalize.location p)); reflexivity.
      - reflexivity. }
    rewrite H0. reflexivity.
  - unfold Normalize.normalizeProduct. simpl.
    destruct (Normalize.stockQuantity p), (Normalize.minStock p),
      (Normalize.maxStock p), (Normalize.location p); simpl;
      split; intros H; try discriminate; try (repeat split; fail);
      destruct H as [H1 [H2 [H3 H4]]]; discriminate.
  - intros inv Hinv Hmax. unfold Normalize.normalizeProduct in Hinv. simpl in Hinv.
    destruct (Normalize.isDefined (Normalize.stockQuantity p)
              || Normalize.isDefined (Normalize.minStock p)
              || Normalize.isDefined (Normalize.maxStock p)
              || Normalize.isDefined (Normalize.location p)); [| discriminate].
    injection Hinv as <-. simpl. rewrite Hmax. reflexivity.
Qed.

Lemma normalized_stock_witness :
  let nested := {| Normalize.rinv_quantity := Normalize.value (Js.Num 7);
                   Normalize.rinv_minStock := Normalize.undefined;
                   Normalize.rinv_maxStock := Normalize.undefined;
                   Normalize.rinv_location := Normalize.null |} in
  let raw := fun inv flat =>
               {| Normalize.raw_id := 1; Normalize.raw_code := "A";
                  Normalize.raw_name := "A"; Normalize.raw_salePrice := 4000;
                  Normalize.raw_category := Normalize.undefined;
                  Normalize.raw_categoryId := Normalize.value 3%Z;
                  Normalize.raw_inventory := inv;
                  Normalize.raw_stockQuantity := flat;
                  Normalize.raw_minStock := Normalize.undefined;
                  Normalize.raw_maxStock := Normalize.undefined;
                  Normalize.raw_location := Normalize.undefined |} in
  POS.stock (Normalize.normalizeProduct
               (raw (Normalize.value nested) (Normalize.value (Js.Num 2)))) == 7
  /\ POS.stock (Normalize.normalizeProduct
                  (raw Normalize.null (Normalize.value (Js.Num 2)))) == 2
  /\ Api.exec Examples.server
       (POS.clickProduct (Normalize.normalizeProduct (raw Normalize.null Normalize.undefined))
                         Examples.cash19999)
       Examples.cash19999
     = ([], Examples.cash19999).
Proof.
  intros nested raw.
  split; [| split].
  - apply (proj1 (normalized_stock (raw (Normalize.value nested) (Normalize.value (Js.Num 2))))
             nested 7); reflexivity.
  - apply (proj1 (proj2 (normalized_stock (raw Normalize.null (Normalize.value (Js.Num 2)))))
             2); [left |]; reflexivity.
  - apply (proj1 (proj2 (proj2 (normalized_stock (raw Normalize.null Normalize.undefined))))).
    left. reflexivity.
Defined.
